(** * git-detective: a shallow embedding of [analyze_hotspots.py]

    The development follows the pipeline of the analyzer:
    exclusion patterns ([should_exclude]), the parsers of the history log
    ([get_revision_frequency], [get_churn_data], [get_commit_messages]),
    the scorer ([calculate_hotspots]), the tree builder ([build_hierarchy])
    and the validity check of the result cache ([load_cache]).

    Conventions.
    - A Python [str] is a [string] of 8-bit characters; [lower] and [strip]
      act on the ASCII range (git prints other bytes of a path escaped).
    - A Python [dict] read as a map is a [gmap]; the children of a tree node,
      whose order is observable, are an association list.
    - A Python [int] is a [Z].  A finite Python [float] is the rational it
      denotes, and every float operation rounds to the nearest binary64,
      ties to even ([PyFloat.rnd]); signed zeros are identified.
    - [fnmatch.fnmatch] of the Python library is a parameter of the
      functions that call it; [fnmatch_simple] implements it for patterns
      without a bracket expression and serves the examples.
    - A Python exception is a constructor of [exn], threaded by [result]. *)

From Stdlib Require Import ZArith QArith Qround Qpower Qabs Lqa Lia.
From Stdlib Require Import Ascii String List Bool Permutation Sorted.
From Stdlib Require Import Floats.
From stdpp Require Import gmap strings list fin_maps sorting.

Set Warnings "-register-all,-inexact-float".

Local Open Scope string_scope.
Local Open Scope Z_scope.

(* ===================================================================== *)
(** * Exceptions *)
(* ===================================================================== *)

Inductive exn : Type :=
| ZeroDivisionError
| OverflowError
| KeyError (key : string)
| AttributeError.

Inductive result (A : Type) : Type :=
| Ok (a : A)
| Raise (e : exn).

Arguments Ok {A} a.
Arguments Raise {A} e.

Definition rbind {A B} (r : result A) (k : A -> result B) : result B :=
  match r with
  | Ok a => k a
  | Raise e => Raise e
  end.

Notation "'do' x <- r ; k" := (rbind r (fun x => k))
  (at level 10, x name, r at level 100, k at level 200, only parsing).

(* ===================================================================== *)
(** * Python string operations *)
(* ===================================================================== *)

Module PyStr.

Definition TAB : ascii := "009"%char.
Definition LF : ascii := "010"%char.

(** [str.isspace] on one ASCII character: 0x09-0x0D, 0x1C-0x1F, 0x20. *)
Definition is_space (c : ascii) : bool :=
  let n := N_of_ascii c in
  ((9 <=? n)%N && (n <=? 13)%N) || ((28 <=? n)%N && (n <=? 32)%N).

Definition lower_char (c : ascii) : ascii :=
  let n := N_of_ascii c in
  if ((65 <=? n)%N && (n <=? 90)%N)%bool then ascii_of_N (n + 32) else c.

(** [s.lower()] *)
Fixpoint lower (s : string) : string :=
  match s with
  | EmptyString => EmptyString
  | String c s' => String (lower_char c) (lower s')
  end.

(** [c in s] for a one-character [c] *)
Fixpoint contains (c : ascii) (s : string) : bool :=
  match s with
  | EmptyString => false
  | String d s' => Ascii.eqb c d || contains c s'
  end.

(** [s.lstrip(chars)], the characters to drop given by a predicate *)
Fixpoint lstrip_by (drop : ascii -> bool) (s : string) : string :=
  match s with
  | EmptyString => EmptyString
  | String c s' => if drop c then lstrip_by drop s' else s
  end.

(** [s.rstrip(chars)] *)
Fixpoint rstrip_by (drop : ascii -> bool) (s : string) : string :=
  match s with
  | EmptyString => EmptyString
  | String c s' =>
      match rstrip_by drop s' with
      | EmptyString => if drop c then EmptyString else String c EmptyString
      | r => String c r
      end
  end.

(** [s.strip()] *)
Definition strip (s : string) : string :=
  rstrip_by is_space (lstrip_by is_space s).

(** [s.rstrip(chars)]: every trailing character that occurs in [chars] goes *)
Definition rstrip (chars : string) (s : string) : string :=
  rstrip_by (fun c => contains c chars) s.

(** [s.split(sep)] for a one-character [sep]; never the empty list *)
Fixpoint split (sep : ascii) (s : string) : list string :=
  match s with
  | EmptyString => [EmptyString]
  | String c s' =>
      if Ascii.eqb c sep then EmptyString :: split sep s'
      else match split sep s' with
           | [] => [String c EmptyString]
           | w :: ws => String c w :: ws
           end
  end.

(** [s.split(sep, maxsplit)] *)
Fixpoint splitn (sep : ascii) (s : string) (maxsplit : nat) {struct s}
  : list string :=
  match maxsplit with
  | O => [s]
  | S k =>
      match s with
      | EmptyString => [EmptyString]
      | String c s' =>
          if Ascii.eqb c sep then EmptyString :: splitn sep s' k
          else match splitn sep s' maxsplit with
               | [] => [String c EmptyString]
               | w :: ws => String c w :: ws
               end
      end
  end.

(** [sep.join(parts)] *)
Definition join (sep : string) (parts : list string) : string :=
  String.concat sep parts.

(** [s.startswith(p)] *)
Definition startswith (s p : string) : bool := String.prefix p s.

(** [s[n:]] *)
Fixpoint slice_from (n : nat) (s : string) : string :=
  match n, s with
  | O, _ => s
  | S k, EmptyString => EmptyString
  | S k, String _ s' => slice_from k s'
  end.

(** [s.endswith(p)] *)
Definition endswith (s p : string) : bool :=
  (String.length p <=? String.length s)%nat
  && String.eqb (slice_from (String.length s - String.length p) s) p.

(** [s[:n]] *)
Fixpoint slice_to (n : nat) (s : string) : string :=
  match n, s with
  | O, _ => EmptyString
  | S k, EmptyString => EmptyString
  | S k, String c s' => String c (slice_to k s')
  end.

(** The lines of a log, as text: [lines_text [l1; l2]] is "l1\nl2". *)
Definition lines_text (ls : list string) : string :=
  join (String LF EmptyString) ls.

(** A record of tab-separated fields. *)
Definition tabbed (fields : list string) : string :=
  join (String TAB EmptyString) fields.

Definition is_digit (c : ascii) : bool :=
  let n := N_of_ascii c in ((48 <=? n)%N && (n <=? 57)%N).

Definition digit_val (c : ascii) : Z := Z.of_N (N_of_ascii c) - 48.

(** The digits of a decimal literal, after the sign: a digit first, then
    digits, each optionally preceded by a single underscore. *)
Fixpoint int_digits (acc : Z) (after_digit : bool) (s : string) : option Z :=
  match s with
  | EmptyString => if after_digit then Some acc else None
  | String c s' =>
      if is_digit c then int_digits (10 * acc + digit_val c) true s'
      else if (Ascii.eqb c "_" && after_digit)%bool then
        match s' with
        | String d _ => if is_digit d then int_digits acc false s' else None
        | EmptyString => None
        end
      else None
  end.

(** [int(s)] for a string: [None] is [ValueError].  Surrounding white space
    is dropped, one sign is read, the rest is a decimal literal. *)
Definition int (s : string) : option Z :=
  match strip s with
  | String "-" ds => option_map Z.opp (int_digits 0 false ds)
  | String "+" ds => int_digits 0 false ds
  | ds => int_digits 0 false ds
  end.

End PyStr.

(* ===================================================================== *)
(** * Exclusion patterns *)
(* ===================================================================== *)

(** [fnmatch.fnmatch] restricted to patterns without a bracket expression:
    [*] matches any run of characters (slashes included), [?] one character,
    any other character itself.  On a POSIX system the name and the pattern
    are compared as they are. *)
Fixpoint glob_match (pat : string) (name : string) {struct pat} : bool :=
  match pat with
  | EmptyString =>
      match name with EmptyString => true | _ => false end
  | String "*" pat' =>
      (fix star (n : string) : bool :=
         glob_match pat' n
         || match n with
            | EmptyString => false
            | String _ n' => star n'
            end) name
  | String "?" pat' =>
      match name with
      | EmptyString => false
      | String _ name' => glob_match pat' name'
      end
  | String c pat' =>
      match name with
      | EmptyString => false
      | String d name' => Ascii.eqb c d && glob_match pat' name'
      end
  end.

(** [fnmatch.fnmatch(name, pat)] with the argument order of Python. *)
Definition fnmatch_simple (name pat : string) : bool := glob_match pat name.

Definition DEFAULT_EXCLUSIONS : list string :=
  [ "yarn.lock"; "package-lock.json"; "pnpm-lock.yaml"; "poetry.lock";
    "Pipfile.lock"; "uv.lock"; "go.sum"; "Gemfile.lock"; "composer.lock";
    "Cargo.lock";
    "node_modules/*"; "vendor/*"; "venv/*"; ".venv/*"; "env/*"; ".env/*";
    "__pycache__/*"; ".pytest_cache/*"; ".mypy_cache/*"; ".tox/*";
    "site-packages/*"; "dist-packages/*";
    "dist/*"; "build/*"; "target/*"; "out/*"; ".next/*"; ".nuxt/*";
    "coverage/*"; ".coverage"; "htmlcov/*"; "*.egg-info/*";
    ".idea/*"; ".vscode/*"; "*.swp"; "*.swo"; ".DS_Store"; "Thumbs.db";
    "*.png"; "*.jpg"; "*.jpeg"; "*.gif"; "*.ico"; "*.svg"; "*.webp";
    "*.bmp"; "*.tiff"; "*.pdf"; "*.zip"; "*.tar"; "*.gz"; "*.rar"; "*.7z";
    "*.woff"; "*.woff2"; "*.ttf"; "*.eot"; "*.mp3"; "*.mp4"; "*.wav";
    "*.avi"; "*.mov";
    "*.pyc"; "*.pyo"; "*.class"; "*.o"; "*.so"; "*.dll"; "*.exe"; "*.jar";
    "*.war"; "*.min.js"; "*.min.css"; "*.map"; "*.bundle.js"; "*.chunk.js";
    "*.tfstate"; "*.tfstate.backup"; ".terraform/*"; ".terraform.lock.hcl";
    "*.log"; "test/fixtures/*"; "tests/fixtures/*"; "__snapshots__/*";
    "docs/_build/*"; "site/*"; ".docusaurus/*";
    "*.generated.*"; "*.auto.*"; "package-lock.json" ].

Section Exclusion.

(** [fnmatch.fnmatch(name, pat)] of the Python library. *)
Variable fnmatch : string -> string -> bool.

(** The loop [for i, part in enumerate(parts)] of [should_exclude]; the
    argument is [parts[i:]], whose head is [part]. *)
Fixpoint parts_loop (pattern_lower : string) (rest : list string) : bool :=
  match rest with
  | [] => false
  | part :: rest' =>
      if fnmatch part (PyStr.rstrip "/*" pattern_lower) then true
      else if fnmatch (PyStr.join "/" rest) pattern_lower then true
      else parts_loop pattern_lower rest'
  end.

(** The body of [for pattern in exclusion_patterns]: [true] is [return True]. *)
Definition pattern_excludes (filepath pattern : string) : bool :=
  let filepath_lower := PyStr.lower filepath in
  let pattern_lower := PyStr.lower pattern in
  if fnmatch filepath_lower pattern_lower then true
  else if fnmatch filepath_lower ("*/" +:+ pattern_lower) then true
  else if PyStr.contains "/" filepath then
    parts_loop pattern_lower (PyStr.split "/" filepath_lower)
  else false.

Fixpoint should_exclude (filepath : string) (exclusion_patterns : list string)
  : bool :=
  match exclusion_patterns with
  | [] => false
  | pattern :: rest =>
      if pattern_excludes filepath pattern then true
      else should_exclude filepath rest
  end.

(** The three rules of the pattern matcher as the specification words them.
    [strip_dir_suffix] removes a trailing "/*". *)
Definition strip_dir_suffix (pattern : string) : string :=
  if PyStr.endswith pattern "/*"
  then PyStr.slice_to (String.length pattern - 2) pattern
  else pattern.

Definition rule_full_path (path pattern : string) : Prop :=
  fnmatch path pattern = true.

Definition rule_any_depth (path pattern : string) : Prop :=
  fnmatch path ("*/" +:+ pattern) = true.

Definition rule_segment (path pattern : string) : Prop :=
  exists (i : nat) (segment : string),
    PyStr.split "/" path !! i = Some segment /\
    (fnmatch segment (strip_dir_suffix pattern) = true \/
     fnmatch (PyStr.join "/" (drop i (PyStr.split "/" path))) pattern = true).

Definition isExcluded_spec (path : string) (patterns : list string) : Prop :=
  exists pattern, In pattern patterns /\
    (rule_full_path (PyStr.lower path) (PyStr.lower pattern) \/
     rule_any_depth (PyStr.lower path) (PyStr.lower pattern) \/
     rule_segment (PyStr.lower path) (PyStr.lower pattern)).

(** The third rule as the code has it: consulted only for a path with a
    slash, the segment compared with the pattern less every trailing
    slash and star. *)
Definition rule_segment_code (filepath pattern : string) : Prop :=
  PyStr.contains "/" filepath = true /\
  exists (i : nat) (segment : string),
    PyStr.split "/" (PyStr.lower filepath) !! i = Some segment /\
    (fnmatch segment (PyStr.rstrip "/*" (PyStr.lower pattern)) = true \/
     fnmatch (PyStr.join "/" (drop i (PyStr.split "/" (PyStr.lower filepath))))
       (PyStr.lower pattern) = true).

End Exclusion.

(* ===================================================================== *)
(** * History extractor *)
(* ===================================================================== *)

(** A commit record [{'hash', 'author', 'date', 'message'}]. *)
Record commit : Type := mk_commit {
  commit_hash : string;
  commit_author : string;
  commit_date : string;
  commit_message : string
}.

Section History.

Variable fnmatch : string -> string -> bool.

(** [if exclusions is None: exclusions = DEFAULT_EXCLUSIONS] *)
Definition exclusions_or_default (exclusions : option (list string))
  : list string :=
  match exclusions with
  | None => DEFAULT_EXCLUSIONS
  | Some e => e
  end.

(** ** Revision frequency *)

(** One turn of the loop of [get_revision_frequency]; [file_revisions] is a
    [defaultdict(int)]. *)
Definition revision_step (exclusions : list string)
    (file_revisions : gmap string Z) (raw : string) : gmap string Z :=
  let line := PyStr.strip raw in
  if negb (String.eqb line "") && negb (PyStr.startswith line "commit") then
    if negb (should_exclude fnmatch line exclusions) then
      <[line := default 0 (file_revisions !! line) + 1]> file_revisions
    else file_revisions
  else file_revisions.

(** [output] is what [run_git_command] returned: [None] when git failed. *)
Definition get_revision_frequency (output : option string)
    (exclusions : option (list string)) : gmap string Z :=
  match output with
  | None => ∅
  | Some out =>
      foldl (revision_step (exclusions_or_default exclusions)) ∅
        (PyStr.split PyStr.LF out)
  end.

(** ** Churn *)

(** The right-hand side [int(field) if field != '-' else 0]; [None] is the
    [ValueError] of [int]. *)
Definition churn_field (field : string) : option Z :=
  if negb (String.eqb field "-") then PyStr.int field else Some 0.

(** [file_churn[filename]] on the [defaultdict]: a missing key is entered
    with [{'added': 0, 'deleted': 0}] by the look-up itself. *)
Definition churn_touch (filename : string) (file_churn : gmap string (Z * Z))
  : gmap string (Z * Z) :=
  match file_churn !! filename with
  | Some _ => file_churn
  | None => <[filename := (0, 0)]> file_churn
  end.

(** One turn of the loop of [get_churn_data].  An augmented assignment
    evaluates its target, here the look-up in the [defaultdict], before its
    right-hand side; the two assignments run one after the other inside the
    [try], and [except ValueError: continue] keeps what was stored. *)
Definition churn_step (exclusions : list string)
    (file_churn : gmap string (Z * Z)) (line : string) : gmap string (Z * Z) :=
  match PyStr.split PyStr.TAB line with
  | [added; deleted; filename] =>
      if should_exclude fnmatch filename exclusions then file_churn
      else
        let touched := churn_touch filename file_churn in
        match churn_field added with
        | None => touched
        | Some a =>
            let after_added :=
              alter (fun ad => (fst ad + a, snd ad)) filename touched in
            match churn_field deleted with
            | None => after_added
            | Some d =>
                alter (fun ad => (fst ad, snd ad + d)) filename after_added
            end
        end
  | _ => file_churn
  end.

Definition get_churn_data (output : option string)
    (exclusions : option (list string)) : gmap string (Z * Z) :=
  match output with
  | None => ∅
  | Some out =>
      foldl (churn_step (exclusions_or_default exclusions)) ∅
        (PyStr.split PyStr.LF out)
  end.

(** ** Commit metadata *)

(** The state of the loop of [get_commit_messages]: [current_commit] and the
    [defaultdict(list)] [file_commits]. *)
Definition commit_state : Type := (option commit * gmap string (list commit)).

(** [parts = line[7:].split('|', 3)], and the record of [parts[0]] to
    [parts[3]] when [len(parts) >= 4], [None] otherwise. *)
Definition marker_parts (line : string) : list string :=
  PyStr.splitn "|" (PyStr.slice_from 7 line) 3.

Definition parse_marker (line : string) : option commit :=
  match marker_parts line with
  | h :: a :: d :: m :: _ => Some (mk_commit h a d m)
  | _ => None
  end.

Definition commit_step (exclusions : list string) (st : commit_state)
    (raw : string) : commit_state :=
  let '(current_commit, file_commits) := st in
  let line := PyStr.strip raw in
  if String.eqb line "" then st
  else if PyStr.startswith line "COMMIT:" then
    (parse_marker line, file_commits)
  else
    match current_commit with
    | Some c =>
        if PyStr.contains "/" line || PyStr.contains "." line then
          if negb (should_exclude fnmatch line exclusions) then
            (current_commit,
             <[line := (default [] (file_commits !! line) ++ [c])%list]>
               file_commits)
          else st
        else st
    | None => st
    end.

Definition commit_loop (exclusions : list string) (st : commit_state)
    (lines : list string) : commit_state :=
  foldl (commit_step exclusions) st lines.

Definition get_commit_messages (output : option string)
    (exclusions : option (list string)) : gmap string (list commit) :=
  match output with
  | None => ∅
  | Some out =>
      snd (commit_loop (exclusions_or_default exclusions) (None, ∅)
             (PyStr.split PyStr.LF out))
  end.

(** A marker line whose payload has fewer than four fields. *)
Definition malformed_marker (raw : string) : Prop :=
  PyStr.startswith (PyStr.strip raw) "COMMIT:" = true /\
  (length (marker_parts (PyStr.strip raw)) < 4)%nat.

(** A marker line that sets [current_commit] to a record. *)
Definition wellformed_marker (raw : string) : Prop :=
  PyStr.startswith (PyStr.strip raw) "COMMIT:" = true /\
  (4 <= length (marker_parts (PyStr.strip raw)))%nat.

End History.

(* ===================================================================== *)
(** * Python floats *)
(* ===================================================================== *)

(** A finite binary64 number is modelled by the rational it denotes.  The
    result of an operation is the exact result rounded to the nearest
    number of the format, ties to even: 53 bits of precision, least
    exponent -1074.  The two zeros are one number here.  Infinities and
    NaN are left out: a quotient of integers that would be infinite is an
    [OverflowError], and the products and sums of the scorer stay finite
    ([hotspot_floats_finite] below). *)
Module PyFloat.

Local Open Scope Q_scope.

(** [ilog2 x] is the [e] with [2^e <= x < 2^(e+1)], for a positive [x]. *)
Definition ilog2 (x : Q) : Z :=
  let e0 := (Z.log2 (Qnum x) - Z.log2 (Zpos (Qden x)))%Z in
  if Qle_bool (2 ^ e0) x then e0 else (e0 - 1)%Z.

(** Rounding to the nearest integer, ties to the even one. *)
Definition round_half_even (x : Q) : Z :=
  let f := Qfloor x in
  match Qcompare (x - inject_Z f) (1 # 2) with
  | Lt => f
  | Gt => (f + 1)%Z
  | Eq => if Z.even f then f else (f + 1)%Z
  end.

(** The exponent of the unit in the last place of a positive [x]. *)
Definition ulp_exp (x : Q) : Z := Z.max (ilog2 x - 52) (-1074).

Definition rnd_pos (x : Q) : Q :=
  inject_Z (round_half_even (x / 2 ^ ulp_exp x)) * 2 ^ ulp_exp x.

(** Rounding to the nearest binary64, ties to even. *)
Definition rnd (x : Q) : Q :=
  let x := Qred x in
  Qred (match Qcompare x 0 with
        | Eq => 0
        | Gt => rnd_pos x
        | Lt => - rnd_pos (- x)
        end).

(** The float a decimal literal of the source denotes. *)
Definition literal (x : Q) : Q := rnd x.

Definition fmul (x y : Q) : Q := rnd (x * y).
Definition fadd (x y : Q) : Q := rnd (x + y).

(** [a / b] on two [int]s: the quotient correctly rounded;
    [ZeroDivisionError] for a zero divisor, [OverflowError] when the
    rounded quotient is no finite float. *)
Definition true_div (a b : Z) : result Q :=
  if (b =? 0)%Z then Raise ZeroDivisionError
  else
    let q := rnd (inject_Z a / inject_Z b) in
    if Qle_bool (2 ^ 1024) (Qabs q) then Raise OverflowError else Ok q.

(** [round(x, ndigits)] on a float, [ndigits >= 0]: the exact value is
    rounded to [ndigits] decimals, ties to even, and the decimal read back
    as a float. *)
Definition round (x : Q) (ndigits : nat) : Q :=
  let scale := inject_Z (10 ^ Z.of_nat ndigits) in
  rnd (inject_Z (round_half_even (x * scale)) / scale).

(** [x < y] on floats *)
Definition flt (x y : Q) : bool := negb (Qle_bool y x).

(** The rational a binary64 number of the machine denotes, when it is
    finite: the model is compared with the machine on the numbers of the
    scenarios. *)
Definition machine_value (f : float) : option Q :=
  match Prim2SF f with
  | S754_zero _ => Some 0
  | S754_finite s m e =>
      Some (Qred ((if s then -1 else 1) * inject_Z (Zpos m) * 2 ^ e))
  | _ => None
  end.

End PyFloat.

(* ===================================================================== *)
(** * Hotspot scorer *)
(* ===================================================================== *)

(** An entry of the ranked list.  [churn] holds ['churn_added'],
    ['churn_deleted'] and ['total_churn'], which are set together;
    ['commits'] is attached by [main] after the scoring. *)
Record entry : Type := mk_entry {
  file : string;
  revisions : Z;
  lines : Z;
  hotspot_score : Q;
  norm_revisions : Q;
  churn : option (Z * Z * Z);
  authors : option Z;
  commits : option (list commit)
}.

(** [max] of a non-empty sequence of [int]s, the first element given apart. *)
Definition max_of (first : Z) (others : list Z) : Z :=
  foldl Z.max first others.

(** [max(d.values()) if d else 1] *)
Definition max_or_one (d : gmap string Z) : Z :=
  match (map_to_list d).*2 with
  | [] => 1
  | v :: vs => max_of v vs
  end.

(** [if d and filepath in d: ... d[filepath]] for an optional dictionary:
    [None], like the empty dictionary, is false. *)
Definition optional_lookup {V} (d : option (gmap string V)) (filepath : string)
  : option V :=
  match d with
  | None => None
  | Some m => m !! filepath
  end.

(** The floats [0.7] and [0.3] of the source. *)
Definition weight_revisions : Q := PyFloat.literal (7 # 10).
Definition weight_loc : Q := PyFloat.literal (3 # 10).

(** [hotspots.sort(key=lambda x: x['hotspot_score'], reverse=True)]: the
    sort is stable, so of two entries with the same score the one that was
    first stays first. *)
Fixpoint insert_by_score (e : entry) (sorted : list entry) : list entry :=
  match sorted with
  | [] => [e]
  | h :: t =>
      if PyFloat.flt (hotspot_score e) (hotspot_score h)
      then h :: insert_by_score e t
      else e :: sorted
  end.

Definition sort_by_score_desc (hotspots : list entry) : list entry :=
  foldr insert_by_score [] hotspots.

Section Scorer.

(** The order in which Python iterates over a [set] of strings: some
    enumeration of its elements, fixed for one run of the interpreter. *)
Variable set_iter : gset string -> list string.

Definition enumerates : Prop :=
  forall s : gset string, set_iter s ≡ₚ elements s.

(** The body of [for filepath in common_files]: [Ok None] is [continue]. *)
Definition score_file (revisions loc : gmap string Z)
    (churn : option (gmap string (Z * Z))) (authors : option (gmap string Z))
    (max_revisions max_loc : Z) (filepath : string) : result (option entry) :=
  match revisions !! filepath, loc !! filepath with
  | Some rev_count, Some lines =>
      if lines <? 10 then Ok None
      else
        do norm_revisions <- PyFloat.true_div rev_count max_revisions;
        do norm_loc <- PyFloat.true_div lines max_loc;
        let hotspot_score :=
          PyFloat.fadd (PyFloat.fmul norm_revisions weight_revisions)
                       (PyFloat.fmul norm_loc weight_loc) in
        Ok (Some
          {| file := filepath;
             revisions := rev_count;
             lines := lines;
             hotspot_score := PyFloat.round hotspot_score 4;
             norm_revisions := PyFloat.round norm_revisions 4;
             churn :=
               option_map (fun ad => (fst ad, snd ad, fst ad + snd ad))
                 (optional_lookup churn filepath);
             authors := optional_lookup authors filepath;
             commits := None |})
  | _, _ => Raise (KeyError filepath)
  end.

(** The loop itself: entries are appended in the order of the iteration,
    and the first exception ends it. *)
Fixpoint score_files (revisions loc : gmap string Z)
    (churn : option (gmap string (Z * Z))) (authors : option (gmap string Z))
    (max_revisions max_loc : Z) (files : list string) : result (list entry) :=
  match files with
  | [] => Ok []
  | filepath :: rest =>
      do scored <- score_file revisions loc churn authors
                     max_revisions max_loc filepath;
      do hotspots <- score_files revisions loc churn authors
                       max_revisions max_loc rest;
      Ok (match scored with
          | Some e => e :: hotspots
          | None => hotspots
          end)
  end.

Definition calculate_hotspots (revisions loc : gmap string Z)
    (churn : option (gmap string (Z * Z))) (authors : option (gmap string Z))
  : result (list entry) :=
  let max_revisions := max_or_one revisions in
  let max_loc := max_or_one loc in
  let common_files := dom revisions ∩ dom loc in
  do hotspots <- score_files revisions loc churn authors
                   max_revisions max_loc (set_iter common_files);
  Ok (sort_by_score_desc hotspots).

End Scorer.

(** The files the scorer keeps: in both maps, with ten lines or more. *)
Definition scored (revs locs : gmap string Z) (filepath : string) : Prop :=
  is_Some (revs !! filepath) /\
  exists n, locs !! filepath = Some n /\ 10 <= n.

(** What the entry of [filepath] holds: the two counts of the file, and
    the two floats computed from them and the maxima of the two maps. *)
Definition entry_of (revs locs : gmap string Z) (filepath : string)
    (e : entry) : Prop :=
  file e = filepath /\
  revs !! filepath = Some (revisions e) /\
  locs !! filepath = Some (lines e) /\
  10 <= lines e /\
  exists norm_r norm_l,
    PyFloat.true_div (revisions e) (max_or_one revs) = Ok norm_r /\
    PyFloat.true_div (lines e) (max_or_one locs) = Ok norm_l /\
    hotspot_score e =
      PyFloat.round
        (PyFloat.fadd (PyFloat.fmul norm_r weight_revisions)
                      (PyFloat.fmul norm_l weight_loc)) 4 /\
    norm_revisions e = PyFloat.round norm_r 4.

(** The order of the ranked list. *)
Definition score_ge (a b : entry) : Prop :=
  (hotspot_score b <= hotspot_score a)%Q.

(** The scenario of the specification. *)
Definition example_revisions : gmap string Z := {[ "a.py" := 10; "b.py" := 2 ]}.
Definition example_loc : gmap string Z := {[ "a.py" := 50; "b.py" := 20 ]}.

(** A history that still lists a file the work tree has lost. *)
Definition stale_revisions : gmap string Z :=
  {[ "a.py" := 10; "gone.py" := 20 ]}.
Definition stale_loc : gmap string Z := {[ "a.py" := 50 ]}.

(* ===================================================================== *)
(** * Hierarchy builder *)
(* ===================================================================== *)

(** A Python [dict] whose order of insertion is observable: assigning to a
    key that is present keeps its place, a new key goes last. *)
Fixpoint dict_get {V} (k : string) (d : list (string * V)) : option V :=
  match d with
  | [] => None
  | (k', v) :: d' => if String.eqb k k' then Some v else dict_get k d'
  end.

Fixpoint dict_set {V} (k : string) (v : V) (d : list (string * V))
  : list (string * V) :=
  match d with
  | [] => [(k, v)]
  | (k', v') :: d' =>
      if String.eqb k k' then (k, v) :: d' else (k', v') :: dict_set k v d'
  end.

(** The dictionary of a file: no key ['children']. *)
Record leaf : Type := mk_leaf {
  leaf_name : string;
  fullPath : string;
  size : Z;
  leaf_revisions : Z;
  leaf_hotspot_score : Q;
  leaf_norm_revisions : Q;
  leaf_authors : option Z;
  leaf_churn : option Z;
  leaf_commits : option (list commit)
}.

(** A node while the tree is built: the children of a directory are a
    dictionary keyed by name. *)
Inductive node : Type :=
| Dir (name : string) (children : list (string * node))
| File (l : leaf).

(** A node of the result: the children are a list, and a directory without
    children has lost its key ['children']. *)
Inductive tree : Type :=
| TDir (name : string) (children : option (list tree))
| TFile (l : leaf).

Definition leaf_of_entry (filename : string) (e : entry) : leaf :=
  {| leaf_name := filename;
     fullPath := file e;
     size := lines e;
     leaf_revisions := revisions e;
     leaf_hotspot_score := hotspot_score e;
     leaf_norm_revisions := norm_revisions e;
     leaf_authors := authors e;
     leaf_churn := option_map snd (churn e);
     leaf_commits := commits e |}.

(** The walk from [current] along [path_parts[:-1]], creating the missing
    directories, and the assignment of the leaf under [filename].  Reading
    ['children'] of a file node is a [KeyError]. *)
Fixpoint add_file (dirs : list string) (filename : string) (l : leaf)
    (current : node) : result node :=
  match current with
  | File _ => Raise (KeyError "children")
  | Dir name children =>
      match dirs with
      | [] => Ok (Dir name (dict_set filename (File l) children))
      | part :: dirs' =>
          let child :=
            match dict_get part children with
            | Some c => c
            | None => Dir part []
            end in
          do child' <- add_file dirs' filename l child;
          Ok (Dir name (dict_set part child' children))
      end
  end.

(** The body of [for entry in hotspots]. *)
Definition add_entry (root : node) (e : entry) : result node :=
  let path_parts := PyStr.split "/" (file e) in
  let filename := List.last path_parts "" in
  add_file (removelast path_parts) filename (leaf_of_entry filename e) root.

Fixpoint add_entries (root : node) (hotspots : list entry) : result node :=
  match hotspots with
  | [] => Ok root
  | e :: rest => do root' <- add_entry root e; add_entries root' rest
  end.

(** The name a node carries under ['name']. *)
Definition node_name (n : node) : string :=
  match n with
  | Dir name _ => name
  | File l => leaf_name l
  end.

(** [convert_to_list]: the values of the dictionary of children, converted
    in its order; the key ['children'] is deleted when there is none. *)
Fixpoint convert_to_list (n : node) : tree :=
  match n with
  | File l => TFile l
  | Dir name children =>
      let children_list :=
        List.map (fun kv => convert_to_list (snd kv)) children in
      match children_list with
      | [] => TDir name None
      | _ => TDir name (Some children_list)
      end
  end.

Definition build_hierarchy (hotspots : list entry) : result tree :=
  do root <- add_entries (Dir "root" []) hotspots;
  Ok (convert_to_list root).

(** The leaves below a node, each with the names on the way down to it,
    the node's own name first. *)
Fixpoint leaves_below (t : tree) : list (list string * leaf) :=
  match t with
  | TFile l => [([leaf_name l], l)]
  | TDir name None => []
  | TDir name (Some children) =>
      List.flat_map
        (fun c => List.map (fun pl => (name :: fst pl, snd pl)) (leaves_below c))
        children
  end.

(** The leaves of a built tree with the names of their ancestors below the
    root, their own name last. *)
Definition leaves (root : tree) : list (list string * leaf) :=
  map (fun pl => (List.tl (fst pl), snd pl)) (leaves_below root).

(** No path of the list runs through a file of the list: what the tracked
    files of a work tree satisfy. *)
Definition no_file_is_directory (paths : list string) : Prop :=
  forall p q, p ∈ paths -> q ∈ paths ->
    forall dirs,
      (PyStr.split "/" p ++ dirs)%list <> removelast (PyStr.split "/" q).

(** The invariant of the tree under construction, for a node reached from
    the root by the names [path]: a child is stored under its own name, and
    a file sits where the segments of its [fullPath] lead and satisfies
    [P]. *)
Fixpoint placed (P : leaf -> Prop) (path : list string) (n : node) : Prop :=
  match n with
  | File l => P l /\ PyStr.split "/" (fullPath l) = path
  | Dir _ children =>
      (fix each (d : list (string * node)) : Prop :=
         match d with
         | [] => True
         | (k, c) :: d' =>
             (node_name c = k /\ placed P (path ++ [k])%list c) /\ each d'
         end) children
  end.

(** The leaf was built from an entry of the list. *)
Definition built_from (hotspots : list entry) (l : leaf) : Prop :=
  exists e, e ∈ hotspots /\
    l = leaf_of_entry (List.last (PyStr.split "/" (file e)) "") e.

(** Three entries in two directories. *)
Definition three_files : list entry :=
  [ mk_entry "src/app/main.py" 7 120 1 1 None None None;
    mk_entry "src/util.py" 3 40 (1 # 2) (1 # 2) None None None;
    mk_entry "setup.py" 1 12 (1 # 4) (1 # 4) None None None ].

(* ===================================================================== *)
(** * Result cache *)
(* ===================================================================== *)

(** What [json.load] returns. *)
Inductive pyval : Type :=
| PNone
| PBool (b : bool)
| PInt (n : Z)
| PFloat (q : Q)
| PStr (s : string)
| PList (l : list pyval)
| PDict (d : list (string * pyval)).

(** What is found at [cache_path]: no file, a file that cannot be read or
    parsed ([IOError], [JSONDecodeError]), or a document. *)
Inductive cache_file : Type :=
| Absent
| Unreadable
| Stored (v : pyval).

(** [cached.get(key)]: [None] for a missing key; only a dictionary has the
    method. *)
Definition py_get (cached : pyval) (key : string) : result pyval :=
  match cached with
  | PDict d => Ok (default PNone (dict_get key d))
  | _ => Raise AttributeError
  end.

(** [current == stored] where [current] is a string or [None]. *)
Definition py_eq (current : option string) (stored : pyval) : bool :=
  match current, stored with
  | None, PNone => true
  | Some s, PStr s' => String.eqb s s'
  | _, _ => false
  end.

(** [load_cache]; [current_head] and [current_count] are what
    [get_git_head_hash] and [get_git_commit_count] return: the output of
    git, or [None] when git failed. *)
Definition load_cache (at_cache_path : cache_file)
    (current_head current_count : option string)
  : result (option pyval * bool) :=
  match at_cache_path with
  | Absent => Ok (None, false)
  | Unreadable => Ok (None, false)
  | Stored cached =>
      do cached_head <- py_get cached "git_head";
      do cached_count <- py_get cached "commit_count";
      if py_eq current_head cached_head && py_eq current_count cached_count
      then Ok (Some cached, true)
      else Ok (Some cached, false)
  end.

(** The Python value of what git returned. *)
Definition py_of_output (o : option string) : pyval :=
  match o with
  | None => PNone
  | Some s => PStr s
  end.

(** The stored value under [key], [None] when there is none. *)
Definition stored_value (d : list (string * pyval)) (key : string) : pyval :=
  default PNone (dict_get key d).

(* ===================================================================== *)
(** * Author count and size extractor *)
(* ===================================================================== *)

Section Extractors.

Variable fnmatch : string -> string -> bool.

(** ** Author count *)

(** The state of the loop of [get_author_count]: [current_author] and the
    [defaultdict(set)] [file_authors]. *)
Definition author_state : Type := (option string * gmap string (gset string)).

(** The truth value of [current_author]: [None] and the empty string are
    false. *)
Definition truthy_author (current_author : option string) : option string :=
  match current_author with
  | Some a => if String.eqb a "" then None else Some a
  | None => None
  end.

Definition author_step (exclusions : list string) (st : author_state)
    (raw : string) : author_state :=
  let '(current_author, file_authors) := st in
  let line := PyStr.strip raw in
  if String.eqb line "" then st
  else if PyStr.contains "/" line || PyStr.contains "." line then
    match truthy_author current_author with
    | Some a =>
        if negb (should_exclude fnmatch line exclusions) then
          (current_author,
           <[line := default ∅ (file_authors !! line) ∪ {[a]}]> file_authors)
        else st
    | None => st
    end
  else (Some line, file_authors).

(** The sets of authors when the loop ends. *)
Definition file_authors_of (output : string) (exclusions : list string)
  : gmap string (gset string) :=
  snd (foldl (author_step exclusions) (None, ∅) (PyStr.split PyStr.LF output)).

(** [{f: len(authors) for f, authors in file_authors.items()}] *)
Definition get_author_count (output : option string)
    (exclusions : option (list string)) : gmap string Z :=
  match output with
  | None => ∅
  | Some out =>
      (fun authors : gset string => Z.of_nat (base.size authors))
        <$> file_authors_of out (exclusions_or_default exclusions)
  end.

(** The lines of the log that the loop takes for an author: not empty, no
    slash and no dot. *)
Definition author_lines (output : string) : list string :=
  filter
    (fun line =>
       line <> "" /\ PyStr.contains "/" line = false
       /\ PyStr.contains "." line = false)
    (PyStr.strip <$> PyStr.split PyStr.LF output).

(** What the loop keeps true of its state, for a property [P] of the lines
    it takes for authors. *)
Definition authors_known (P : string -> Prop) (st : author_state) : Prop :=
  (forall a, st.1 = Some a -> P a) /\
  (forall f s, st.2 !! f = Some s ->
     s <> ∅ /\ (forall a, a ∈ s -> P a) /\
     PyStr.contains "/" f || PyStr.contains "." f = true).

(** ** Size extractor *)

(** What is found at a path of the work tree: nothing, something that is
    no regular file, or a file; of a file, the number of lines [readlines]
    returns, or [None] when opening or reading it raises. *)
Inductive on_disk : Type :=
| Missing
| NotRegular
| Regular (readlines : option Z).

(** [os.path.join] and the file system, as [count_lines_of_code] sees
    them. *)
Variable path_join : string -> string -> string.
Variable disk : string -> on_disk.

Definition loc_step (repo_path : string) (exclusions : list string)
    (file_loc : gmap string Z) (raw : string) : gmap string Z :=
  let filepath := PyStr.strip raw in
  if String.eqb filepath "" then file_loc
  else if should_exclude fnmatch filepath exclusions then file_loc
  else
    match disk (path_join repo_path filepath) with
    | Regular (Some lines) => <[filepath := lines]> file_loc
    | _ => file_loc
    end.

(** What the loop stores for a path it meets: the lines read from the
    regular file at the path, for a path that is neither empty nor
    excluded. *)
Definition readable_lines (repo_path : string) (exclusions : list string)
    (filepath : string) : option Z :=
  if String.eqb filepath "" then None
  else if should_exclude fnmatch filepath exclusions then None
  else
    match disk (path_join repo_path filepath) with
    | Regular (Some lines) => Some lines
    | _ => None
    end.

(** [output] is what [git ls-files] printed, [None] when git failed. *)
Definition count_lines_of_code (repo_path : string) (output : option string)
    (exclusions : option (list string)) : gmap string Z :=
  match output with
  | None => ∅
  | Some out =>
      foldl (loc_step repo_path (exclusions_or_default exclusions)) ∅
        (PyStr.split PyStr.LF out)
  end.

End Extractors.

(** What the loop of [get_commit_messages] keeps true of its state, for a
    property [P] of the records read from markers. *)
Definition commits_known (P : commit -> Prop) (st : commit_state) : Prop :=
  (forall c, st.1 = Some c -> P c) /\
  (forall f cs, st.2 !! f = Some cs ->
     cs <> [] /\ Forall P cs /\
     PyStr.contains "/" f || PyStr.contains "." f = true).


(** The number of lines of a log whose stripped text is [p]. *)
Definition occurrences (p : string) (raws : list string) : Z :=
  Z.of_nat (length (filter (fun raw => PyStr.strip raw = p) raws)).

(** The lines [get_revision_frequency] counts. *)
Definition countable (fnmatch : string -> string -> bool)
    (exclusions : list string) (p : string) : bool :=
  negb (String.eqb p "") && negb (PyStr.startswith p "commit")
  && negb (should_exclude fnmatch p exclusions).

(** The sum of two churn records, and of two churn maps. *)
Definition churn_add (x y : Z * Z) : Z * Z := (fst x + fst y, snd x + snd y).

Definition churn_merge (m1 m2 : gmap string (Z * Z)) : gmap string (Z * Z) :=
  union_with (fun x y => Some (churn_add x y)) m1 m2.

(** The sum of two revision maps. *)
Definition revision_merge (m1 m2 : gmap string Z) : gmap string Z :=
  union_with (fun x y => Some (x + y)) m1 m2.

(** What a line does to the churn map: nothing, or a sum added to the
    record of one file, which is entered if it was not there. *)
Definition churn_delta (fnmatch : string -> string -> bool)
    (exclusions : list string) (line : string)
  : option (string * (Z * Z)) :=
  match PyStr.split PyStr.TAB line with
  | [added; deleted; filename] =>
      if should_exclude fnmatch filename exclusions then None
      else
        match churn_field added with
        | None => Some (filename, (0, 0))
        | Some a =>
            match churn_field deleted with
            | None => Some (filename, (a, 0))
            | Some d => Some (filename, (a, d))
            end
        end
  | _ => None
  end.

Definition churn_apply (delta : option (string * (Z * Z)))
    (m : gmap string (Z * Z)) : gmap string (Z * Z) :=
  match delta with
  | None => m
  | Some (f, x) => <[f := churn_add (default (0, 0) (m !! f)) x]> m
  end.

(* ===================================================================== *)
(** * Cache key and cache file *)
(* ===================================================================== *)

(** [sorted] on a list of strings: ascending in the order of the
    characters. *)
Fixpoint insert_sorted (s : string) (sorted : list string) : list string :=
  match sorted with
  | [] => [s]
  | h :: t =>
      if String.leb s h then s :: sorted else h :: insert_sorted s t
  end.

Definition py_sorted (l : list string) : list string :=
  foldr insert_sorted [] l.

Section CacheKey.

(** [os.path.abspath], and the digest of the parameters:
    [hashlib.md5(json.dumps(params, sort_keys=True).encode()).hexdigest()]
    as a function of the three values of [params]. *)
Variable abspath : string -> string.
Variable digest : string * string * list string -> string.

(** [x or ''] *)
Definition or_empty (since_date : option string) : string :=
  match since_date with
  | Some s => s
  | None => ""
  end.

(** [sorted(exclusions) if exclusions else []] *)
Definition sorted_or_nil (exclusions : option (list string)) : list string :=
  match exclusions with
  | Some (p :: ps) => py_sorted (p :: ps)
  | _ => []
  end.

Definition generate_cache_key (repo_path : string)
    (since_date : option string) (exclusions : option (list string))
  : string :=
  digest (abspath repo_path, or_empty since_date, sorted_or_nil exclusions).

(** [os.path.join(CACHE_DIR, f'{cache_key}.json')] *)
Variable path_join : string -> string -> string.
Variable CACHE_DIR : string.

Definition get_cache_path (cache_key : string) : string :=
  path_join CACHE_DIR (cache_key +:+ ".json").

(** The cache directory: what is stored at each path that exists, [None]
    for a file that cannot be read or parsed.  A document written by
    [json.dump] is read back by [json.load] as it was. *)
Definition cache_dir : Type := gmap string (option pyval).

Definition at_path (files : cache_dir) (path : string) : cache_file :=
  match files !! path with
  | None => Absent
  | Some None => Unreadable
  | Some (Some v) => Stored v
  end.

(** [save_cache]: the four keys of the metadata are set in [data], which
    is written to the cache path; [writable] is false when opening the
    file raises [IOError], and then nothing is stored and [None]
    returned. *)
Definition with_metadata (data : list (string * pyval))
    (git_head commit_count : option string) (now cache_key : string)
  : list (string * pyval) :=
  dict_set "cache_key" (PStr cache_key)
    (dict_set "cached_at" (PStr now)
       (dict_set "commit_count" (py_of_output commit_count)
          (dict_set "git_head" (py_of_output git_head) data))).

Definition save_cache (files : cache_dir) (writable : bool)
    (repo_path : string) (since_date : option string)
    (exclusions : option (list string)) (data : list (string * pyval))
    (git_head commit_count : option string) (now : string)
  : cache_dir * option string :=
  let cache_key := generate_cache_key repo_path since_date exclusions in
  let cache_path := get_cache_path cache_key in
  let data := with_metadata data git_head commit_count now cache_key in
  if writable
  then (<[cache_path := Some (PDict data)]> files, Some cache_path)
  else (files, None).

(** [load_cache] from the cache directory: the first lines of the function
    find the file, the rest is [load_cache] above. *)
Definition load_cache_from (files : cache_dir) (repo_path : string)
    (since_date : option string) (exclusions : option (list string))
    (current_head current_count : option string)
  : result (option pyval * bool) :=
  let cache_key := generate_cache_key repo_path since_date exclusions in
  let cache_path := get_cache_path cache_key in
  load_cache (at_path files cache_path) current_head current_count.

(** [clear_cache]: with [clear_all] the directory is emptied; otherwise,
    for a repository path that is not empty, the file of the key is
    removed when it exists, and the result tells whether it did. *)
Definition clear_cache (files : cache_dir) (repo_path : option string)
    (since_date : option string) (exclusions : option (list string))
    (clear_all : bool) : cache_dir * bool :=
  if clear_all then (∅, true)
  else
    match repo_path with
    | Some repo =>
        if String.eqb repo "" then (files, false)
        else
          let cache_path :=
            get_cache_path (generate_cache_key repo since_date exclusions) in
          match files !! cache_path with
          | Some _ => (delete cache_path files, true)
          | None => (files, false)
          end
    | None => (files, false)
    end.

(** What a run with [--cache] leaves at the cache path when it ends with
    data: a dictionary with the head and the count of the run, and the
    hotspots and the hierarchy of the data. *)
Definition remembers (files : cache_dir) (repo_path : string)
    (since : option string) (exclusions : list string)
    (head count : option string) (data : list (string * pyval)) : Prop :=
  exists d,
    files !! get_cache_path
               (generate_cache_key repo_path since (Some exclusions))
    = Some (Some (PDict d)) /\
    stored_value d "git_head" = py_of_output head /\
    stored_value d "commit_count" = py_of_output count /\
    (forall k, k <> "git_head" -> k <> "commit_count" -> k <> "cached_at" ->
       k <> "cache_key" -> dict_get k d = dict_get k data) /\
    is_Some (dict_get "hotspots" d) /\ is_Some (dict_get "hierarchy" d).

End CacheKey.

(* ===================================================================== *)
(** * The analysis of [main] *)
(* ===================================================================== *)

(** The exclusion list [main] builds from [--no-default-excludes] and the
    [--exclude] options. *)
Definition build_exclusions (no_default_excludes : bool)
    (exclude : list string) : list string :=
  if no_default_excludes then exclude else (DEFAULT_EXCLUSIONS ++ exclude)%list.

(** [h['commits'] = commit_messages.get(h['file'], [])] for every entry *)
Definition attach_commits (commit_messages : gmap string (list commit))
    (hotspots : list entry) : list entry :=
  List.map
    (fun h =>
       {| file := file h;
          revisions := revisions h;
          lines := lines h;
          hotspot_score := hotspot_score h;
          norm_revisions := norm_revisions h;
          churn := churn h;
          authors := authors h;
          commits := Some (default [] (commit_messages !! file h)) |})
    hotspots.

(** How the analysis ends: with its result, with [sys.exit(code)], or with
    an exception. *)
Inductive outcome (A : Type) : Type :=
| Done (a : A)
| Exit (code : Z)
| Failed (e : exn).

Arguments Done {A} a.
Arguments Exit {A} code.
Arguments Failed {A} e.

(** What git printed for the five queries, [None] where it failed. *)
Record git_outputs : Type := mk_git_outputs {
  log_name_only : option string;
  ls_files : option string;
  log_authors : option string;
  log_numstat : option string;
  log_commits : option string
}.

Section Analysis.

Variable fnmatch : string -> string -> bool.
Variable set_iter : gset string -> list string.
Variable path_join : string -> string -> string.
Variable disk : string -> on_disk.

(** Steps 1 to 5 of [main], when the cache is not used. *)
Definition fresh_analysis (repo_path : string) (git : git_outputs)
    (exclusions : list string) : outcome (list entry * tree) :=
  let revisions :=
    get_revision_frequency fnmatch (log_name_only git) (Some exclusions) in
  let loc :=
    count_lines_of_code fnmatch path_join disk repo_path (ls_files git)
      (Some exclusions) in
  let authors := get_author_count fnmatch (log_authors git) (Some exclusions) in
  let churn := get_churn_data fnmatch (log_numstat git) (Some exclusions) in
  let commit_messages :=
    get_commit_messages fnmatch (log_commits git) (Some exclusions) in
  match calculate_hotspots set_iter revisions loc (Some churn) (Some authors)
  with
  | Raise e => Failed e
  | Ok hotspots =>
      let hotspots := attach_commits commit_messages hotspots in
      match hotspots with
      | [] => Exit 1
      | _ =>
          match build_hierarchy hotspots with
          | Raise e => Failed e
          | Ok hierarchy => Done (hotspots, hierarchy)
          end
      end
  end.

End Analysis.


(** A small repository: two commits, three tracked files, one of them an
    image and one with fewer than ten lines. *)
Definition example_git : git_outputs :=
  {| log_name_only :=
       Some (PyStr.lines_text
               ["src/a.py"; "logo.png"; ""; "src/a.py"; "src/b.py"]);
     ls_files := Some (PyStr.lines_text ["src/a.py"; "src/b.py"; "logo.png"]);
     log_authors :=
       Some (PyStr.lines_text
               ["Ann"; "src/a.py"; "logo.png"; ""; "Bob"; "src/a.py";
                "src/b.py"]);
     log_numstat :=
       Some (PyStr.lines_text
               [PyStr.tabbed ["30"; "2"; "src/a.py"];
                PyStr.tabbed ["-"; "-"; "logo.png"];
                PyStr.tabbed ["5"; "1"; "src/a.py"];
                PyStr.tabbed ["4"; "0"; "src/b.py"]]);
     log_commits :=
       Some (PyStr.lines_text
               ["COMMIT:ab12|Ann|2024-01-05|first"; "src/a.py"; "logo.png";
                ""; "COMMIT:cd34|Bob|2024-02-01|second"; "src/a.py";
                "src/b.py"]) |}.

Definition example_path_join (a b : string) : string := a +:+ "/" +:+ b.

Definition example_disk (path : string) : on_disk :=
  if String.eqb path "/repo/src/a.py" then Regular (Some 120)
  else if String.eqb path "/repo/src/b.py" then Regular (Some 8)
  else if String.eqb path "/repo/logo.png" then Regular (Some 3)
  else Missing.

(* ===================================================================== *)
(** * The data [main] writes, and its use of the cache *)
(* ===================================================================== *)

(** The values [json.dump] writes for the results: the dictionaries with
    their keys in the order in which the code sets them. *)
Definition py_of_commit (c : commit) : pyval :=
  PDict [("hash", PStr (commit_hash c)); ("author", PStr (commit_author c));
         ("date", PStr (commit_date c)); ("message", PStr (commit_message c))].

Definition py_of_commits (cs : option (list commit)) : list (string * pyval) :=
  match cs with
  | Some l => [("commits", PList (List.map py_of_commit l))]
  | None => []
  end.

Definition py_of_entry (e : entry) : pyval :=
  PDict
    ([("file", PStr (file e)); ("revisions", PInt (revisions e));
      ("lines", PInt (lines e)); ("hotspot_score", PFloat (hotspot_score e));
      ("norm_revisions", PFloat (norm_revisions e))]
     ++ match churn e with
        | Some (added, deleted, total) =>
            [("churn_added", PInt added); ("churn_deleted", PInt deleted);
             ("total_churn", PInt total)]
        | None => []
        end
     ++ match authors e with
        | Some n => [("authors", PInt n)]
        | None => []
        end
     ++ py_of_commits (commits e))%list.

Definition py_of_leaf (l : leaf) : pyval :=
  PDict
    ([("name", PStr (leaf_name l)); ("fullPath", PStr (fullPath l));
      ("size", PInt (size l)); ("revisions", PInt (leaf_revisions l));
      ("hotspot_score", PFloat (leaf_hotspot_score l));
      ("norm_revisions", PFloat (leaf_norm_revisions l))]
     ++ match leaf_authors l with
        | Some n => [("authors", PInt n)]
        | None => []
        end
     ++ match leaf_churn l with
        | Some n => [("churn", PInt n)]
        | None => []
        end
     ++ py_of_commits (leaf_commits l))%list.

Fixpoint py_of_tree (t : tree) : pyval :=
  match t with
  | TFile l => py_of_leaf l
  | TDir name None => PDict [("name", PStr name)]
  | TDir name (Some children) =>
      PDict [("name", PStr name);
             ("children", PList (List.map py_of_tree children))]
  end.

(** The options of the command line that the analysis reads. *)
Record options : Type := mk_options {
  opt_since : option string;
  opt_exclude : list string;
  opt_no_default_excludes : bool;
  opt_cache : bool;
  opt_no_cache : bool;
  opt_clear_cache : bool
}.

Section Main.

Variable fnmatch : string -> string -> bool.
Variable set_iter : gset string -> list string.
Variable path_join : string -> string -> string.
Variable disk : string -> on_disk.
Variable abspath : string -> string.
Variable digest : string * string * list string -> string.
Variable CACHE_DIR : string.

(** The dictionary [commit_messages] as [json.dump] writes it: its keys
    in the order in which the log brought them. *)
Variable py_of_commit_messages : gmap string (list commit) -> pyval.

(** The dictionary [data] of step 6. *)
Definition analysis_data (repo_path : string) (since : option string)
    (analyzed_at : string) (hotspots : list entry) (hierarchy : tree)
    (commit_messages : gmap string (list commit)) : list (string * pyval) :=
  [("repository", PStr repo_path); ("analyzed_at", PStr analyzed_at);
   ("since_date", py_of_output since);
   ("hotspots", PList (List.map py_of_entry hotspots));
   ("hierarchy", py_of_tree hierarchy);
   ("commit_messages", py_of_commit_messages commit_messages)].

(** [if not cache_valid:] the fresh analysis, and the cache written when
    [use_cache or args.cache]. *)
Definition analyze_and_save (o : options) (exclusions : list string)
    (files : cache_dir) (writable : bool) (repo_path : string)
    (git : git_outputs) (head count : option string)
    (analyzed_at cached_at : string)
  : cache_dir * outcome (list (string * pyval)) :=
  match fresh_analysis fnmatch set_iter path_join disk repo_path git
          exclusions with
  | Exit code => (files, Exit code)
  | Failed e => (files, Failed e)
  | Done (hotspots, hierarchy) =>
      let data :=
        analysis_data repo_path (opt_since o) analyzed_at hotspots hierarchy
          (get_commit_messages fnmatch (log_commits git) (Some exclusions)) in
      let use_cache := opt_cache o && negb (opt_no_cache o) in
      if use_cache || opt_cache o
      then (fst (save_cache abspath digest path_join CACHE_DIR files writable
                   repo_path (opt_since o) (Some exclusions) data head count
                   cached_at),
            Done data)
      else (files, Done data)
  end.

(** [main] from the exclusion list to the dictionary that is written to
    [hotspot_data.json]: the cache directory it leaves, and the dictionary.
    [head] and [count] are what git answers for the head commit and the
    number of commits while [main] runs.  With a valid cache [data] is the
    cached dictionary, of which ['hotspots'] and ['hierarchy'] are read;
    [load_cache] answers valid for a dictionary only, so the last case of
    the inner [match] is not reached. *)
Definition main_data (o : options) (files : cache_dir) (writable : bool)
    (repo_path : string) (git : git_outputs) (head count : option string)
    (analyzed_at cached_at : string)
  : cache_dir * outcome (list (string * pyval)) :=
  let exclusions :=
    build_exclusions (opt_no_default_excludes o) (opt_exclude o) in
  let files :=
    if opt_clear_cache o
    then fst (clear_cache abspath digest path_join CACHE_DIR files
                (Some repo_path) (opt_since o) (Some exclusions) false)
    else files in
  let use_cache := opt_cache o && negb (opt_no_cache o) in
  let fresh :=
    analyze_and_save o exclusions files writable repo_path git head count
      analyzed_at cached_at in
  if use_cache then
    match load_cache_from abspath digest path_join CACHE_DIR files repo_path
            (opt_since o) (Some exclusions) head count with
    | Raise e => (files, Failed e)
    | Ok (cached, true) =>
        match cached with
        | Some (PDict data) =>
            match dict_get "hotspots" data, dict_get "hierarchy" data with
            | None, _ => (files, Failed (KeyError "hotspots"))
            | Some _, None => (files, Failed (KeyError "hierarchy"))
            | Some _, Some _ => (files, Done data)
            end
        | _ => (files, Failed AttributeError)
        end
    | Ok (_, false) => fresh
    end
  else fresh.

End Main.

(** Stand-ins for the examples: paths that are absolute already, a digest
    of three letters, and the commit dictionary in the order of its
    keys. *)
Definition example_abspath (path : string) : string := path.

Fixpoint checksum (s : string) (acc : N) : N :=
  match s with
  | EmptyString => acc
  | String c s' => checksum s' ((acc * 31 + N_of_ascii c) mod 17576)%N
  end.

Definition example_digest (params : string * string * list string) : string :=
  let n :=
    checksum
      (PyStr.join "|" [params.1.1; params.1.2; PyStr.join "," params.2]) 7 in
  String (ascii_of_N (97 + n mod 26))
    (String (ascii_of_N (97 + (n / 26) mod 26))
       (String (ascii_of_N (97 + (n / 676) mod 26)) EmptyString)).

Definition example_py_of_commit_messages
    (commit_messages : gmap string (list commit)) : pyval :=
  PDict ((fun kv => (kv.1, PList (List.map py_of_commit kv.2)))
           <$> map_to_list commit_messages).

(** [--cache] and nothing else. *)
Definition example_options : options :=
  {| opt_since := None;
     opt_exclude := [];
     opt_no_default_excludes := false;
     opt_cache := true;
     opt_no_cache := false;
     opt_clear_cache := false |}.

(* ===================================================================== *)
(** * The list of cached analyses *)
(* ===================================================================== *)

(** The exceptions [list_cached_analyses] does not catch: [.get] on a
    document that is no dictionary, and [len] of a value without length. *)
Inductive listing_error : Type :=
| GetOnNonDict
| LenOfUnsized.

(** [len(v)]; [None] is [TypeError]. *)
Definition py_len (v : pyval) : option Z :=
  match v with
  | PStr s => Some (Z.of_nat (String.length s))
  | PList l => Some (Z.of_nat (length l))
  | PDict d => Some (Z.of_nat (length d))
  | _ => None
  end.

(** One record of the list. *)
Record cached_analysis : Type := mk_cached_analysis {
  ca_file : string;
  ca_repo : pyval;
  ca_cached_at : pyval;
  ca_since : pyval;
  ca_files : Z
}.

(** The dictionary built from a document that was read. *)
Definition describe_cache_file (filename : string) (data : pyval)
  : listing_error + cached_analysis :=
  match data with
  | PDict d =>
      match py_len (default (PList []) (dict_get "hotspots" d)) with
      | Some n =>
          inr {| ca_file := filename;
                 ca_repo := default (PStr "Unknown") (dict_get "repository" d);
                 ca_cached_at :=
                   default (PStr "Unknown") (dict_get "cached_at" d);
                 ca_since :=
                   default (PStr "All time") (dict_get "since_date" d);
                 ca_files := n |}
      | None => inl LenOfUnsized
      end
  | _ => inl GetOnNonDict
  end.

Section Listing.

Variable path_join : string -> string -> string.
Variable CACHE_DIR : string.

(** The loop over [os.listdir(CACHE_DIR)]: a name that does not end in
    ".json" is passed over, and so is a file that cannot be opened or
    parsed. *)
Fixpoint list_cached_files (files : cache_dir) (filenames : list string)
  : listing_error + list cached_analysis :=
  match filenames with
  | [] => inr []
  | filename :: rest =>
      let continue := list_cached_files files rest in
      if PyStr.endswith filename ".json" then
        match files !! path_join CACHE_DIR filename with
        | Some (Some data) =>
            match describe_cache_file filename data with
            | inl e => inl e
            | inr record =>
                match continue with
                | inl e => inl e
                | inr cached => inr (record :: cached)
                end
            end
        | _ => continue
        end
      else continue
  end.

(** [listdir] is what [os.listdir(CACHE_DIR)] returns, [None] when the
    directory does not exist. *)
Definition list_cached_analyses (files : cache_dir)
    (listdir : option (list string)) : listing_error + list cached_analysis :=
  match listdir with
  | None => inr []
  | Some filenames => list_cached_files files filenames
  end.


End Listing.

(* ===================================================================== *)
(** * Shapes of trees *)
(* ===================================================================== *)

(** The name a node of the result carries. *)
Definition tree_name (t : tree) : string :=
  match t with
  | TDir name _ => name
  | TFile l => leaf_name l
  end.

(** No two children of a directory carry the same name. *)
Fixpoint siblings_distinct (t : tree) : Prop :=
  match t with
  | TFile _ => True
  | TDir _ None => True
  | TDir _ (Some children) =>
      NoDup (List.map tree_name children)
      /\ (fix each (cs : list tree) : Prop :=
            match cs with
            | [] => True
            | c :: cs' => siblings_distinct c /\ each cs'
            end) children
  end.

(** Every directory has a child. *)
Fixpoint no_empty_directory (t : tree) : Prop :=
  match t with
  | TFile _ => True
  | TDir _ None => False
  | TDir _ (Some children) =>
      (fix each (cs : list tree) : Prop :=
         match cs with
         | [] => True
         | c :: cs' => no_empty_directory c /\ each cs'
         end) children
  end.

(** The same two properties while the tree is built. *)
Fixpoint keys_distinct (n : node) : Prop :=
  match n with
  | File _ => True
  | Dir _ children =>
      NoDup (List.map fst children)
      /\ (fix each (d : list (string * node)) : Prop :=
            match d with
            | [] => True
            | (_, c) :: d' => keys_distinct c /\ each d'
            end) children
  end.

Fixpoint populated (n : node) : Prop :=
  match n with
  | File _ => True
  | Dir _ children =>
      children <> []
      /\ (fix each (d : list (string * node)) : Prop :=
            match d with
            | [] => True
            | (_, c) :: d' => populated c /\ each d'
            end) children
  end.

(** The file found from a node by the keys [path], if there is one. *)
Fixpoint find_leaf (path : list string) (n : node) : option leaf :=
  match path, n with
  | [], File l => Some l
  | k :: path', Dir _ children =>
      match dict_get k children with
      | Some c => find_leaf path' c
      | None => None
      end
  | _, _ => None
  end.

(** A directory whose children are in order: what the walk of [add_file]
    meets, the fresh [Dir part []] included. *)
Definition children_populated (n : node) : Prop :=
  match n with
  | File _ => True
  | Dir _ children => Forall (fun kc => populated (snd kc)) children
  end.

(** The leaf an entry gives. *)
Definition entry_leaf (e : entry) : list string * leaf :=
  (PyStr.split "/" (file e),
   leaf_of_entry (List.last (PyStr.split "/" (file e)) "") e).

(** The tree of [three_files]. *)
Definition three_files_tree : tree :=
  TDir "root"
    (Some
       [ TDir "src"
           (Some
              [ TDir "app"
                  (Some
                     [ TFile
                         (leaf_of_entry "main.py"
                            (mk_entry "src/app/main.py" 7 120 1 1 None None
                               None)) ]);
                TFile
                  (leaf_of_entry "util.py"
                     (mk_entry "src/util.py" 3 40 (1 # 2) (1 # 2) None None
                        None)) ]);
         TFile
           (leaf_of_entry "setup.py"
              (mk_entry "setup.py" 1 12 (1 # 4) (1 # 4) None None None)) ]).
(* ===================================================================== *)
(** * Properties of the exclusion patterns *)
(* ===================================================================== *)

Section ExclusionFacts.

Variable fnmatch : string -> string -> bool.

Lemma parts_loop_true (pattern_lower : string) (rest : list string) :
  parts_loop fnmatch pattern_lower rest = true <->
  exists (j : nat) (part : string),
    rest !! j = Some part /\
    (fnmatch part (PyStr.rstrip "/*" pattern_lower) = true \/
     fnmatch (PyStr.join "/" (drop j rest)) pattern_lower = true).
Proof.
  induction rest as [|part rest IH]; cbn [parts_loop].
  - split; [discriminate|]. intros (j & p & Hj & _). destruct j; discriminate.
  - destruct (fnmatch part _) eqn:Hseg.
    { split; [|done]. intros _. exists 0%nat, part. auto. }
    destruct (fnmatch (PyStr.join "/" (part :: rest)) pattern_lower) eqn:Hsuf.
    { split; [|done]. intros _. exists 0%nat, part. auto. }
    rewrite IH. split.
    + intros (j & p & Hj & H). exists (S j), p. auto.
    + intros (j & p & Hj & H). destruct j as [|j].
      * simpl in Hj. injection Hj as <-.
        change (drop 0 (part :: rest)) with (part :: rest) in H.
        destruct H; congruence.
      * exists j, p. auto.
Qed.

Lemma pattern_excludes_true (filepath pattern : string) :
  pattern_excludes fnmatch filepath pattern = true <->
  rule_full_path fnmatch (PyStr.lower filepath) (PyStr.lower pattern) \/
  rule_any_depth fnmatch (PyStr.lower filepath) (PyStr.lower pattern) \/
  rule_segment_code fnmatch filepath pattern.
Proof.
  unfold pattern_excludes, rule_full_path, rule_any_depth, rule_segment_code.
  destruct (fnmatch (PyStr.lower filepath) (PyStr.lower pattern)) eqn:H1;
    [tauto|].
  destruct (fnmatch (PyStr.lower filepath) ("*/" +:+ PyStr.lower pattern))
    eqn:H2; [tauto|].
  destruct (PyStr.contains "/" filepath) eqn:H3.
  - rewrite parts_loop_true. split; [auto|].
    intros [?|[?|[_ ?]]]; [discriminate..|assumption].
  - split; [discriminate|]. intros [?|[?|[? _]]]; discriminate.
Qed.

Lemma should_exclude_true (filepath : string) (patterns : list string) :
  should_exclude fnmatch filepath patterns = true <->
  exists pattern, In pattern patterns /\
    pattern_excludes fnmatch filepath pattern = true.
Proof.
  induction patterns as [|p ps IH]; simpl.
  - split; [discriminate|]. intros (? & [] & _).
  - destruct (pattern_excludes fnmatch filepath p) eqn:Hp.
    + split; [|done]. intros _. exists p. auto.
    + rewrite IH. split.
      * intros (q & Hq & H). exists q. auto.
      * intros (q & [<-|Hq] & H); [congruence|]. exists q. auto.
Qed.

End ExclusionFacts.

(** C4 (as amended).  [should_exclude] returns true exactly when some
    pattern matches the lower-cased path under one of three rules: the
    lower-cased pattern matches the full path; it matches the full path
    when prefixed with "*/"; or the path contains a slash and, at some
    segment, the segment matches the pattern less every trailing slash and
    star, or the rest of the path from that segment on matches the pattern.
    The pattern "node_modules/*" excludes "node_modules/foo.js" and
    "src/node_modules/foo.js" and keeps "my_node_modules_backup/foo.js". *)
Theorem should_exclude_three_rules :
  (forall (fnmatch : string -> string -> bool) (filepath : string)
          (patterns : list string),
      should_exclude fnmatch filepath patterns = true <->
      exists pattern, In pattern patterns /\
        (rule_full_path fnmatch (PyStr.lower filepath) (PyStr.lower pattern) \/
         rule_any_depth fnmatch (PyStr.lower filepath) (PyStr.lower pattern) \/
         rule_segment_code fnmatch filepath pattern)) /\
  should_exclude fnmatch_simple "node_modules/foo.js" ["node_modules/*"]
    = true /\
  should_exclude fnmatch_simple "src/node_modules/foo.js" ["node_modules/*"]
    = true /\
  should_exclude fnmatch_simple "my_node_modules_backup/foo.js"
    ["node_modules/*"] = false.
Proof.
  split; [|repeat split; reflexivity].
  intros fnmatch filepath patterns. rewrite should_exclude_true.
  split; intros (p & Hin & H); exists p; split; auto;
    by apply pattern_excludes_true.
Qed.

(** C4 (as stated) fails: for the pattern "build/" the code compares each
    segment with "build", so "build/x.py" is excluded, while none of the
    three rules of the specification matches (no trailing "/*" to strip). *)
Lemma should_exclude_strips_more_than_spec :
  should_exclude fnmatch_simple "build/x.py" ["build/"] = true /\
  ~ isExcluded_spec fnmatch_simple "build/x.py" ["build/"].
Proof.
  split; [reflexivity|].
  intros (p & [<-|[]] & [H|[H|H]]).
  - discriminate H.
  - discriminate H.
  - destruct H as (i & seg & Hi & H).
    destruct i as [|[|i]]; simpl in Hi; try discriminate;
      injection Hi as <-; destruct H as [H|H]; discriminate H.
Qed.

(* ===================================================================== *)
(** * Properties of the history extractor *)
(* ===================================================================== *)

Section HistoryFacts.

Variable fnmatch : string -> string -> bool.

Lemma revision_step_keeps_absent (exclusions : list string)
    (file_revisions : gmap string Z) (raw p : string) :
  PyStr.startswith p "commit" = true ->
  file_revisions !! p = None ->
  revision_step fnmatch exclusions file_revisions raw !! p = None.
Proof.
  intros Hp Hnone. unfold revision_step.
  destruct (String.eqb (PyStr.strip raw) ""); simpl; [assumption|].
  destruct (PyStr.startswith (PyStr.strip raw) "commit") eqn:Hline; simpl;
    [assumption|].
  destruct (should_exclude fnmatch (PyStr.strip raw) exclusions); simpl;
    [assumption|].
  rewrite lookup_insert_ne; [assumption|].
  intros Heq. rewrite Heq in Hline. congruence.
Qed.

Lemma revision_loop_keeps_absent (exclusions : list string) (p : string)
    (raws : list string) :
  PyStr.startswith p "commit" = true ->
  forall file_revisions : gmap string Z,
    file_revisions !! p = None ->
    foldl (revision_step fnmatch exclusions) file_revisions raws !! p = None.
Proof.
  intros Hp. induction raws as [|raw raws IH]; intros m Hm; simpl.
  - assumption.
  - apply IH. by apply revision_step_keeps_absent.
Qed.

(** Every count of the revision map is at least one. *)
Lemma revision_step_positive (exclusions : list string)
    (file_revisions : gmap string Z) (raw : string) :
  map_Forall (fun _ n => 0 < n) file_revisions ->
  map_Forall (fun _ n => 0 < n)
    (revision_step fnmatch exclusions file_revisions raw).
Proof.
  intros Hpos. unfold revision_step.
  destruct (negb (String.eqb (PyStr.strip raw) "")
            && negb (PyStr.startswith (PyStr.strip raw) "commit"));
    [|assumption].
  destruct (negb (should_exclude fnmatch (PyStr.strip raw) exclusions));
    [|assumption].
  apply map_Forall_insert_2; [|assumption].
  destruct (file_revisions !! PyStr.strip raw) as [n|] eqn:Hn; simpl; [|lia].
  pose proof (Hpos _ _ Hn) as H. simpl in H. lia.
Qed.

Lemma revision_loop_positive (exclusions : list string) (raws : list string) :
  forall file_revisions : gmap string Z,
    map_Forall (fun _ n => 0 < n) file_revisions ->
    map_Forall (fun _ n => 0 < n)
      (foldl (revision_step fnmatch exclusions) file_revisions raws).
Proof.
  induction raws as [|raw raws IH]; intros m Hm; cbn [foldl]; [assumption|].
  apply IH. by apply revision_step_positive.
Qed.

Lemma revision_frequency_positive (output : option string)
    (exclusions : option (list string)) :
  map_Forall (fun _ n => 0 < n)
    (get_revision_frequency fnmatch output exclusions).
Proof.
  unfold get_revision_frequency. destruct output as [out|].
  - apply revision_loop_positive, map_Forall_empty.
  - apply map_Forall_empty.
Qed.

(** A line that is no well-formed marker leaves a loop without a current
    commit as it is. *)
Lemma commit_step_without_commit (exclusions : list string)
    (file_commits : gmap string (list commit)) (raw : string) :
  ~ wellformed_marker raw ->
  commit_step fnmatch exclusions (None, file_commits) raw
  = (None, file_commits).
Proof.
  intros Hnot. unfold commit_step.
  destruct (String.eqb (PyStr.strip raw) ""); [reflexivity|].
  destruct (PyStr.startswith (PyStr.strip raw) "COMMIT:") eqn:Hm;
    [|reflexivity].
  unfold parse_marker.
  destruct (marker_parts (PyStr.strip raw)) as [|h [|a [|d [|m rest]]]] eqn:Hp;
    try reflexivity.
  exfalso. apply Hnot. split; [assumption|]. rewrite Hp. simpl. lia.
Qed.

Lemma commit_loop_without_commit (exclusions : list string)
    (file_commits : gmap string (list commit)) (raws : list string) :
  Forall (fun raw => ~ wellformed_marker raw) raws ->
  commit_loop fnmatch exclusions (None, file_commits) raws
  = (None, file_commits).
Proof.
  unfold commit_loop. induction 1 as [|raw raws Hraw _ IH]; cbn [foldl].
  - reflexivity.
  - rewrite commit_step_without_commit by assumption. exact IH.
Qed.

Lemma commit_step_malformed (exclusions : list string) (st : commit_state)
    (raw : string) :
  malformed_marker raw ->
  commit_step fnmatch exclusions st raw = (None, st.2).
Proof.
  intros [Hm Hlen]. destruct st as [current file_commits].
  unfold commit_step. rewrite Hm.
  destruct (String.eqb_spec (PyStr.strip raw) "") as [He|_].
  { rewrite He in Hm. discriminate Hm. }
  unfold parse_marker.
  destruct (marker_parts (PyStr.strip raw)) as [|h [|a [|d [|m rest]]]];
    try reflexivity.
  simpl in Hlen. lia.
Qed.

End HistoryFacts.

(** C10.  Revision-frequency extraction never counts a line that starts
    with "commit": a path with that prefix is absent from the revision map,
    whatever the log lists and whatever the exclusion patterns are. *)
Theorem revision_frequency_drops_commit_prefix
    (fnmatch : string -> string -> bool) (output : option string)
    (exclusions : option (list string)) (p : string) :
  PyStr.startswith p "commit" = true ->
  get_revision_frequency fnmatch output exclusions !! p = None.
Proof.
  intros Hp. unfold get_revision_frequency.
  destruct output as [out|]; [|apply lookup_empty].
  apply revision_loop_keeps_absent; [assumption|apply lookup_empty].
Qed.

Lemma revision_frequency_drops_commit_prefix_witness :
  get_revision_frequency fnmatch_simple
    (Some (PyStr.lines_text ["commit_utils.py"; "main.py"; "commit_utils.py"]))
    (Some []) !! "commit_utils.py" = None.
Proof.
  apply revision_frequency_drops_commit_prefix. reflexivity.
Defined.

(** The same log: "main.py" is counted, "commit_utils.py" is not. *)
Example revision_frequency_commit_utils :
  get_revision_frequency fnmatch_simple
    (Some (PyStr.lines_text ["commit_utils.py"; "main.py"; "commit_utils.py"]))
    (Some [])
  = {[ "main.py" := 1 ]}.
Proof. vm_compute. reflexivity. Qed.

(** C7.  A COMMIT marker line whose payload has fewer than four fields is
    passed over without an exception, and no line that follows it, up to the
    next well-formed marker, is attributed to a commit: the result is that
    of resuming the loop after those lines with no current commit and with
    the commit lists as they were before the marker. *)
Theorem malformed_marker_drops_its_files
    (fnmatch : string -> string -> bool) (out : string)
    (exclusions : option (list string))
    (before : list string) (marker : string) (followers after : list string) :
  PyStr.split PyStr.LF out = (before ++ marker :: followers ++ after)%list ->
  malformed_marker marker ->
  Forall (fun raw => ~ wellformed_marker raw) followers ->
  get_commit_messages fnmatch (Some out) exclusions
  = (commit_loop fnmatch (exclusions_or_default exclusions)
       (None,
        (commit_loop fnmatch (exclusions_or_default exclusions) (None, ∅)
           before).2)
       after).2.
Proof.
  intros Hsplit Hbad Hfollow. unfold get_commit_messages. rewrite Hsplit.
  set (excl := exclusions_or_default exclusions).
  unfold commit_loop. rewrite foldl_app. cbn [foldl]. rewrite foldl_app.
  rewrite (commit_step_malformed _ _ _ _ Hbad).
  pose proof (commit_loop_without_commit fnmatch excl
    (foldl (commit_step fnmatch excl) (None, ∅) before).2 _ Hfollow) as Hskip.
  unfold commit_loop in Hskip. rewrite Hskip. reflexivity.
Qed.

Lemma malformed_marker_drops_its_files_witness :
  get_commit_messages fnmatch_simple
    (Some (PyStr.lines_text
       ["COMMIT:a1b2c3d|Ann|2024-01-01|init"; "src/a.py";
        "COMMIT:hash|author"; "src/b.py"; "src/a.py";
        "COMMIT:e4f5a6b|Bob|2024-01-02|fix"; "src/c.py"]))
    (Some [])
  = (commit_loop fnmatch_simple []
       (None,
        (commit_loop fnmatch_simple [] (None, ∅)
           ["COMMIT:a1b2c3d|Ann|2024-01-01|init"; "src/a.py"]).2)
       ["COMMIT:e4f5a6b|Bob|2024-01-02|fix"; "src/c.py"]).2.
Proof.
  apply (malformed_marker_drops_its_files fnmatch_simple _ (Some [])
           ["COMMIT:a1b2c3d|Ann|2024-01-01|init"; "src/a.py"]
           "COMMIT:hash|author" ["src/b.py"; "src/a.py"]
           ["COMMIT:e4f5a6b|Bob|2024-01-02|fix"; "src/c.py"]).
  - reflexivity.
  - split; [reflexivity|simpl; lia].
  - repeat constructor; intros [H _]; discriminate H.
Defined.

(** The log of the witness: "src/b.py" has no commit list at all, and
    "src/a.py" only the commit of its own marker. *)
Example malformed_marker_scenario :
  get_commit_messages fnmatch_simple
    (Some (PyStr.lines_text
       ["COMMIT:a1b2c3d|Ann|2024-01-01|init"; "src/a.py";
        "COMMIT:hash|author"; "src/b.py"; "src/a.py";
        "COMMIT:e4f5a6b|Bob|2024-01-02|fix"; "src/c.py"]))
    (Some [])
  = {[ "src/a.py" := [mk_commit "a1b2c3d" "Ann" "2024-01-01" "init"];
       "src/c.py" := [mk_commit "e4f5a6b" "Bob" "2024-01-02" "fix"] ]}.
Proof. vm_compute. reflexivity. Qed.

(** A record whose two counts are "-" adds nothing: the file is entered,
    if it was not there, and its counts stay. *)
Lemma churn_dash_is_zero (fnmatch : string -> string -> bool)
    (exclusions : list string) (file_churn : gmap string (Z * Z))
    (line filename : string) :
  PyStr.split PyStr.TAB line = ["-"; "-"; filename] ->
  should_exclude fnmatch filename exclusions = false ->
  churn_step fnmatch exclusions file_churn line
  = churn_touch filename file_churn.
Proof.
  intros Hsplit Hex. unfold churn_step. rewrite Hsplit, Hex.
  cbn [churn_field String.eqb Ascii.eqb Bool.eqb negb].
  apply map_eq. intros k. rewrite lookup_alter.
  case_decide as Hk; [subst k|].
  - rewrite lookup_alter, decide_True by reflexivity.
    destruct (churn_touch filename file_churn !! filename) as [[a d]|];
      simpl; [|reflexivity].
    do 2 f_equal; lia.
  - rewrite lookup_alter, decide_False by assumption. reflexivity.
Qed.

(** C6.  The code at a line whose deleted field is not a number: the added
    count has been stored before [int] fails, so the line leaves five added
    lines behind; and at a line whose added field is not a number: the
    look-up in the [defaultdict] has entered the file with two zeros.  In
    both cases the result differs from the empty map of the log without the
    line. *)
Theorem churn_bad_line_leaves_traces :
  get_churn_data fnmatch_simple
    (Some (PyStr.tabbed ["5"; "abc"; "foo.py"])) (Some [])
    = {[ "foo.py" := (5, 0) ]} /\
  get_churn_data fnmatch_simple
    (Some (PyStr.tabbed ["abc"; "5"; "foo.py"])) (Some [])
    = {[ "foo.py" := (0, 0) ]} /\
  get_churn_data fnmatch_simple (Some "") (Some []) = ∅ /\
  get_churn_data fnmatch_simple
    (Some (PyStr.tabbed ["-"; "7"; "logo.bin"])) (Some [])
    = {[ "logo.bin" := (0, 7) ]}.
Proof. repeat split; vm_compute; reflexivity. Qed.

(* ===================================================================== *)
(** * Properties of the float operations *)
(* ===================================================================== *)

Module PyFloatFacts.

Import PyFloat.
Local Open Scope Q_scope.

(** ** Powers of two *)

Lemma pow2_pos (e : Z) : 0 < 2 ^ e.
Proof. apply Qpower_0_lt. reflexivity. Qed.

Lemma pow2_add (a b : Z) : 2 ^ (a + b) == 2 ^ a * 2 ^ b.
Proof. apply Qpower_plus. discriminate. Qed.

Lemma pow2_le (a b : Z) : (a <= b)%Z -> 2 ^ a <= 2 ^ b.
Proof. intros H. apply Qpower_le_compat_l; [assumption|discriminate]. Qed.

Lemma pow2_lt_inv (a b : Z) : 2 ^ a < 2 ^ b -> (a < b)%Z.
Proof. intros H. apply (Qpower_lt_compat_l_inv 2); [assumption|reflexivity]. Qed.

Lemma pow2_Z (n : Z) : (0 <= n)%Z -> 2 ^ n == inject_Z (2 ^ n).
Proof. intros H. symmetry. apply (Zpower_Qpower 2 n H). Qed.

(** Dividing by a power of two is multiplying by the opposite power. *)
Lemma div_pow2 (x : Q) (u : Z) : x / 2 ^ u == x * 2 ^ (- u).
Proof. unfold Qdiv. rewrite Qpower_opp. reflexivity. Qed.

Lemma div_pow2_le (x y : Q) (u : Z) : x <= y -> x / 2 ^ u <= y / 2 ^ u.
Proof.
  intros H. rewrite !div_pow2. apply Qmult_le_compat_r; [assumption|].
  apply Qlt_le_weak, pow2_pos.
Qed.

Lemma pow2_div (a u : Z) : 2 ^ a / 2 ^ u == 2 ^ (a - u).
Proof. symmetry. apply Qpower_minus. discriminate. Qed.

(** A power of two as a fraction of two integers. *)
Lemma pow2_frac (a b : Z) :
  (0 <= a)%Z -> (0 <= b)%Z -> 2 ^ (a - b) == (2 ^ a)%Z # Z.to_pos (2 ^ b).
Proof.
  intros Ha Hb. rewrite <- pow2_div, !pow2_Z by assumption.
  rewrite Qmake_Qdiv, Z2Pos.id; [reflexivity|].
  apply Z.pow_pos_nonneg; lia.
Qed.

(** ** Rounding to an integer *)

Lemma round_half_even_comp (x y : Q) :
  x == y -> round_half_even x = round_half_even y.
Proof.
  intros H. unfold round_half_even.
  rewrite (Qfloor_comp x y H).
  assert (Hc : x - inject_Z (Qfloor y) == y - inject_Z (Qfloor y))
    by (rewrite H; reflexivity).
  rewrite (Qcompare_comp _ _ Hc (1 # 2) (1 # 2) (Qeq_refl _)).
  reflexivity.
Qed.

Lemma round_half_even_floor (x : Q) :
  (Qfloor x <= round_half_even x <= Qfloor x + 1)%Z.
Proof.
  unfold round_half_even.
  destruct (Qcompare _ _); [destruct (Z.even _)|..]; lia.
Qed.

Lemma round_half_even_Z (n : Z) : round_half_even (inject_Z n) = n.
Proof.
  unfold round_half_even. rewrite Qfloor_Z.
  destruct (Qcompare_spec (inject_Z n - inject_Z n) (1 # 2)) as [H|H|H].
  - exfalso. lra.
  - reflexivity.
  - exfalso. lra.
Qed.

Lemma round_half_even_mono (x y : Q) :
  x <= y -> (round_half_even x <= round_half_even y)%Z.
Proof.
  intros Hxy.
  pose proof (Qfloor_resp_le x y Hxy) as Hf.
  destruct (Z.eq_dec (Qfloor x) (Qfloor y)) as [Heq|Hne].
  - unfold round_half_even. rewrite Heq.
    destruct (Qcompare_spec (x - inject_Z (Qfloor y)) (1 # 2)) as [Hx|Hx|Hx];
    destruct (Qcompare_spec (y - inject_Z (Qfloor y)) (1 # 2)) as [Hy|Hy|Hy];
      try (exfalso; lra); try destruct (Z.even (Qfloor y)); lia.
  - pose proof (round_half_even_floor x). pose proof (round_half_even_floor y).
    lia.
Qed.

Lemma round_half_even_nonneg (x : Q) : 0 <= x -> (0 <= round_half_even x)%Z.
Proof.
  intros H. rewrite <- (round_half_even_Z 0). by apply round_half_even_mono.
Qed.

(** ** The binade of a positive rational *)

Lemma Qmake_as_div (x : Q) : x == inject_Z (Qnum x) / inject_Z (Zpos (Qden x)).
Proof. destruct x as [n d]. simpl. apply Qmake_Qdiv. Qed.

Lemma ilog2_spec (x : Q) : 0 < x -> 2 ^ ilog2 x <= x /\ x < 2 ^ (ilog2 x + 1).
Proof.
  intros Hx.
  assert (Hn : (0 < Qnum x)%Z).
  { destruct x as [n d]. unfold Qlt in Hx. simpl in *. lia. }
  set (a := Z.log2 (Qnum x)). set (b := Z.log2 (Zpos (Qden x))).
  destruct (Z.log2_spec (Qnum x) Hn) as [Ha1 Ha2]. fold a in Ha1, Ha2.
  destruct (Z.log2_spec (Zpos (Qden x)) eq_refl) as [Hb1 Hb2].
  fold b in Hb1, Hb2.
  assert (Ha0 : (0 <= a)%Z) by apply Z.log2_nonneg.
  assert (Hb0 : (0 <= b)%Z) by apply Z.log2_nonneg.
  assert (Hpb : (0 < 2 ^ b)%Z) by (apply Z.pow_pos_nonneg; lia).
  assert (Hpb1 : (0 < 2 ^ (b + 1))%Z) by (apply Z.pow_pos_nonneg; lia).
  assert (Hup : x < 2 ^ (a - b + 1)).
  { replace (a - b + 1)%Z with ((a + 1) - b)%Z by lia.
    rewrite pow2_frac by lia. unfold Qlt. cbn [Qnum Qden].
    rewrite Z2Pos.id by assumption. nia. }
  assert (Hlow : 2 ^ (a - b - 1) <= x).
  { replace (a - b - 1)%Z with (a - (b + 1))%Z by lia.
    rewrite pow2_frac by lia. unfold Qle. cbn [Qnum Qden].
    rewrite Z2Pos.id by assumption.
    replace (Z.succ b) with (b + 1)%Z in Hb2 by lia. nia. }
  unfold ilog2. fold a b.
  destruct (Qle_bool (2 ^ (a - b)) x) eqn:Hle.
  - split; [by apply Qle_bool_iff|assumption].
  - split; [assumption|].
    replace (a - b - 1 + 1)%Z with (a - b)%Z by lia.
    apply Qnot_le_lt. intros H. apply Qle_bool_iff in H. congruence.
Qed.

Lemma ilog2_mono (x y : Q) : 0 < x -> x <= y -> (ilog2 x <= ilog2 y)%Z.
Proof.
  intros Hx Hxy.
  destruct (ilog2_spec x Hx) as [Hx1 _].
  destruct (ilog2_spec y) as [_ Hy2]; [lra|].
  assert (H : 2 ^ ilog2 x < 2 ^ (ilog2 y + 1)) by lra.
  apply pow2_lt_inv in H. lia.
Qed.

(** ** Rounding to the format *)

Lemma ulp_exp_mono (x y : Q) : 0 < x -> x <= y -> (ulp_exp x <= ulp_exp y)%Z.
Proof.
  intros Hx Hxy. unfold ulp_exp. pose proof (ilog2_mono x y Hx Hxy). lia.
Qed.

Lemma rnd_pos_nonneg (x : Q) : 0 <= x -> 0 <= rnd_pos x.
Proof.
  intros Hx. unfold rnd_pos.
  apply Qmult_le_0_compat; [|apply Qlt_le_weak, pow2_pos].
  change 0 with (inject_Z 0). rewrite <- Zle_Qle.
  apply round_half_even_nonneg.
  rewrite div_pow2. apply Qmult_le_0_compat; [assumption|].
  apply Qlt_le_weak, pow2_pos.
Qed.

(** A positive number below a power of two that its unit divides rounds
    to that power at most. *)
Lemma rnd_pos_le_pow2 (x : Q) (e : Z) :
  x <= 2 ^ e -> (ulp_exp x <= e)%Z -> rnd_pos x <= 2 ^ e.
Proof.
  intros Hx Hu. unfold rnd_pos. set (u := ulp_exp x) in *.
  assert (Hk : x / 2 ^ u <= inject_Z (2 ^ (e - u))).
  { rewrite <- pow2_Z by lia. rewrite <- pow2_div. by apply div_pow2_le. }
  apply round_half_even_mono in Hk. rewrite round_half_even_Z in Hk.
  apply Qle_trans with (inject_Z (2 ^ (e - u)) * 2 ^ u).
  - apply Qmult_le_compat_r; [|apply Qlt_le_weak, pow2_pos].
    by rewrite <- Zle_Qle.
  - rewrite <- pow2_Z by lia. rewrite <- pow2_add.
    replace (e - u + u)%Z with e by lia. apply Qle_refl.
Qed.

(** A number at or above a power of two that its unit divides rounds to
    that power at least. *)
Lemma rnd_pos_ge_pow2 (x : Q) (e : Z) :
  2 ^ e <= x -> (ulp_exp x <= e)%Z -> 2 ^ e <= rnd_pos x.
Proof.
  intros Hx Hu. unfold rnd_pos. set (u := ulp_exp x) in *.
  assert (Hk : inject_Z (2 ^ (e - u)) <= x / 2 ^ u).
  { rewrite <- pow2_Z by lia. rewrite <- pow2_div. by apply div_pow2_le. }
  apply round_half_even_mono in Hk. rewrite round_half_even_Z in Hk.
  apply Qle_trans with (inject_Z (2 ^ (e - u)) * 2 ^ u).
  - rewrite <- pow2_Z by lia. rewrite <- pow2_add.
    replace (e - u + u)%Z with e by lia. apply Qle_refl.
  - apply Qmult_le_compat_r; [|apply Qlt_le_weak, pow2_pos].
    by rewrite <- Zle_Qle.
Qed.

Lemma rnd_pos_mono (x y : Q) : 0 < x -> x <= y -> rnd_pos x <= rnd_pos y.
Proof.
  intros Hx Hxy.
  assert (Hy : 0 < y) by lra.
  pose proof (ulp_exp_mono x y Hx Hxy) as Hu.
  destruct (Z.eq_dec (ulp_exp x) (ulp_exp y)) as [Heq|Hne].
  - unfold rnd_pos. rewrite Heq.
    apply Qmult_le_compat_r; [|apply Qlt_le_weak, pow2_pos].
    rewrite <- Zle_Qle. apply round_half_even_mono. by apply div_pow2_le.
  - (* different units: a power of two lies between the two numbers *)
    destruct (ilog2_spec x Hx) as [_ Hx2].
    destruct (ilog2_spec y Hy) as [Hy1 _].
    assert (Hlt : (ilog2 x < ilog2 y)%Z) by (unfold ulp_exp in *; lia).
    apply Qle_trans with (2 ^ ilog2 y).
    + apply rnd_pos_le_pow2; [|unfold ulp_exp in *; lia].
      apply Qle_trans with (2 ^ (ilog2 x + 1)); [lra|]. apply pow2_le. lia.
    + apply rnd_pos_ge_pow2; [assumption|unfold ulp_exp in *; lia].
Qed.

Lemma rnd_comp (x y : Q) : x == y -> rnd x = rnd y.
Proof. intros H. unfold rnd. by rewrite (Qred_complete x y H). Qed.

Lemma rnd_0 : rnd 0 = 0.
Proof. reflexivity. Qed.

Lemma rnd_of_pos (x : Q) : 0 < x -> rnd x == rnd_pos (Qred x).
Proof.
  intros Hx. unfold rnd. rewrite Qred_correct.
  assert (H : 0 < Qred x) by (by rewrite Qred_correct).
  apply Qgt_alt in H. rewrite H. reflexivity.
Qed.

Lemma rnd_nonneg (x : Q) : 0 <= x -> 0 <= rnd x.
Proof.
  intros Hx. destruct (Qlt_le_dec 0 x) as [Hpos|Hle].
  - rewrite rnd_of_pos by assumption. apply rnd_pos_nonneg.
    rewrite Qred_correct. assumption.
  - rewrite (rnd_comp x 0) by lra. rewrite rnd_0. apply Qle_refl.
Qed.

Lemma rnd_of_neg (x : Q) : x < 0 -> rnd x == - rnd_pos (- Qred x).
Proof.
  intros Hx. unfold rnd. etransitivity; [apply Qred_correct|].
  destruct (Qcompare_spec (Qred x) 0) as [H|H|H];
    rewrite Qred_correct in H; [exfalso; lra|reflexivity|exfalso; lra].
Qed.

Lemma rnd_nonpos (x : Q) : x <= 0 -> rnd x <= 0.
Proof.
  intros Hx. destruct (Qlt_le_dec x 0) as [Hneg|Hge].
  - rewrite rnd_of_neg by assumption.
    assert (H : 0 <= rnd_pos (- Qred x)).
    { apply rnd_pos_nonneg. rewrite Qred_correct. lra. }
    lra.
  - rewrite (rnd_comp x 0) by lra. rewrite rnd_0. apply Qle_refl.
Qed.

(** Rounding is monotone. *)
Lemma rnd_mono (x y : Q) : x <= y -> rnd x <= rnd y.
Proof.
  intros Hxy.
  destruct (Qlt_le_dec 0 x) as [Hx|Hx].
  - rewrite (rnd_of_pos x), (rnd_of_pos y) by lra.
    apply rnd_pos_mono; rewrite !Qred_correct; assumption.
  - destruct (Qlt_le_dec y 0) as [Hy|Hy].
    + rewrite (rnd_of_neg x), (rnd_of_neg y) by lra.
      assert (H : rnd_pos (- Qred y) <= rnd_pos (- Qred x)).
      { apply rnd_pos_mono; rewrite !Qred_correct; lra. }
      lra.
    + apply Qle_trans with 0; [by apply rnd_nonpos|by apply rnd_nonneg].
Qed.

(** ** The operations of the scorer *)

Lemma rnd_1 : rnd 1 = 1.
Proof. vm_compute. reflexivity. Qed.

Lemma round_mono (x y : Q) (ndigits : nat) :
  x <= y -> round x ndigits <= round y ndigits.
Proof.
  intros Hxy. unfold round.
  set (scale := inject_Z (10 ^ Z.of_nat ndigits)).
  assert (Hs : 0 < scale).
  { unfold scale. change 0 with (inject_Z 0). rewrite <- Zlt_Qlt.
    apply Z.pow_pos_nonneg; lia. }
  assert (Hinv : 0 <= / scale) by (apply Qlt_le_weak, Qinv_lt_0_compat, Hs).
  apply rnd_mono. apply Qmult_le_compat_r; [|assumption].
  rewrite <- Zle_Qle. apply round_half_even_mono.
  apply Qmult_le_compat_r; lra.
Qed.

Lemma fmul_comm (x y : Q) : fmul x y = fmul y x.
Proof. apply rnd_comp, Qmult_comm. Qed.

(** A quotient of two non-negative integers, the divisor the larger, is a
    float between 0 and 1. *)
Lemma true_div_unit (a b : Z) :
  (0 <= a <= b)%Z -> (0 < b)%Z ->
  exists q, true_div a b = Ok q /\ 0 <= q <= 1.
Proof.
  intros Ha Hb. unfold true_div.
  destruct (Z.eqb_spec b 0) as [->|_]; [lia|].
  set (q := rnd (inject_Z a / inject_Z b)).
  assert (Hb' : 0 < inject_Z b)
    by (change 0 with (inject_Z 0); rewrite <- Zlt_Qlt; lia).
  assert (Hq : 0 <= q <= 1).
  { split.
    - apply rnd_nonneg. apply Qle_shift_div_l; [assumption|].
      rewrite Qmult_0_l. change 0 with (inject_Z 0). rewrite <- Zle_Qle. lia.
    - rewrite <- rnd_1. apply rnd_mono.
      apply Qle_shift_div_r; [assumption|].
      rewrite Qmult_1_l. rewrite <- Zle_Qle. lia. }
  destruct (Qle_bool (2 ^ 1024) (Qabs q)) eqn:Hover.
  - exfalso. apply Qle_bool_iff in Hover.
    rewrite Qabs_pos in Hover by apply Hq.
    assert (H1 : 1 < 2 ^ 1024) by reflexivity. lra.
  - exists q. auto.
Qed.

(** A quotient that is returned is a finite float. *)
Lemma true_div_finite (a b : Z) (q : Q) :
  true_div a b = Ok q -> Qabs q < 2 ^ 1024.
Proof.
  unfold true_div. destruct (b =? 0)%Z; [discriminate|].
  destruct (Qle_bool (2 ^ 1024) (Qabs (rnd (inject_Z a / inject_Z b))))
    eqn:Hover; [discriminate|].
  intros [= <-]. apply Qnot_le_lt. intros H.
  apply Qle_bool_iff in H. congruence.
Qed.

(** The quotient of a non-zero integer by itself is the float 1. *)
Lemma true_div_same (a : Z) : a <> 0%Z -> true_div a a = Ok 1.
Proof.
  intros Ha. unfold true_div.
  destruct (Z.eqb_spec a 0) as [->|_]; [congruence|].
  assert (Hq : rnd (inject_Z a / inject_Z a) = 1).
  { rewrite <- rnd_1. apply rnd_comp. field.
    intros H. apply Ha. unfold Qeq in H. simpl in H. lia. }
  rewrite Hq. reflexivity.
Qed.

(** The weighted sum of two floats between 0 and 1, rounded to four
    decimals, is between 0 and 1. *)
Lemma weighted_sum_unit (nr nl : Q) :
  0 <= nr <= 1 -> 0 <= nl <= 1 ->
  0 <= round (fadd (fmul nr weight_revisions) (fmul nl weight_loc)) 4 <= 1.
Proof.
  intros Hr Hl.
  assert (Hw7 : 0 <= weight_revisions) by (vm_compute; discriminate).
  assert (Hw3 : 0 <= weight_loc) by (vm_compute; discriminate).
  assert (H7 : 0 <= fmul nr weight_revisions <= fmul 1 weight_revisions).
  { unfold fmul. split.
    - apply rnd_nonneg. apply Qmult_le_0_compat; lra.
    - apply rnd_mono. apply Qmult_le_compat_r; lra. }
  assert (H3 : 0 <= fmul nl weight_loc <= fmul 1 weight_loc).
  { unfold fmul. split.
    - apply rnd_nonneg. apply Qmult_le_0_compat; lra.
    - apply rnd_mono. apply Qmult_le_compat_r; lra. }
  set (t7 := fmul nr weight_revisions) in *.
  set (t3 := fmul nl weight_loc) in *.
  assert (Hsum : fadd (fmul 1 weight_revisions) (fmul 1 weight_loc) = 1)
    by (vm_compute; reflexivity).
  assert (Hs : 0 <= fadd t7 t3 <= 1).
  { unfold fadd. split.
    - apply rnd_nonneg. lra.
    - rewrite <- Hsum. unfold fadd. apply rnd_mono; lra. }
  split.
  - assert (H0 : round 0 4 = 0) by (vm_compute; reflexivity).
    apply Qle_trans with (round 0 4); [rewrite H0; apply Qle_refl|].
    apply round_mono; lra.
  - assert (H1 : round 1 4 = 1) by (vm_compute; reflexivity).
    apply Qle_trans with (round 1 4); [|rewrite H1; apply Qle_refl].
    apply round_mono; lra.
Qed.

(** No product and no sum of the scorer leaves the finite range: with a
    finite first quotient and a second one between 0 and 1, the weighted
    sum and its rounding to four decimals are below 2^1024 in magnitude. *)
Lemma weighted_sum_finite (nr nl : Q) :
  - 2 ^ 1024 <= nr <= 2 ^ 1024 -> 0 <= nl <= 1 ->
  Qabs (fmul nr weight_revisions) < 2 ^ 1024 /\
  Qabs (fmul nl weight_loc) < 2 ^ 1024 /\
  Qabs (fadd (fmul nr weight_revisions) (fmul nl weight_loc)) < 2 ^ 1024 /\
  Qabs (round (fadd (fmul nr weight_revisions) (fmul nl weight_loc)) 4)
    < 2 ^ 1024.
Proof.
  intros Hr Hl.
  assert (Hw7 : 0 <= weight_revisions) by (vm_compute; discriminate).
  assert (Hw3 : 0 <= weight_loc) by (vm_compute; discriminate).
  set (big := 2 ^ 1024) in *.
  set (lo7 := fmul (- big) weight_revisions).
  set (hi7 := fmul big weight_revisions).
  assert (H7 : lo7 <= fmul nr weight_revisions <= hi7).
  { unfold lo7, hi7, fmul. split; apply rnd_mono, Qmult_le_compat_r; lra. }
  assert (H3 : 0 <= fmul nl weight_loc <= fmul 1 weight_loc).
  { unfold fmul. split.
    - apply rnd_nonneg. apply Qmult_le_0_compat; lra.
    - apply rnd_mono, Qmult_le_compat_r; lra. }
  set (t7 := fmul nr weight_revisions) in *.
  set (t3 := fmul nl weight_loc) in *.
  assert (Hs : fadd lo7 0 <= fadd t7 t3 <= fadd hi7 (fmul 1 weight_loc)).
  { unfold fadd. split; apply rnd_mono; lra. }
  set (s := fadd t7 t3) in *.
  assert (Hround : round (fadd lo7 0) 4 <= round s 4
                   <= round (fadd hi7 (fmul 1 weight_loc)) 4).
  { split; apply round_mono; apply Hs. }
  assert (Hlo7 : - big < lo7) by (vm_compute; reflexivity).
  assert (Hhi7 : hi7 < big) by (vm_compute; reflexivity).
  assert (Hw3' : fmul 1 weight_loc < big) by (vm_compute; reflexivity).
  assert (Hslo : - big < fadd lo7 0) by (vm_compute; reflexivity).
  assert (Hshi : fadd hi7 (fmul 1 weight_loc) < big)
    by (vm_compute; reflexivity).
  assert (Hrlo : - big < round (fadd lo7 0) 4) by (vm_compute; reflexivity).
  assert (Hrhi : round (fadd hi7 (fmul 1 weight_loc)) 4 < big)
    by (vm_compute; reflexivity).
  repeat split; apply Qabs_Qlt_condition; lra.
Qed.

(** ** Agreement with the machine *)

(** The literals, quotients, products and sums of the scenarios, computed
    by the binary64 arithmetic of the machine, are the numbers of the
    model. *)
Example machine_literals :
  machine_value 0.7%float = Some weight_revisions /\
  machine_value 0.3%float = Some weight_loc /\
  machine_value 0.2%float = Some (literal (2 # 10)) /\
  machine_value 0.4%float = Some (literal (4 # 10)) /\
  machine_value 0.26%float = Some (literal (26 # 100)) /\
  machine_value 0.65%float = Some (literal (65 # 100)).
Proof. vm_compute. repeat split; reflexivity. Qed.

Example machine_quotients :
  Ok <$> machine_value (2 / 10)%float = Some (true_div 2 10) /\
  Ok <$> machine_value (20 / 50)%float = Some (true_div 20 50) /\
  Ok <$> machine_value (10 / 20)%float = Some (true_div 10 20) /\
  Ok <$> machine_value (1 / 3)%float = Some (true_div 1 3) /\
  Ok <$> machine_value (7 / 1000)%float = Some (true_div 7 1000).
Proof. vm_compute. repeat split; reflexivity. Qed.

Example machine_scores :
  machine_value (0.7 + 0.3)%float = Some (fadd weight_revisions weight_loc) /\
  machine_value (2 / 10 * 0.7 + 20 / 50 * 0.3)%float
    = Some (fadd (fmul (literal (2 # 10)) weight_revisions)
                 (fmul (literal (4 # 10)) weight_loc)) /\
  machine_value (10 / 20 * 0.7 + 50 / 50 * 0.3)%float
    = Some (fadd (fmul (1 # 2) weight_revisions) (fmul 1 weight_loc)) /\
  machine_value (1 / 3 * 0.7 + 7 / 1000 * 0.3)%float
    = Some (fadd (fmul (rnd (1 # 3)) weight_revisions)
                 (fmul (rnd (7 # 1000)) weight_loc)).
Proof. vm_compute. repeat split; reflexivity. Qed.

End PyFloatFacts.

(* ===================================================================== *)
(** * Properties of the scorer *)
(* ===================================================================== *)

(** ** The maximum of a map *)

Lemma max_of_ge_first (first : Z) (others : list Z) :
  first <= max_of first others.
Proof.
  unfold max_of. revert first.
  induction others as [|v vs IH]; intros first; simpl; [lia|].
  specialize (IH (Z.max first v)). lia.
Qed.

Lemma max_of_ge_others (first : Z) (others : list Z) (v : Z) :
  v ∈ others -> v <= max_of first others.
Proof.
  unfold max_of. revert first.
  induction others as [|w ws IH]; intros first Hv; simpl.
  - by apply elem_of_nil in Hv.
  - apply elem_of_cons in Hv as [->|Hv]; [|by apply IH].
    pose proof (max_of_ge_first (Z.max first w) ws) as H.
    unfold max_of in H. lia.
Qed.

Lemma max_of_attained (first : Z) (others : list Z) :
  max_of first others = first \/ max_of first others ∈ others.
Proof.
  unfold max_of. revert first.
  induction others as [|w ws IH]; intros first; simpl; [by left|].
  destruct (IH (Z.max first w)) as [H|H].
  - rewrite H. destruct (Z.max_spec first w) as [[_ ->]|[_ ->]].
    + right. apply list_elem_of_here.
    + by left.
  - right. by apply list_elem_of_further.
Qed.

Lemma max_or_one_empty : max_or_one ∅ = 1.
Proof. reflexivity. Qed.

Lemma max_or_one_ge (d : gmap string Z) (k : string) (v : Z) :
  d !! k = Some v -> v <= max_or_one d.
Proof.
  intros Hk. unfold max_or_one.
  assert (Hin : v ∈ (map_to_list d).*2).
  { apply list_elem_of_fmap. exists (k, v). split; [reflexivity|].
    by apply elem_of_map_to_list. }
  destruct ((map_to_list d).*2) as [|w ws]; [by apply elem_of_nil in Hin|].
  apply elem_of_cons in Hin as [->|Hin].
  - apply max_of_ge_first.
  - by apply max_of_ge_others.
Qed.

Lemma max_or_one_attained (d : gmap string Z) :
  d <> ∅ -> exists k, d !! k = Some (max_or_one d).
Proof.
  intros Hne. unfold max_or_one.
  assert (Hall : forall v, v ∈ (map_to_list d).*2 -> exists k, d !! k = Some v).
  { intros v Hv. apply list_elem_of_fmap in Hv as ([k v'] & -> & Hv).
    exists k. by apply elem_of_map_to_list. }
  destruct ((map_to_list d).*2) as [|w ws] eqn:Hl.
  - exfalso. apply Hne. apply map_to_list_empty_iff.
    by apply fmap_nil_inv in Hl.
  - apply Hall. destruct (max_of_attained w ws) as [->|H].
    + apply list_elem_of_here.
    + by apply list_elem_of_further.
Qed.

(** ** The sort *)

Lemma flt_true (x y : Q) : PyFloat.flt x y = true <-> (x < y)%Q.
Proof.
  unfold PyFloat.flt. rewrite negb_true_iff. split.
  - intros H. apply Qnot_le_lt. intros Hle. apply Qle_bool_iff in Hle.
    congruence.
  - intros H. destruct (Qle_bool y x) eqn:E; [|reflexivity].
    apply Qle_bool_iff in E. exfalso. apply (Qlt_not_le _ _ H E).
Qed.

Lemma flt_false (x y : Q) : PyFloat.flt x y = false <-> (y <= x)%Q.
Proof.
  unfold PyFloat.flt. rewrite negb_false_iff. apply Qle_bool_iff.
Qed.

Lemma insert_by_score_perm (e : entry) (sorted : list entry) :
  insert_by_score e sorted ≡ₚ e :: sorted.
Proof.
  induction sorted as [|h t IH]; simpl; [reflexivity|].
  destruct (PyFloat.flt _ _); [|reflexivity].
  rewrite IH. apply perm_swap.
Qed.

Lemma sort_by_score_desc_perm (hotspots : list entry) :
  sort_by_score_desc hotspots ≡ₚ hotspots.
Proof.
  induction hotspots as [|e es IH]; simpl; [reflexivity|].
  rewrite insert_by_score_perm. by rewrite IH.
Qed.

Lemma insert_by_score_sorted (e : entry) (sorted : list entry) :
  StronglySorted score_ge sorted ->
  StronglySorted score_ge (insert_by_score e sorted).
Proof.
  induction 1 as [|h t Hsorted IH Hh]; simpl.
  - repeat constructor.
  - destruct (PyFloat.flt (hotspot_score e) (hotspot_score h)) eqn:Hlt.
    + apply flt_true in Hlt. constructor; [assumption|].
      rewrite insert_by_score_perm. constructor; [|assumption].
      unfold score_ge. by apply Qlt_le_weak.
    + apply flt_false in Hlt. constructor; [by constructor|].
      constructor; [exact Hlt|].
      eapply Forall_impl; [exact Hh|]. unfold score_ge. intros x Hx.
      eapply Qle_trans; eassumption.
Qed.

Lemma sort_by_score_desc_sorted (hotspots : list entry) :
  StronglySorted score_ge (sort_by_score_desc hotspots).
Proof.
  induction hotspots as [|e es IH]; simpl; [constructor|].
  by apply insert_by_score_sorted.
Qed.

(** Stability: the entries of one score keep the order they had. *)
Lemma insert_by_score_stable (q : Q) (e : entry) (sorted : list entry) :
  filter (fun x => Qeq_bool (hotspot_score x) q = true)
    (insert_by_score e sorted)
  = filter (fun x => Qeq_bool (hotspot_score x) q = true) (e :: sorted).
Proof.
  induction sorted as [|h t IH]; [reflexivity|]. cbn [insert_by_score].
  destruct (PyFloat.flt (hotspot_score e) (hotspot_score h)) eqn:Hlt;
    [|reflexivity].
  apply flt_true in Hlt.
  rewrite (filter_cons _ h), IH, !filter_cons.
  destruct (decide (Qeq_bool (hotspot_score h) q = true)) as [Hh|Hh];
    destruct (decide (Qeq_bool (hotspot_score e) q = true)) as [He|He];
    try reflexivity.
  exfalso. apply Qeq_bool_iff in Hh, He. rewrite Hh, He in Hlt.
  by apply Qlt_irrefl in Hlt.
Qed.

Lemma sort_by_score_desc_stable (q : Q) (hotspots : list entry) :
  filter (fun x => Qeq_bool (hotspot_score x) q = true)
    (sort_by_score_desc hotspots)
  = filter (fun x => Qeq_bool (hotspot_score x) q = true) hotspots.
Proof.
  induction hotspots as [|e es IH]; [reflexivity|].
  cbn [sort_by_score_desc foldr]. rewrite insert_by_score_stable.
  rewrite !filter_cons. fold (sort_by_score_desc es). by rewrite IH.
Qed.

(** ** The loop over the common files *)

Section ScorerFacts.

Variable set_iter : gset string -> list string.
Variables (revs locs : gmap string Z).
Variable churn : option (gmap string (Z * Z)).
Variable authors : option (gmap string Z).

Let max_revisions := max_or_one revs.
Let max_loc := max_or_one locs.

Lemma score_file_some (filepath : string) (e : entry) :
  score_file revs locs churn authors max_revisions max_loc filepath
    = Ok (Some e) ->
  entry_of revs locs filepath e.
Proof.
  unfold score_file, entry_of. fold max_revisions max_loc.
  destruct (revs !! filepath) as [rev_count|]; [|discriminate].
  destruct (locs !! filepath) as [n|]; [|discriminate].
  destruct (Z.ltb_spec n 10) as [Hsmall|Hbig]; [discriminate|].
  destruct (PyFloat.true_div rev_count max_revisions) as [nr|] eqn:Hr;
    [|discriminate].
  destruct (PyFloat.true_div n max_loc) as [nl|] eqn:Hl; [|discriminate].
  simpl. intros [= <-]. simpl. rewrite Hr, Hl. eauto 10.
Qed.

Lemma score_file_none (filepath : string) :
  score_file revs locs churn authors max_revisions max_loc filepath
    = Ok None ->
  exists n, locs !! filepath = Some n /\ n < 10.
Proof.
  unfold score_file.
  destruct (revs !! filepath) as [rev_count|]; [|discriminate].
  destruct (locs !! filepath) as [n|]; [|discriminate].
  destruct (Z.ltb_spec n 10) as [Hsmall|Hbig]; [eauto|].
  destruct (PyFloat.true_div rev_count max_revisions); [|discriminate].
  destruct (PyFloat.true_div n max_loc); discriminate.
Qed.

Lemma score_files_elem (files : list string) (hotspots : list entry)
    (e : entry) :
  score_files revs locs churn authors max_revisions max_loc files
    = Ok hotspots ->
  e ∈ hotspots ->
  exists filepath, filepath ∈ files /\
    score_file revs locs churn authors max_revisions max_loc filepath
      = Ok (Some e).
Proof.
  revert hotspots. induction files as [|f fs IH]; intros hs; simpl.
  - intros [= <-] He. by apply elem_of_nil in He.
  - destruct (score_file _ _ _ _ _ _ f) as [r|] eqn:Hf; [|discriminate].
    simpl.
    destruct (score_files _ _ _ _ _ _ fs) as [hs'|] eqn:Hfs; [|discriminate].
    simpl. intros [= <-] He.
    assert (Hrest : e ∈ hs' -> exists filepath, filepath ∈ f :: fs /\
      score_file revs locs churn authors max_revisions max_loc filepath
        = Ok (Some e)).
    { intros H. destruct (IH hs' eq_refl H) as (g & Hg & Hs).
      exists g. split; [by apply list_elem_of_further|assumption]. }
    destruct r as [e'|]; [|by apply Hrest].
    apply elem_of_cons in He as [->|He]; [|by apply Hrest].
    exists f. split; [apply list_elem_of_here|assumption].
Qed.

Lemma score_files_complete (files : list string) (hotspots : list entry)
    (filepath : string) (e : entry) :
  score_files revs locs churn authors max_revisions max_loc files
    = Ok hotspots ->
  filepath ∈ files ->
  score_file revs locs churn authors max_revisions max_loc filepath
    = Ok (Some e) ->
  e ∈ hotspots.
Proof.
  revert hotspots. induction files as [|f fs IH]; intros hs; simpl.
  - intros _ Hin. by apply elem_of_nil in Hin.
  - destruct (score_file _ _ _ _ _ _ f) as [r|] eqn:Hf; [|discriminate].
    simpl.
    destruct (score_files _ _ _ _ _ _ fs) as [hs'|] eqn:Hfs; [|discriminate].
    simpl. intros [= <-] Hin He.
    apply elem_of_cons in Hin as [->|Hin].
    + rewrite He in Hf. injection Hf as <-. apply list_elem_of_here.
    + specialize (IH hs' eq_refl Hin He).
      destruct r; [by apply list_elem_of_further|assumption].
Qed.

Lemma score_files_NoDup (files : list string) (hotspots : list entry) :
  score_files revs locs churn authors max_revisions max_loc files
    = Ok hotspots ->
  NoDup files -> NoDup (file <$> hotspots).
Proof.
  revert hotspots. induction files as [|f fs IH]; intros hs; simpl.
  - intros [= <-] _. constructor.
  - destruct (score_file _ _ _ _ _ _ f) as [r|] eqn:Hf; [|discriminate].
    simpl.
    destruct (score_files _ _ _ _ _ _ fs) as [hs'|] eqn:Hfs; [|discriminate].
    simpl. intros [= <-] Hnd. apply NoDup_cons in Hnd as [Hf_fresh Hnd].
    specialize (IH hs' eq_refl Hnd).
    destruct r as [e|]; [|assumption].
    simpl. apply NoDup_cons. split; [|assumption].
    intros Hin. apply list_elem_of_fmap in Hin as (e' & Heq & He').
    destruct (score_files_elem fs hs' e' Hfs He') as (g & Hg & Hs).
    apply score_file_some in Hs as [Hfile _].
    apply score_file_some in Hf as [Hfile' _].
    apply Hf_fresh. congruence.
Qed.

(** An exception at one file is an exception of the loop. *)
Lemma score_files_raise (files : list string) (filepath : string)
    (exc : exn) (hotspots : list entry) :
  filepath ∈ files ->
  score_file revs locs churn authors max_revisions max_loc filepath
    = Raise exc ->
  score_files revs locs churn authors max_revisions max_loc files
    <> Ok hotspots.
Proof.
  intros Hin Hs. revert hotspots.
  induction files as [|g fs IH]; intros hs; simpl.
  - by apply elem_of_nil in Hin.
  - apply elem_of_cons in Hin as [<-|Hin].
    + rewrite Hs. discriminate.
    + destruct (score_file _ _ _ _ _ _ g); [|discriminate]. simpl.
      destruct (score_files _ _ _ _ _ _ fs) as [hs'|] eqn:Hfs;
        [|discriminate].
      exfalso. by apply (IH Hin hs').
Qed.

(** The loop ends without an exception when every file does. *)
Lemma score_files_ok (files : list string) :
  Forall (fun filepath => exists r,
    score_file revs locs churn authors max_revisions max_loc filepath
      = Ok r) files ->
  exists hotspots,
    score_files revs locs churn authors max_revisions max_loc files
      = Ok hotspots.
Proof.
  induction 1 as [|f fs [r Hf] _ [hs IH]]; simpl; [eauto|].
  rewrite Hf. simpl. rewrite IH. simpl. eauto.
Qed.

(** With positive revision counts no division fails. *)
Lemma score_file_ok (filepath : string) :
  map_Forall (fun _ n => 0 < n) revs ->
  is_Some (revs !! filepath) -> is_Some (locs !! filepath) ->
  exists r,
    score_file revs locs churn authors max_revisions max_loc filepath
      = Ok r.
Proof.
  intros Hpos [rev_count Hr] [n Hn]. unfold score_file. rewrite Hr, Hn.
  destruct (Z.ltb_spec n 10) as [Hsmall|Hbig]; [eauto|].
  pose proof (Hpos _ _ Hr) as Hrpos. simpl in Hrpos.
  pose proof (max_or_one_ge _ _ _ Hr) as Hrmax.
  pose proof (max_or_one_ge _ _ _ Hn) as Hnmax.
  destruct (PyFloatFacts.true_div_unit rev_count max_revisions)
    as (nr & -> & _); [unfold max_revisions; lia..|].
  destruct (PyFloatFacts.true_div_unit n max_loc)
    as (nl & -> & _); [unfold max_loc; lia..|].
  simpl. eauto.
Qed.

Lemma calculate_hotspots_elem (hotspots : list entry) (e : entry) :
  calculate_hotspots set_iter revs locs churn authors = Ok hotspots ->
  e ∈ hotspots ->
  exists filepath, filepath ∈ set_iter (dom revs ∩ dom locs) /\
    entry_of revs locs filepath e.
Proof.
  unfold calculate_hotspots. fold max_revisions max_loc.
  destruct (score_files _ _ _ _ _ _ _) as [hs|] eqn:Hfs; [|discriminate].
  simpl. intros [= <-] He. rewrite sort_by_score_desc_perm in He.
  destruct (score_files_elem _ _ _ Hfs He) as (f & Hf & Hs).
  exists f. split; [assumption|]. by apply score_file_some.
Qed.

End ScorerFacts.

(** ** The ranked list *)

Lemma enumerates_elem (set_iter : gset string -> list string)
    (revs locs : gmap string Z) (filepath : string) :
  enumerates set_iter ->
  filepath ∈ set_iter (dom revs ∩ dom locs) <->
  is_Some (revs !! filepath) /\ is_Some (locs !! filepath).
Proof.
  intros Henum. rewrite (Henum _), elem_of_elements, elem_of_intersection.
  by rewrite !elem_of_dom.
Qed.

(** With positive revision counts the scorer returns a list. *)
Lemma calculate_hotspots_returns (set_iter : gset string -> list string)
    (revs locs : gmap string Z) (churn : option (gmap string (Z * Z)))
    (authors : option (gmap string Z)) :
  enumerates set_iter ->
  map_Forall (fun _ n => 0 < n) revs ->
  exists hotspots,
    calculate_hotspots set_iter revs locs churn authors = Ok hotspots.
Proof.
  intros Henum Hpos. unfold calculate_hotspots.
  destruct (score_files_ok revs locs churn authors
              (set_iter (dom revs ∩ dom locs))) as [hs Hhs].
  - apply Forall_forall. intros f Hf.
    apply enumerates_elem in Hf as [Hr Hl]; [|assumption].
    by apply score_file_ok.
  - rewrite Hhs. simpl. eauto.
Qed.

(** The revision map of the history extractor never stops the scorer. *)
Corollary calculate_hotspots_returns_on_history
    (set_iter : gset string -> list string)
    (fnmatch : string -> string -> bool) (output : option string)
    (exclusions : option (list string)) (locs : gmap string Z)
    (churn : option (gmap string (Z * Z))) (authors : option (gmap string Z)) :
  enumerates set_iter ->
  exists hotspots,
    calculate_hotspots set_iter
      (get_revision_frequency fnmatch output exclusions) locs churn authors
    = Ok hotspots.
Proof.
  intros Henum. apply calculate_hotspots_returns; [assumption|].
  apply revision_frequency_positive.
Qed.

(** C2.  Whenever the scorer returns, the files of its entries are, without
    repetition, exactly the paths present in both maps whose line count is
    at least 10: a file with fewer lines, or in one map only, has no entry.
    It does return when every revision count is positive, as the counts of
    the history extractor are. *)
Theorem hotspot_files_are_the_scored_files
    (set_iter : gset string -> list string) (revs locs : gmap string Z)
    (churn : option (gmap string (Z * Z))) (authors : option (gmap string Z)) :
  enumerates set_iter ->
  (forall hotspots,
     calculate_hotspots set_iter revs locs churn authors = Ok hotspots ->
     NoDup (file <$> hotspots) /\
     forall filepath, filepath ∈ file <$> hotspots <-> scored revs locs filepath) /\
  (map_Forall (fun _ n => 0 < n) revs ->
   exists hotspots,
     calculate_hotspots set_iter revs locs churn authors = Ok hotspots).
Proof.
  intros Henum. split.
  - intros hotspots Hcalc. pose proof Hcalc as Hcalc'.
    unfold calculate_hotspots in Hcalc.
    destruct (score_files _ _ _ _ _ _ _) as [hs|] eqn:Hfs; [|discriminate].
    simpl in Hcalc. injection Hcalc as <-.
    assert (Hnd : NoDup (set_iter (dom revs ∩ dom locs))).
    { rewrite (Henum _). apply NoDup_elements. }
    split.
    { rewrite sort_by_score_desc_perm. eapply score_files_NoDup; eassumption. }
    intros filepath. split.
    + intros Hin. apply list_elem_of_fmap in Hin as (e & -> & He).
      destruct (calculate_hotspots_elem _ _ _ _ _ _ _ Hcalc' He)
        as (f & _ & Hfile & Hr & Hl & Hten & _).
      rewrite Hfile. split; [eauto|]. exists (lines e). auto.
    + intros [Hr (n & Hn & Hten)].
      assert (Hin : filepath ∈ set_iter (dom revs ∩ dom locs)).
      { apply enumerates_elem; [assumption|]. split; [assumption|eauto]. }
      destruct (score_file revs locs churn authors (max_or_one revs)
                  (max_or_one locs) filepath) as [[e|]|exc] eqn:Hs.
      * apply list_elem_of_fmap. exists e. split.
        -- by destruct (score_file_some _ _ _ _ _ _ Hs) as [-> _].
        -- rewrite sort_by_score_desc_perm.
           eapply score_files_complete; eassumption.
      * apply score_file_none in Hs as (n' & Hn' & Hsmall).
        rewrite Hn in Hn'. injection Hn' as <-. lia.
      * exfalso. by eapply score_files_raise.
  - by apply calculate_hotspots_returns.
Qed.

Lemma hotspot_files_are_the_scored_files_witness :
  (forall hotspots,
     calculate_hotspots elements example_revisions example_loc None None
       = Ok hotspots ->
     NoDup (file <$> hotspots) /\
     forall filepath,
       filepath ∈ file <$> hotspots <->
       scored example_revisions example_loc filepath) /\
  (map_Forall (fun _ n => 0 < n) example_revisions ->
   exists hotspots,
     calculate_hotspots elements example_revisions example_loc None None
       = Ok hotspots).
Proof.
  apply (hotspot_files_are_the_scored_files elements example_revisions
           example_loc None None).
  intros s. reflexivity.
Defined.

(** C8.  When no revision count and no line count is negative, the
    [hotspot_score] of every entry the scorer produces lies between 0 and
    1. *)
Theorem hotspot_score_in_unit_interval
    (set_iter : gset string -> list string) (revs locs : gmap string Z)
    (churn : option (gmap string (Z * Z))) (authors : option (gmap string Z))
    (hotspots : list entry) (e : entry) :
  map_Forall (fun _ n => 0 <= n) revs ->
  map_Forall (fun _ n => 0 <= n) locs ->
  calculate_hotspots set_iter revs locs churn authors = Ok hotspots ->
  e ∈ hotspots ->
  (0 <= hotspot_score e <= 1)%Q.
Proof.
  intros Hrevs Hlocs Hcalc He.
  destruct (calculate_hotspots_elem _ _ _ _ _ _ _ Hcalc He)
    as (f & _ & _ & Hr & Hl & Hten & nr & nl & Hnr & Hnl & -> & _).
  pose proof (Hrevs _ _ Hr) as Hr0. simpl in Hr0.
  pose proof (max_or_one_ge _ _ _ Hr) as Hrmax.
  pose proof (max_or_one_ge _ _ _ Hl) as Hlmax.
  assert (Hmax : max_or_one revs <> 0).
  { intros H0. rewrite H0 in Hnr. discriminate Hnr. }
  destruct (PyFloatFacts.true_div_unit (revisions e) (max_or_one revs))
    as (nr' & Hnr' & Hnr_unit); [lia..|].
  destruct (PyFloatFacts.true_div_unit (lines e) (max_or_one locs))
    as (nl' & Hnl' & Hnl_unit); [lia..|].
  rewrite Hnr in Hnr'. injection Hnr' as <-.
  rewrite Hnl in Hnl'. injection Hnl' as <-.
  by apply PyFloatFacts.weighted_sum_unit.
Qed.

(** The floats of the scorer stay finite, whatever the counts are: the
    quotients by the overflow check of the division, the products, the sum
    and the rounded score by their size.  So no operation of the scorer
    yields an infinity or a NaN, which the model of the floats leaves out. *)
Lemma hotspot_floats_finite
    (set_iter : gset string -> list string) (revs locs : gmap string Z)
    (churn : option (gmap string (Z * Z))) (authors : option (gmap string Z))
    (hotspots : list entry) (e : entry) :
  calculate_hotspots set_iter revs locs churn authors = Ok hotspots ->
  e ∈ hotspots ->
  exists norm_r norm_l,
    PyFloat.true_div (revisions e) (max_or_one revs) = Ok norm_r /\
    PyFloat.true_div (lines e) (max_or_one locs) = Ok norm_l /\
    (Qabs norm_r < 2 ^ 1024)%Q /\ (Qabs norm_l < 2 ^ 1024)%Q /\
    (Qabs (PyFloat.fmul norm_r weight_revisions) < 2 ^ 1024)%Q /\
    (Qabs (PyFloat.fmul norm_l weight_loc) < 2 ^ 1024)%Q /\
    (Qabs (PyFloat.fadd (PyFloat.fmul norm_r weight_revisions)
                        (PyFloat.fmul norm_l weight_loc)) < 2 ^ 1024)%Q /\
    (Qabs (hotspot_score e) < 2 ^ 1024)%Q.
Proof.
  intros Hcalc He.
  destruct (calculate_hotspots_elem _ _ _ _ _ _ _ Hcalc He)
    as (f & _ & _ & Hr & Hl & Hten & nr & nl & Hnr & Hnl & -> & _).
  pose proof (max_or_one_ge _ _ _ Hl) as Hlmax.
  destruct (PyFloatFacts.true_div_unit (lines e) (max_or_one locs))
    as (nl' & Hnl' & Hnl_unit); [lia..|].
  rewrite Hnl in Hnl'. injection Hnl' as <-.
  pose proof (PyFloatFacts.true_div_finite _ _ _ Hnr) as Hnr_fin.
  pose proof (PyFloatFacts.true_div_finite _ _ _ Hnl) as Hnl_fin.
  destruct (PyFloatFacts.weighted_sum_finite nr nl) as (H7 & H3 & Hs & Hround).
  { apply Qabs_Qlt_condition in Hnr_fin. split; apply Qlt_le_weak, Hnr_fin. }
  { exact Hnl_unit. }
  exists nr, nl. auto 10.
Qed.

(** The ranked list of the scenario, whatever the order of the iteration. *)
Lemma example_hotspots (set_iter : gset string -> list string) :
  enumerates set_iter ->
  calculate_hotspots set_iter example_revisions example_loc None None
  = Ok [ mk_entry "a.py" 10 50 1 1 None None None;
         mk_entry "b.py" 2 20 (PyFloat.literal (26 # 100))
           (PyFloat.literal (2 # 10)) None None None ].
Proof.
  intros Henum. unfold calculate_hotspots.
  pose proof (Henum (dom example_revisions ∩ dom example_loc)) as Hperm.
  assert (Hel : elements (dom example_revisions ∩ dom example_loc)
                = ["a.py"; "b.py"]) by (vm_compute; reflexivity).
  rewrite Hel in Hperm. symmetry in Hperm.
  apply Permutation_length_2_inv in Hperm as [-> | ->];
    vm_compute; reflexivity.
Qed.

Lemma hotspot_score_in_unit_interval_witness :
  (0 <= PyFloat.literal (26 # 100) <= 1)%Q.
Proof.
  apply (hotspot_score_in_unit_interval elements example_revisions
           example_loc None None
           [ mk_entry "a.py" 10 50 1 1 None None None;
             mk_entry "b.py" 2 20 (PyFloat.literal (26 # 100))
               (PyFloat.literal (2 # 10)) None None None ]
           (mk_entry "b.py" 2 20 (PyFloat.literal (26 # 100))
               (PyFloat.literal (2 # 10)) None None None)).
  - apply (bool_decide_unpack _). vm_compute. exact I.
  - apply (bool_decide_unpack _). vm_compute. exact I.
  - vm_compute. reflexivity.
  - apply list_elem_of_further, list_elem_of_here.
Defined.

(** C3.  Every entry carries the sum of 0.7 times the normalized revision
    count and 0.3 times the normalized line count, rounded to 4 decimals,
    the two counts normalized by the maxima of their maps; the list is in
    descending order of score.  For revisions {a.py: 10, b.py: 2} and lines
    {a.py: 50, b.py: 20}: a.py is normalized to 1.0 and 1.0 and scores 1.0,
    b.py to 0.2 and 0.4 and scores 0.26, and a.py comes first. *)
Theorem hotspot_score_weighted_and_sorted :
  (forall (set_iter : gset string -> list string) (revs locs : gmap string Z)
          (churn : option (gmap string (Z * Z)))
          (authors : option (gmap string Z)) (hotspots : list entry),
     calculate_hotspots set_iter revs locs churn authors = Ok hotspots ->
     (forall e, e ∈ hotspots ->
        exists norm_r norm_l,
          PyFloat.true_div (revisions e) (max_or_one revs) = Ok norm_r /\
          PyFloat.true_div (lines e) (max_or_one locs) = Ok norm_l /\
          hotspot_score e =
            PyFloat.round
              (PyFloat.fadd
                 (PyFloat.fmul (PyFloat.literal (7 # 10)) norm_r)
                 (PyFloat.fmul (PyFloat.literal (3 # 10)) norm_l)) 4) /\
     StronglySorted score_ge hotspots) /\
  (forall set_iter : gset string -> list string,
     enumerates set_iter ->
     calculate_hotspots set_iter example_revisions example_loc None None
     = Ok [ mk_entry "a.py" 10 50 1 1 None None None;
            mk_entry "b.py" 2 20 (PyFloat.literal (26 # 100))
              (PyFloat.literal (2 # 10)) None None None ]) /\
  PyFloat.true_div 10 (max_or_one example_revisions) = Ok 1%Q /\
  PyFloat.true_div 50 (max_or_one example_loc) = Ok 1%Q /\
  PyFloat.true_div 2 (max_or_one example_revisions)
    = Ok (PyFloat.literal (2 # 10)) /\
  PyFloat.true_div 20 (max_or_one example_loc)
    = Ok (PyFloat.literal (4 # 10)).
Proof.
  split; [|split; [exact example_hotspots|repeat split; vm_compute; reflexivity]].
  intros set_iter revs locs churn authors hotspots Hcalc. split.
  - intros e He.
    destruct (calculate_hotspots_elem _ _ _ _ _ _ _ Hcalc He)
      as (f & _ & _ & _ & _ & _ & nr & nl & Hnr & Hnl & Hscore & _).
    exists nr, nl. split; [assumption|]. split; [assumption|].
    rewrite Hscore.
    rewrite (PyFloatFacts.fmul_comm (PyFloat.literal (7 # 10)) nr).
    rewrite (PyFloatFacts.fmul_comm (PyFloat.literal (3 # 10)) nl).
    reflexivity.
  - unfold calculate_hotspots in Hcalc.
    destruct (score_files _ _ _ _ _ _ _) as [hs|]; [|discriminate].
    simpl in Hcalc. injection Hcalc as <-. apply sort_by_score_desc_sorted.
Qed.

(** C1 (as amended).  The divisors of the normalization are the maximum of
    the whole revision map and the maximum of the whole line-count map (1
    for an empty map); so an entry whose revision count is the maximum of
    the revision map has [norm_revisions] equal to 1.0. *)
Theorem normalized_by_maxima_of_whole_maps
    (set_iter : gset string -> list string) (revs locs : gmap string Z)
    (churn : option (gmap string (Z * Z))) (authors : option (gmap string Z))
    (hotspots : list entry) (e : entry) :
  calculate_hotspots set_iter revs locs churn authors = Ok hotspots ->
  e ∈ hotspots ->
  (exists norm_r norm_l,
     PyFloat.true_div (revisions e) (max_or_one revs) = Ok norm_r /\
     PyFloat.true_div (lines e) (max_or_one locs) = Ok norm_l /\
     norm_revisions e = PyFloat.round norm_r 4 /\
     hotspot_score e =
       PyFloat.round
         (PyFloat.fadd (PyFloat.fmul norm_r weight_revisions)
                       (PyFloat.fmul norm_l weight_loc)) 4) /\
  (forall k v, revs !! k = Some v -> v <= max_or_one revs) /\
  (exists k, revs !! k = Some (max_or_one revs)) /\
  (forall k v, locs !! k = Some v -> v <= max_or_one locs) /\
  (exists k, locs !! k = Some (max_or_one locs)) /\
  max_or_one ∅ = 1 /\
  (revisions e = max_or_one revs -> norm_revisions e = 1%Q).
Proof.
  intros Hcalc He.
  destruct (calculate_hotspots_elem _ _ _ _ _ _ _ Hcalc He)
    as (f & _ & _ & Hr & Hl & _ & nr & nl & Hnr & Hnl & Hscore & Hnorm).
  split; [exists nr, nl; auto|].
  split; [apply max_or_one_ge|].
  split; [apply max_or_one_attained; intros ->; by rewrite lookup_empty in Hr|].
  split; [apply max_or_one_ge|].
  split; [apply max_or_one_attained; intros ->; by rewrite lookup_empty in Hl|].
  split; [reflexivity|].
  intros Hmax. rewrite Hmax in Hnr.
  assert (H0 : max_or_one revs <> 0).
  { intros H0. rewrite H0 in Hnr. discriminate Hnr. }
  rewrite (PyFloatFacts.true_div_same _ H0) in Hnr. injection Hnr as <-.
  rewrite Hnorm. vm_compute. reflexivity.
Qed.

Lemma normalized_by_maxima_of_whole_maps_witness :
  norm_revisions (mk_entry "a.py" 10 50 1 1 None None None) = 1%Q.
Proof.
  refine (proj2 (proj2 (proj2 (proj2 (proj2 (proj2
    (normalized_by_maxima_of_whole_maps elements example_revisions
       example_loc None None
       [ mk_entry "a.py" 10 50 1 1 None None None;
         mk_entry "b.py" 2 20 (PyFloat.literal (26 # 100))
           (PyFloat.literal (2 # 10)) None None None ]
       (mk_entry "a.py" 10 50 1 1 None None None) _ _)))))) _).
  - vm_compute. reflexivity.
  - apply list_elem_of_here.
  - vm_compute. reflexivity.
Defined.

(** C1 (as stated) fails: with revisions {a.py: 10, gone.py: 20} and lines
    {a.py: 50}, "a.py" is the only file in both maps, hence the scored file
    with the most revisions, and the maximum over the intersection is 10;
    the code divides by 20, the maximum of the whole revision map, and
    [norm_revisions] is 0.5. *)
Lemma max_revisions_not_over_intersection :
  calculate_hotspots elements stale_revisions stale_loc None None
    = Ok [ mk_entry "a.py" 10 50 (PyFloat.literal (65 # 100)) (1 # 2)
             None None None ] /\
  scored stale_revisions stale_loc "a.py" /\
  (forall filepath, scored stale_revisions stale_loc filepath ->
     filepath = "a.py") /\
  ~ (norm_revisions
       (mk_entry "a.py" 10 50 (PyFloat.literal (65 # 100)) (1 # 2)
          None None None) == 1)%Q.
Proof.
  split; [vm_compute; reflexivity|].
  split; [split; [by exists 10|exists 50; split; [reflexivity|lia]]|].
  split; [|discriminate].
  intros filepath [_ (n & Hn & _)]. unfold stale_loc in Hn.
  apply lookup_singleton_Some in Hn as [<- _]. reflexivity.
Qed.

Lemma hotspot_score_weighted_and_sorted_witness :
  calculate_hotspots elements example_revisions example_loc None None
  = Ok [ mk_entry "a.py" 10 50 1 1 None None None;
         mk_entry "b.py" 2 20 (PyFloat.literal (26 # 100))
           (PyFloat.literal (2 # 10)) None None None ] /\
  StronglySorted score_ge
    [ mk_entry "a.py" 10 50 1 1 None None None;
      mk_entry "b.py" 2 20 (PyFloat.literal (26 # 100))
        (PyFloat.literal (2 # 10)) None None None ].
Proof.
  destruct hotspot_score_weighted_and_sorted as [Hall [Hexample _]].
  assert (Hrun := Hexample elements (fun s => Permutation_refl (elements s))).
  split; [exact Hrun|]. exact (proj2 (Hall _ _ _ _ _ _ Hrun)).
Defined.

(* ===================================================================== *)
(** * Properties of the hierarchy builder *)
(* ===================================================================== *)

(** ** Splitting and joining *)

Lemma split_not_nil (sep : ascii) (s : string) : PyStr.split sep s <> [].
Proof.
  destruct s as [|c s]; simpl; [discriminate|].
  destruct (Ascii.eqb c sep); [discriminate|].
  destruct (PyStr.split sep s); discriminate.
Qed.

Lemma join_cons (sep x y : string) (ys : list string) :
  PyStr.join sep (x :: y :: ys) = x +:+ sep +:+ PyStr.join sep (y :: ys).
Proof. reflexivity. Qed.

Lemma join_split (sep : ascii) (s : string) :
  PyStr.join (String sep EmptyString) (PyStr.split sep s) = s.
Proof.
  induction s as [|c s IH]; [reflexivity|].
  cbn [PyStr.split].
  destruct (Ascii.eqb_spec c sep) as [->|Hne].
  - destruct (PyStr.split sep s) as [|w ws] eqn:Hs.
    + by apply split_not_nil in Hs.
    + rewrite join_cons, IH. reflexivity.
  - destruct (PyStr.split sep s) as [|w ws] eqn:Hs.
    + by apply split_not_nil in Hs.
    + destruct ws as [|w' ws].
      * simpl in IH |- *. by rewrite IH.
      * rewrite join_cons. rewrite join_cons in IH.
        transitivity (String c (w +:+ String sep "" +:+
                       PyStr.join (String sep "") (w' :: ws)));
          [reflexivity|by rewrite IH].
Qed.

Lemma split_init_last (s : string) :
  (removelast (PyStr.split "/" s) ++ [List.last (PyStr.split "/" s) ""])%list
  = PyStr.split "/" s.
Proof. symmetry. apply app_removelast_last, split_not_nil. Qed.

(** ** Induction on nodes *)

Lemma node_induction (Q : node -> Prop) :
  (forall l, Q (File l)) ->
  (forall name children,
     Forall (fun kc => Q (snd kc)) children -> Q (Dir name children)) ->
  forall n, Q n.
Proof.
  intros Hfile Hdir. fix IH 1. intros [name children|l].
  - apply Hdir. induction children as [|[k c] d IHd]; constructor.
    + apply IH.
    + exact IHd.
  - apply Hfile.
Qed.

(** ** The invariant *)

Definition child_placed (P : leaf -> Prop) (path : list string)
    (kc : string * node) : Prop :=
  node_name (snd kc) = fst kc /\ placed P (path ++ [fst kc])%list (snd kc).

Lemma placed_dir (P : leaf -> Prop) (path : list string) (name : string)
    (children : list (string * node)) :
  placed P path (Dir name children) <-> Forall (child_placed P path) children.
Proof.
  cbn [placed]. induction children as [|[k c] d IH].
  - split; [constructor|trivial].
  - rewrite Forall_cons, <- IH. reflexivity.
Qed.

Lemma placed_mono (P Q : leaf -> Prop) (n : node) :
  (forall l, P l -> Q l) ->
  forall path, placed P path n -> placed Q path n.
Proof.
  intros HPQ. induction n as [l|name children IH] using node_induction;
    intros path.
  - intros [Hl Hp]. split; auto.
  - rewrite !placed_dir. intros Hall.
    induction Hall as [|[k c] d [Hname Hc] _ IHd]; [constructor|].
    apply Forall_cons in IH as [IHc IHrest].
    constructor; [|by apply IHd].
    split; [assumption|]. by apply IHc.
Qed.

Lemma dict_get_Forall {V} (Q : string * V -> Prop) (k : string) (v : V)
    (d : list (string * V)) :
  Forall Q d -> dict_get k d = Some v -> Q (k, v).
Proof.
  induction 1 as [|[k' v'] d Hq _ IH]; simpl; [discriminate|].
  destruct (String.eqb_spec k k') as [->|_]; [|assumption].
  by intros [= <-].
Qed.

Lemma dict_set_Forall {V} (Q : string * V -> Prop) (k : string) (v : V)
    (d : list (string * V)) :
  Forall Q d -> Q (k, v) -> Forall Q (dict_set k v d).
Proof.
  intros Hall Hq. induction Hall as [|[k' v'] d Hq' Hall IH]; simpl.
  - by constructor.
  - destruct (String.eqb k k'); by constructor.
Qed.

(** ** One file more *)

Lemma add_file_placed (P : leaf -> Prop) (filename : string) (l : leaf)
    (dirs : list string) :
  P l -> leaf_name l = filename ->
  forall (current current' : node) (path : list string),
    PyStr.split "/" (fullPath l) = (path ++ dirs ++ [filename])%list ->
    placed P path current ->
    add_file dirs filename l current = Ok current' ->
    placed P path current' /\ node_name current' = node_name current.
Proof.
  intros Hl Hname. induction dirs as [|part dirs IH];
    intros current current' path Hsplit Hplaced;
    destruct current as [name children|l0]; cbn [add_file];
    try discriminate.
  - intros [= <-]. split; [|reflexivity].
    apply placed_dir. apply placed_dir in Hplaced.
    apply dict_set_Forall; [assumption|].
    split; [exact Hname|]. cbn [placed fst snd]. auto.
  - set (child := match dict_get part children with
                  | Some c => c
                  | None => Dir part []
                  end).
    destruct (add_file dirs filename l child) as [child'|] eqn:Hadd;
      [|discriminate].
    simpl. intros [= <-]. split; [|reflexivity].
    apply placed_dir in Hplaced.
    assert (Hchild : child_placed P path (part, child)).
    { unfold child. destruct (dict_get part children) as [c|] eqn:Hget.
      - by apply (dict_get_Forall _ _ _ _ Hplaced).
      - split; [reflexivity|]. by apply placed_dir. }
    destruct Hchild as [Hcname Hcplaced]. cbn [fst snd] in *.
    destruct (IH child child' (path ++ [part])%list) as [Hp' Hn'];
      [by rewrite <- app_assoc|assumption..|].
    apply placed_dir, dict_set_Forall; [assumption|].
    split; cbn [fst snd]; [congruence|assumption].
Qed.

Lemma add_file_ok (P : leaf -> Prop) (filename : string) (l : leaf)
    (dirs : list string) :
  forall (current : node) (path : list string),
    placed P path current ->
    (forall l', P l' -> forall rest,
       (PyStr.split "/" (fullPath l') ++ rest)%list <> (path ++ dirs)%list) ->
    exists current', add_file dirs filename l current = Ok current'.
Proof.
  induction dirs as [|part dirs IH]; intros current path Hplaced Hfree;
    destruct current as [name children|l0]; cbn [add_file].
  - eauto.
  - destruct Hplaced as [Hl0 Hp]. exfalso. apply (Hfree l0 Hl0 []).
    by rewrite Hp.
  - set (child := match dict_get part children with
                  | Some c => c
                  | None => Dir part []
                  end).
    apply placed_dir in Hplaced.
    assert (Hchild : child_placed P path (part, child)).
    { unfold child. destruct (dict_get part children) as [c|] eqn:Hget.
      - by apply (dict_get_Forall _ _ _ _ Hplaced).
      - split; [reflexivity|]. by apply placed_dir. }
    destruct (IH child (path ++ [part])%list) as [child' ->].
    + apply Hchild.
    + intros l' Hl' rest. rewrite <- app_assoc. by apply Hfree.
    + simpl. eauto.
  - destruct Hplaced as [Hl0 Hp]. exfalso.
    apply (Hfree l0 Hl0 (part :: dirs)). by rewrite Hp.
Qed.

(** ** All the files *)

Lemma built_from_leaf (e : entry) (hotspots : list entry) :
  e ∈ hotspots ->
  built_from hotspots
    (leaf_of_entry (List.last (PyStr.split "/" (file e)) "") e).
Proof. intros He. exists e. auto. Qed.

Lemma add_entries_placed (rest : list entry) :
  forall (seen : list entry) (root root' : node),
    placed (built_from seen) [] root ->
    add_entries root rest = Ok root' ->
    placed (built_from (seen ++ rest)%list) [] root'.
Proof.
  induction rest as [|e rest IH]; intros seen root root' Hplaced; simpl.
  - intros [= <-]. by rewrite app_nil_r.
  - destruct (add_entry root e) as [root1|] eqn:Hadd; [|discriminate].
    simpl. intros Hrest.
    replace (seen ++ e :: rest)%list with ((seen ++ [e]) ++ rest)%list
      by (by rewrite <- app_assoc).
    apply (IH _ root1); [|assumption].
    unfold add_entry in Hadd.
    eapply add_file_placed; [| |..|exact Hadd].
    + apply built_from_leaf. apply elem_of_app. right. apply list_elem_of_here.
    + reflexivity.
    + cbn [fullPath leaf_of_entry app]. symmetry. apply split_init_last.
    + eapply placed_mono; [|exact Hplaced].
      intros l (e' & He' & ->). exists e'. split; [|reflexivity].
      apply elem_of_app. by left.
Qed.

Lemma add_entries_ok (rest : list entry) :
  forall (seen : list entry) (root : node),
    no_file_is_directory (file <$> (seen ++ rest)%list) ->
    placed (built_from seen) [] root ->
    exists root', add_entries root rest = Ok root'.
Proof.
  induction rest as [|e rest IH]; intros seen root Hfree Hplaced; simpl.
  - eauto.
  - destruct (add_file_ok (built_from seen)
                (List.last (PyStr.split "/" (file e)) "")
                (leaf_of_entry (List.last (PyStr.split "/" (file e)) "") e)
                (removelast (PyStr.split "/" (file e))) root [] Hplaced)
      as [root1 Hadd].
    { intros l' (e' & He' & ->) dirs. cbn [fullPath leaf_of_entry app].
      apply Hfree; apply list_elem_of_fmap_2, elem_of_app.
      - by left.
      - right. apply list_elem_of_here. }
    unfold add_entry. rewrite Hadd. simpl.
    apply (IH (seen ++ [e])%list).
    + by rewrite <- app_assoc.
    + pose proof (add_entries_placed [e] seen root root1 Hplaced) as H.
      apply H. simpl. unfold add_entry. by rewrite Hadd.
Qed.

(** ** The converted tree *)

Lemma leaves_below_placed (P : leaf -> Prop) (n : node) :
  forall (above : list string),
    placed P (above ++ [node_name n])%list n ->
    forall p l, (p, l) ∈ leaves_below (convert_to_list n) ->
      P l /\ PyStr.split "/" (fullPath l) = (above ++ p)%list.
Proof.
  induction n as [l0|name children IH] using node_induction;
    intros above Hplaced p l Hin.
  - cbn in Hin. apply list_elem_of_singleton in Hin as [= -> ->].
    exact Hplaced.
  - apply placed_dir in Hplaced. cbn [convert_to_list] in Hin.
    cbn [node_name] in Hplaced.
    assert (Hin' : (p, l) ∈ List.flat_map
              (fun c => List.map (fun pl => (name :: fst pl, snd pl))
                          (leaves_below c))
              (List.map (fun kv => convert_to_list (snd kv)) children)).
    { destruct (List.map _ children); [|exact Hin].
      cbn in Hin. by apply elem_of_nil in Hin. }
    clear Hin. apply list_elem_of_In, in_flat_map in Hin' as (t & Ht & Hpl).
    apply in_map_iff in Ht as ([k c] & <- & Hkc).
    apply in_map_iff in Hpl as ([p' l'] & [= <- <-] & Hpl).
    cbn [fst snd] in *.
    rewrite Forall_forall in IH, Hplaced.
    apply list_elem_of_In in Hkc.
    destruct (Hplaced _ Hkc) as [Hname Hc]. cbn [fst snd] in *.
    pose proof (IH _ Hkc) as IHc. cbn [snd] in IHc.
    destruct (IHc (above ++ [name])%list) with (p := p') (l := l')
      as [HP Hsplit].
    + by rewrite Hname.
    + by apply list_elem_of_In.
    + split; [assumption|]. by rewrite Hsplit, <- app_assoc.
Qed.

(** C5.  In a tree the builder returns, the names of the ancestors of a
    leaf below the root and the name of the leaf, joined with "/", are the
    file path of the entry the leaf was built from. The builder returns a
    tree when no path of the list runs through a file of the list. *)
Theorem leaf_path_is_file_key (hotspots : list entry) :
  (forall (root : tree) (p : list string) (l : leaf),
     build_hierarchy hotspots = Ok root ->
     (p, l) ∈ leaves root ->
     exists e, e ∈ hotspots /\
       l = leaf_of_entry (leaf_name l) e /\
       PyStr.join "/" p = file e) /\
  (no_file_is_directory (file <$> hotspots) ->
   exists root, build_hierarchy hotspots = Ok root).
Proof.
  assert (Hstart : placed (built_from []) [] (Dir "root" [])) by exact I.
  split.
  - intros root p l Hbuild Hin. unfold build_hierarchy in Hbuild.
    destruct (add_entries (Dir "root" []) hotspots) as [n|] eqn:Hadd;
      [|discriminate].
    simpl in Hbuild. injection Hbuild as <-.
    pose proof (add_entries_placed hotspots [] _ _ Hstart Hadd) as Hplaced.
    cbn [app] in Hplaced.
    destruct n as [name children|l0].
    + unfold leaves in Hin.
      apply list_elem_of_fmap in Hin as ([p0 l0] & Heq & Hin).
      cbn [fst snd] in Heq. injection Heq as -> ->.
      cbn [convert_to_list] in Hin.
      assert (Hin' : (p0, l0) ∈ List.flat_map
                (fun c => List.map (fun pl => (name :: fst pl, snd pl))
                            (leaves_below c))
                (List.map (fun kv => convert_to_list (snd kv)) children)).
      { destruct (List.map _ children); [|exact Hin].
        cbn in Hin. by apply elem_of_nil in Hin. }
      clear Hin. apply list_elem_of_In, in_flat_map in Hin' as (t & Ht & Hpl).
      apply in_map_iff in Ht as ([k c] & <- & Hkc).
      apply in_map_iff in Hpl as ([p' l'] & Heq & Hpl).
      cbn [fst snd] in *. injection Heq as <- <-. cbn [List.tl].
      apply placed_dir in Hplaced. rewrite Forall_forall in Hplaced.
      apply list_elem_of_In in Hkc.
      destruct (Hplaced _ Hkc) as [Hname Hc]. cbn [fst snd] in *.
      destruct (leaves_below_placed (built_from hotspots) c [])
        with (p := p') (l := l') as [(e & He & Hl) Hsplit].
      * by rewrite Hname.
      * by apply list_elem_of_In.
      * exists e. split; [assumption|]. cbn [app] in Hsplit.
        rewrite <- Hsplit. split.
        -- rewrite Hl. reflexivity.
        -- rewrite Hl. cbn [fullPath leaf_of_entry]. apply (join_split "/").
    + (* the root is a directory *)
      exfalso. clear -Hadd.
      assert (Hdir : forall es n, add_entries n es = Ok (File l0) ->
                exists l1, n = File l1).
      { induction es as [|e es IH]; intros n; simpl.
        - intros [= ->]. eauto.
        - destruct (add_entry n e) as [n1|] eqn:H1; [|discriminate]. simpl.
          intros H. apply IH in H as [l1 ->].
          unfold add_entry in H1. destruct n as [nm ch|l2]; [|eauto].
          exfalso. revert H1.
          destruct (removelast (PyStr.split "/" (file e))) as [|part dirs];
            cbn [add_file]; [discriminate|].
          destruct (add_file dirs _ _ _); discriminate. }
      destruct (Hdir _ _ Hadd) as [l1 H]. discriminate H.
  - intros Hfree. unfold build_hierarchy.
    destruct (add_entries_ok hotspots [] (Dir "root" [])) as [root ->];
      [exact Hfree|exact Hstart|].
    simpl. eauto.
Qed.

Lemma leaf_path_is_file_key_witness :
  (exists e,
     e ∈ three_files /\
     leaf_of_entry "main.py" (mk_entry "src/app/main.py" 7 120 1 1 None None None)
       = leaf_of_entry
           (leaf_name
              (leaf_of_entry "main.py"
                 (mk_entry "src/app/main.py" 7 120 1 1 None None None))) e /\
     PyStr.join "/" ["src"; "app"; "main.py"] = file e) /\
  (exists root, build_hierarchy three_files = Ok root).
Proof.
  destruct (leaf_path_is_file_key three_files) as [Hleaf Hreturns]. split.
  - eapply Hleaf; [reflexivity|]. vm_compute. apply list_elem_of_here.
  - apply Hreturns. intros p q Hp Hq dirs.
    unfold three_files in Hp, Hq. cbn [fmap list_fmap file] in Hp, Hq.
    repeat (apply elem_of_cons in Hp as [->|Hp]);
      try (by apply elem_of_nil in Hp);
      repeat (apply elem_of_cons in Hq as [->|Hq]);
      try (by apply elem_of_nil in Hq);
      vm_compute; intros H; discriminate H.
Defined.

(** The leaves of that tree and the names that lead to them. *)
Example leaves_of_three_files :
  match build_hierarchy three_files with
  | Ok root => List.map fst (leaves root)
  | Raise _ => []
  end
  = [ ["src"; "app"; "main.py"]; ["src"; "util.py"]; ["setup.py"] ].
Proof. reflexivity. Qed.

(** A path that runs through a file of the list stops the builder. *)
Example file_used_as_directory :
  build_hierarchy
    [ mk_entry "a" 1 10 1 1 None None None;
      mk_entry "a/b" 1 10 1 1 None None None ]
  = Raise (KeyError "children").
Proof. reflexivity. Qed.

(* ===================================================================== *)
(** * Properties of the cache check *)
(* ===================================================================== *)

Lemma py_eq_true (current : option string) (stored : pyval) :
  py_eq current stored = true <-> stored = py_of_output current.
Proof.
  destruct current as [s|], stored; simpl;
    try (split; [discriminate|intros [=]]); try (split; reflexivity).
  rewrite String.eqb_eq. split; [intros ->; reflexivity|intros [= ->]; reflexivity].
Qed.

(** C9.  For a stored document the check answers valid exactly when the
    stored head commit equals the current one and the stored commit count
    equals the current one; a difference in either answers invalid.  Stored
    (X, 5) against current (X, 5) is valid, against current (Y, 5) it is
    not. *)
Theorem cache_valid_iff_head_and_count_agree :
  (forall (d : list (string * pyval)) (current_head current_count : option string),
     exists valid : bool,
       load_cache (Stored (PDict d)) current_head current_count
         = Ok (Some (PDict d), valid) /\
       (valid = true <->
        stored_value d "git_head" = py_of_output current_head /\
        stored_value d "commit_count" = py_of_output current_count)) /\
  (forall (at_cache_path : cache_file) (current_head current_count : option string)
          (cached : option pyval),
     load_cache at_cache_path current_head current_count = Ok (cached, true) ->
     exists d, at_cache_path = Stored (PDict d)) /\
  load_cache
    (Stored (PDict [("git_head", PStr "X"); ("commit_count", PStr "5")]))
    (Some "X") (Some "5")
  = Ok (Some (PDict [("git_head", PStr "X"); ("commit_count", PStr "5")]),
        true) /\
  load_cache
    (Stored (PDict [("git_head", PStr "X"); ("commit_count", PStr "5")]))
    (Some "Y") (Some "5")
  = Ok (Some (PDict [("git_head", PStr "X"); ("commit_count", PStr "5")]),
        false).
Proof.
  split; [|split; [|split; reflexivity]].
  - intros d h c. unfold load_cache, py_get, rbind. fold (stored_value d "git_head").
    fold (stored_value d "commit_count").
    destruct (py_eq h (stored_value d "git_head")
              && py_eq c (stored_value d "commit_count")) eqn:E.
    + exists true. split; [reflexivity|]. split; [|reflexivity]. intros _.
      apply andb_true_iff in E. rewrite !py_eq_true in E. exact E.
    + exists false. split; [reflexivity|]. split; [discriminate|].
      intros [H1 H2]. apply py_eq_true in H1, H2.
      rewrite H1, H2 in E. discriminate E.
  - intros f h c cached H. destruct f as [| |v]; try discriminate H.
    destruct v; try discriminate H. eauto.
Qed.

Lemma cache_valid_iff_head_and_count_agree_witness :
  exists d,
    Stored (PDict [("git_head", PStr "X"); ("commit_count", PStr "5")])
    = Stored (PDict d).
Proof.
  destruct cache_valid_iff_head_and_count_agree as [_ [Honly _]].
  apply (Honly _ (Some "X") (Some "5")
           (Some (PDict [("git_head", PStr "X"); ("commit_count", PStr "5")]))).
  reflexivity.
Defined.

(** A document that is no dictionary has no [get]; a missing file and an
    unreadable one are reported as no cache. *)
Example load_cache_other_files :
  load_cache (Stored (PList [])) (Some "X") (Some "5") = Raise AttributeError /\
  load_cache Absent (Some "X") (Some "5") = Ok (None, false) /\
  load_cache Unreadable (Some "X") (Some "5") = Ok (None, false).
Proof. repeat split; reflexivity. Qed.

(* ===================================================================== *)
(** * Further properties: exclusion patterns *)
(* ===================================================================== *)

Lemma lower_char_idem (c : ascii) :
  PyStr.lower_char (PyStr.lower_char c) = PyStr.lower_char c.
Proof. destruct c as [[] [] [] [] [] [] [] []]; reflexivity. Qed.

Lemma lower_idem (s : string) : PyStr.lower (PyStr.lower s) = PyStr.lower s.
Proof.
  induction s as [|c s IH]; [reflexivity|].
  cbn [PyStr.lower]. by rewrite lower_char_idem, IH.
Qed.

Lemma lower_char_slash (c : ascii) :
  Ascii.eqb "/" (PyStr.lower_char c) = Ascii.eqb "/" c.
Proof. destruct c as [[] [] [] [] [] [] [] []]; reflexivity. Qed.

Lemma contains_slash_lower (s : string) :
  PyStr.contains "/" (PyStr.lower s) = PyStr.contains "/" s.
Proof.
  induction s as [|c s IH]; [reflexivity|].
  cbn [PyStr.lower PyStr.contains]. by rewrite lower_char_slash, IH.
Qed.

Lemma pattern_excludes_lower (fnmatch : string -> string -> bool)
    (f1 f2 p1 p2 : string) :
  PyStr.lower f1 = PyStr.lower f2 -> PyStr.lower p1 = PyStr.lower p2 ->
  pattern_excludes fnmatch f1 p1 = pattern_excludes fnmatch f2 p2.
Proof.
  intros Hf Hp. unfold pattern_excludes. rewrite Hf, Hp.
  rewrite <- (contains_slash_lower f1), <- (contains_slash_lower f2), Hf.
  reflexivity.
Qed.

(** X1.  The matcher ignores case, in the path and in the patterns: two
    paths with the same lower-case form are excluded by the same pattern
    lists, and two pattern lists with the same lower-case forms exclude the
    same paths. *)
Theorem should_exclude_ignores_case (fnmatch : string -> string -> bool)
    (f1 f2 : string) (ps1 ps2 : list string) :
  PyStr.lower f1 = PyStr.lower f2 ->
  PyStr.lower <$> ps1 = PyStr.lower <$> ps2 ->
  should_exclude fnmatch f1 ps1 = should_exclude fnmatch f2 ps2.
Proof.
  intros Hf. revert ps2. induction ps1 as [|p1 ps1 IH]; intros [|p2 ps2] Hps;
    try discriminate Hps; [reflexivity|].
  injection Hps as Hp Hps. cbn [should_exclude].
  rewrite (pattern_excludes_lower fnmatch f1 f2 p1 p2 Hf Hp).
  by rewrite (IH ps2 Hps).
Qed.

Lemma should_exclude_ignores_case_witness :
  should_exclude fnmatch_simple "SRC/Node_Modules/Left-Pad.JS"
    ["NODE_MODULES/*"]
  = should_exclude fnmatch_simple "src/node_modules/left-pad.js"
      ["node_modules/*"].
Proof.
  apply should_exclude_ignores_case; reflexivity.
Defined.

(** X2.  The patterns are tried one by one: a list of patterns excludes a
    path exactly when one of its two parts does. So the list [main] builds,
    the default patterns followed by those of [--exclude], excludes whatever
    the default patterns exclude, and with [--no-default-excludes] only the
    patterns given count. *)
Theorem should_exclude_app :
  (forall (fnmatch : string -> string -> bool) (filepath : string)
          (ps qs : list string),
     should_exclude fnmatch filepath (ps ++ qs)
     = should_exclude fnmatch filepath ps
       || should_exclude fnmatch filepath qs) /\
  (forall (fnmatch : string -> string -> bool) (filepath : string)
          (exclude : list string),
     should_exclude fnmatch filepath (build_exclusions false exclude)
     = should_exclude fnmatch filepath DEFAULT_EXCLUSIONS
       || should_exclude fnmatch filepath exclude) /\
  (forall (fnmatch : string -> string -> bool) (filepath : string)
          (exclude : list string),
     should_exclude fnmatch filepath (build_exclusions true exclude)
     = should_exclude fnmatch filepath exclude).
Proof.
  assert (Happ : forall fnmatch filepath ps qs,
    should_exclude fnmatch filepath (ps ++ qs)
    = should_exclude fnmatch filepath ps
      || should_exclude fnmatch filepath qs).
  { intros fnmatch filepath ps qs. induction ps as [|p ps IH]; [reflexivity|].
    cbn [should_exclude app].
    destruct (pattern_excludes fnmatch filepath p); [reflexivity|exact IH]. }
  split; [exact Happ|]. split; [|reflexivity].
  intros fnmatch filepath exclude. apply Happ.
Qed.

(* ===================================================================== *)
(** * Further properties: history and size extractors *)
(* ===================================================================== *)

Section ExtractorFacts.

Variable fnmatch : string -> string -> bool.

(** ** Revision frequency *)

Lemma occurrences_nil (p : string) : occurrences p [] = 0.
Proof. reflexivity. Qed.

Lemma occurrences_cons (p raw : string) (raws : list string) :
  occurrences p (raw :: raws)
  = (if decide (PyStr.strip raw = p) then 1 else 0) + occurrences p raws.
Proof.
  unfold occurrences. rewrite filter_cons.
  destruct (decide (PyStr.strip raw = p)); cbn [length]; lia.
Qed.

Lemma occurrences_nonneg (p : string) (raws : list string) :
  0 <= occurrences p raws.
Proof. unfold occurrences. lia. Qed.

Lemma revision_step_lookup (exclusions : list string)
    (file_revisions : gmap string Z) (raw p : string) :
  revision_step fnmatch exclusions file_revisions raw !! p
  = if countable fnmatch exclusions p && bool_decide (PyStr.strip raw = p)
    then Some (default 0 (file_revisions !! p) + 1)
    else file_revisions !! p.
Proof.
  unfold revision_step, countable.
  destruct (decide (PyStr.strip raw = p)) as [->|Hne].
  - rewrite bool_decide_eq_true_2 by reflexivity. rewrite andb_true_r.
    destruct (negb (String.eqb p "") && negb (PyStr.startswith p "commit"));
      [|reflexivity].
    cbn [andb]. destruct (negb (should_exclude fnmatch p exclusions));
      [|reflexivity].
    apply lookup_insert_eq.
  - rewrite bool_decide_eq_false_2 by assumption. rewrite andb_false_r.
    destruct (negb (String.eqb (PyStr.strip raw) "")
              && negb (PyStr.startswith (PyStr.strip raw) "commit"));
      [|reflexivity].
    destruct (negb (should_exclude fnmatch (PyStr.strip raw) exclusions));
      [|reflexivity].
    by apply lookup_insert_ne.
Qed.

Lemma revision_loop_lookup (exclusions : list string) (raws : list string)
    (p : string) :
  forall file_revisions : gmap string Z,
    foldl (revision_step fnmatch exclusions) file_revisions raws !! p
    = if countable fnmatch exclusions p && (0 <? occurrences p raws)
      then Some (default 0 (file_revisions !! p) + occurrences p raws)
      else file_revisions !! p.
Proof.
  induction raws as [|raw raws IH]; intros m; cbn [foldl].
  - rewrite occurrences_nil. cbn. by rewrite andb_false_r.
  - rewrite IH, revision_step_lookup, occurrences_cons.
    pose proof (occurrences_nonneg p raws) as Hn.
    destruct (countable fnmatch exclusions p); cbn [andb]; [|reflexivity].
    destruct (decide (PyStr.strip raw = p)) as [Heq|Hne].
    + rewrite bool_decide_eq_true_2 by assumption.
      destruct (Z.ltb_spec 0 (1 + occurrences p raws)); [|lia].
      destruct (Z.ltb_spec 0 (occurrences p raws));
        destruct (m !! p); simpl; f_equal; lia.
    + rewrite bool_decide_eq_false_2 by assumption.
      replace (0 + occurrences p raws) with (occurrences p raws) by lia.
      reflexivity.
Qed.

End ExtractorFacts.

(** X3.  The revision map counts lines: the count of a path is the number of
    lines of the log whose stripped text is the path, for a path that is not
    empty, does not start with "commit" and is not excluded; no other path
    is in the map. *)
Theorem revision_frequency_counts_lines
    (fnmatch : string -> string -> bool) (out : string)
    (exclusions : option (list string)) (p : string) :
  get_revision_frequency fnmatch (Some out) exclusions !! p
  = if countable fnmatch (exclusions_or_default exclusions) p
       && (0 <? occurrences p (PyStr.split PyStr.LF out))
    then Some (occurrences p (PyStr.split PyStr.LF out))
    else None.
Proof.
  unfold get_revision_frequency. rewrite revision_loop_lookup.
  rewrite lookup_empty. simpl.
  destruct (_ && _); [f_equal; lia|reflexivity].
Qed.

(** A log with a path listed twice, once with blanks around it. *)
Example revision_frequency_counts_twice :
  get_revision_frequency fnmatch_simple
    (Some (PyStr.lines_text ["src/a.py"; ""; "  src/a.py "; "src/b.py"]))
    (Some [])
  = {[ "src/a.py" := 2; "src/b.py" := 1 ]}.
Proof. vm_compute. reflexivity. Qed.

(** ** Churn *)

Section ChurnFacts.

Variable fnmatch : string -> string -> bool.

Lemma churn_touch_lookup (filename : string) (m : gmap string (Z * Z)) :
  churn_touch filename m !! filename = Some (default (0, 0) (m !! filename)).
Proof.
  unfold churn_touch. destruct (m !! filename) as [x|] eqn:H; [by rewrite H|].
  by rewrite lookup_insert_eq.
Qed.

Lemma churn_touch_other (filename k : string) (m : gmap string (Z * Z)) :
  filename <> k -> churn_touch filename m !! k = m !! k.
Proof.
  intros Hne. unfold churn_touch. destruct (m !! filename); [reflexivity|].
  by rewrite lookup_insert_ne.
Qed.

Lemma churn_step_as_delta (exclusions : list string)
    (m : gmap string (Z * Z)) (line : string) :
  churn_step fnmatch exclusions m line
  = churn_apply (churn_delta fnmatch exclusions line) m.
Proof.
  unfold churn_step, churn_delta.
  destruct (PyStr.split PyStr.TAB line) as [|sa [|sd [|f [|? ?]]]];
    try reflexivity.
  destruct (should_exclude fnmatch f exclusions); [reflexivity|].
  destruct (churn_field sa) as [a|]; [destruct (churn_field sd) as [d|]|];
    cbn [churn_apply]; apply map_eq; intros k;
    destruct (decide (f = k)) as [<-|Hne];
    repeat (rewrite ?lookup_alter, ?lookup_insert_eq, ?churn_touch_lookup,
              ?decide_True by reflexivity);
    repeat (rewrite ?lookup_alter, ?lookup_insert_ne, ?churn_touch_other,
              ?decide_False by assumption);
    try reflexivity;
    destruct (m !! f) as [[x y]|]; unfold churn_add; simpl;
    apply (f_equal Some), injective_projections; simpl; lia.
Qed.

Lemma churn_merge_lookup (m1 m2 : gmap string (Z * Z)) (k : string) :
  churn_merge m1 m2 !! k
  = match m1 !! k, m2 !! k with
    | Some x, Some y => Some (churn_add x y)
    | Some x, None => Some x
    | None, Some y => Some y
    | None, None => None
    end.
Proof.
  unfold churn_merge. rewrite lookup_union_with.
  destruct (m1 !! k), (m2 !! k); reflexivity.
Qed.

Lemma churn_apply_merge (delta : option (string * (Z * Z)))
    (m1 m2 : gmap string (Z * Z)) :
  churn_apply delta (churn_merge m1 m2)
  = churn_merge m1 (churn_apply delta m2).
Proof.
  destruct delta as [[f [a d]]|]; [|reflexivity]. cbn [churn_apply].
  apply map_eq. intros k.
  destruct (decide (f = k)) as [<-|Hne].
  - rewrite lookup_insert_eq, !churn_merge_lookup, lookup_insert_eq.
    destruct (m1 !! f) as [[x1 y1]|], (m2 !! f) as [[x2 y2]|];
      unfold churn_add; simpl;
      apply (f_equal Some), injective_projections; simpl; lia.
  - rewrite lookup_insert_ne, !churn_merge_lookup, lookup_insert_ne
      by assumption.
    reflexivity.
Qed.

Lemma churn_loop_merge (exclusions : list string) (raws : list string) :
  forall m : gmap string (Z * Z),
    foldl (churn_step fnmatch exclusions) m raws
    = churn_merge m (foldl (churn_step fnmatch exclusions) ∅ raws).
Proof.
  induction raws as [|raw raws IH] using rev_ind; intros m.
  - cbn [foldl]. apply map_eq. intros k. rewrite churn_merge_lookup.
    rewrite lookup_empty. by destruct (m !! k).
  - rewrite !foldl_app. cbn [foldl]. rewrite (IH m).
    rewrite !churn_step_as_delta. apply churn_apply_merge.
Qed.

End ChurnFacts.

Lemma split_app (sep : ascii) (s1 s2 : string) :
  PyStr.split sep (s1 +:+ String sep s2)
  = (PyStr.split sep s1 ++ PyStr.split sep s2)%list.
Proof.
  induction s1 as [|c s1 IH].
  - change (PyStr.split sep (String sep s2)
            = (PyStr.split sep "" ++ PyStr.split sep s2)%list).
    cbn [PyStr.split]. by rewrite Ascii.eqb_refl.
  - change (PyStr.split sep (String c (s1 +:+ String sep s2))
            = (PyStr.split sep (String c s1) ++ PyStr.split sep s2)%list).
    cbn [PyStr.split]. rewrite IH. destruct (Ascii.eqb c sep); [reflexivity|].
    destruct (PyStr.split sep s1) as [|w ws] eqn:Hs; [|reflexivity].
    by apply split_not_nil in Hs.
Qed.

(** A record of three fields whose counts are read, for a file that is not
    excluded, adds the two counts to the record of the file, which starts
    at zero, and leaves every other file as it was. *)
Lemma churn_step_adds (fnmatch : string -> string -> bool)
    (exclusions : list string) (file_churn : gmap string (Z * Z))
    (line added deleted filename : string) (a d : Z) :
  PyStr.split PyStr.TAB line = [added; deleted; filename] ->
  should_exclude fnmatch filename exclusions = false ->
  churn_field added = Some a -> churn_field deleted = Some d ->
  churn_step fnmatch exclusions file_churn line
  = <[filename := churn_add (default (0, 0) (file_churn !! filename)) (a, d)]>
      file_churn.
Proof.
  intros Hsplit Hex Ha Hd. rewrite churn_step_as_delta.
  unfold churn_delta. by rewrite Hsplit, Hex, Ha, Hd.
Qed.

(** X4.  The churn of two logs put one after the other is the sum of their
    churns, file by file; this holds for every log, the lines that are
    passed over or cut short included. *)
Theorem churn_of_concatenation (fnmatch : string -> string -> bool)
    (out1 out2 : string) (exclusions : option (list string)) :
  get_churn_data fnmatch (Some (out1 +:+ String PyStr.LF out2)) exclusions
  = churn_merge (get_churn_data fnmatch (Some out1) exclusions)
                (get_churn_data fnmatch (Some out2) exclusions).
Proof.
  unfold get_churn_data. rewrite split_app, foldl_app.
  apply churn_loop_merge.
Qed.

(** ** Excluded paths *)

Section ExcludedFacts.

Variable fnmatch : string -> string -> bool.
Variable path_join : string -> string -> string.
Variable disk : string -> on_disk.

(** A loop whose steps keep a key out of the map keeps it out. *)
Lemma foldl_keeps_absent {S V} (map_of : S -> gmap string V)
    (step : S -> string -> S) (p : string) :
  (forall st raw, map_of st !! p = None -> map_of (step st raw) !! p = None) ->
  forall raws st,
    map_of st !! p = None -> map_of (foldl step st raws) !! p = None.
Proof.
  intros Hstep. induction raws as [|raw raws IH]; intros st Hst; cbn [foldl].
  - assumption.
  - apply IH. by apply Hstep.
Qed.

Lemma revision_step_excluded (exclusions : list string) (p : string)
    (m : gmap string Z) (raw : string) :
  should_exclude fnmatch p exclusions = true ->
  m !! p = None -> revision_step fnmatch exclusions m raw !! p = None.
Proof.
  intros Hex Hm. rewrite revision_step_lookup. unfold countable.
  rewrite Hex. cbn [negb]. by rewrite andb_false_r.
Qed.

Lemma churn_step_excluded (exclusions : list string) (p : string)
    (m : gmap string (Z * Z)) (raw : string) :
  should_exclude fnmatch p exclusions = true ->
  m !! p = None -> churn_step fnmatch exclusions m raw !! p = None.
Proof.
  intros Hex Hm. rewrite churn_step_as_delta. unfold churn_delta.
  destruct (PyStr.split PyStr.TAB raw) as [|sa [|sd [|f [|? ?]]]];
    try assumption.
  destruct (should_exclude fnmatch f exclusions) eqn:Hf; [assumption|].
  assert (Hne : f <> p) by (intros ->; congruence).
  destruct (churn_field sa); [destruct (churn_field sd)|];
    cbn [churn_apply]; by rewrite lookup_insert_ne.
Qed.

Lemma author_step_excluded (exclusions : list string) (p : string)
    (st : author_state) (raw : string) :
  should_exclude fnmatch p exclusions = true ->
  st.2 !! p = None -> (author_step fnmatch exclusions st raw).2 !! p = None.
Proof.
  intros Hex Hst. destruct st as [current m]. unfold author_step.
  destruct (String.eqb (PyStr.strip raw) ""); [assumption|].
  destruct (PyStr.contains "/" (PyStr.strip raw)
            || PyStr.contains "." (PyStr.strip raw)); [|assumption].
  destruct (truthy_author current); [|assumption].
  destruct (should_exclude fnmatch (PyStr.strip raw) exclusions) eqn:Hl;
    [assumption|].
  cbn [negb snd]. rewrite lookup_insert_ne; [assumption|].
  intros Heq. rewrite Heq in Hl. congruence.
Qed.

Lemma commit_step_excluded (exclusions : list string) (p : string)
    (st : commit_state) (raw : string) :
  should_exclude fnmatch p exclusions = true ->
  st.2 !! p = None -> (commit_step fnmatch exclusions st raw).2 !! p = None.
Proof.
  intros Hex Hst. destruct st as [current m]. unfold commit_step.
  destruct (String.eqb (PyStr.strip raw) ""); [assumption|].
  destruct (PyStr.startswith (PyStr.strip raw) "COMMIT:"); [assumption|].
  destruct current as [c|]; [|assumption].
  destruct (PyStr.contains "/" (PyStr.strip raw)
            || PyStr.contains "." (PyStr.strip raw)); [|assumption].
  destruct (should_exclude fnmatch (PyStr.strip raw) exclusions) eqn:Hl;
    [assumption|].
  cbn [negb snd]. rewrite lookup_insert_ne; [assumption|].
  intros Heq. rewrite Heq in Hl. congruence.
Qed.

Lemma loc_step_excluded (repo_path : string) (exclusions : list string)
    (p : string) (m : gmap string Z) (raw : string) :
  should_exclude fnmatch p exclusions = true ->
  m !! p = None ->
  loc_step fnmatch path_join disk repo_path exclusions m raw !! p = None.
Proof.
  intros Hex Hm. unfold loc_step.
  destruct (String.eqb (PyStr.strip raw) ""); [assumption|].
  destruct (should_exclude fnmatch (PyStr.strip raw) exclusions) eqn:Hl;
    [assumption|].
  destruct (disk _) as [| |[n|]]; try assumption.
  rewrite lookup_insert_ne; [assumption|].
  intros Heq. rewrite Heq in Hl. congruence.
Qed.

End ExcludedFacts.

(** X5.  A path the pattern matcher rejects is in none of the five data
    sets: not in the revision map, the churn map, the author counts, the
    commit lists or the line counts. *)
Theorem excluded_path_in_no_dataset
    (fnmatch : string -> string -> bool)
    (path_join : string -> string -> string) (disk : string -> on_disk)
    (repo_path : string) (git : git_outputs)
    (exclusions : option (list string)) (p : string) :
  should_exclude fnmatch p (exclusions_or_default exclusions) = true ->
  get_revision_frequency fnmatch (log_name_only git) exclusions !! p = None /\
  get_churn_data fnmatch (log_numstat git) exclusions !! p = None /\
  get_author_count fnmatch (log_authors git) exclusions !! p = None /\
  get_commit_messages fnmatch (log_commits git) exclusions !! p = None /\
  count_lines_of_code fnmatch path_join disk repo_path (ls_files git)
    exclusions !! p = None.
Proof.
  intros Hex. destruct git as [o1 o2 o3 o4 o5]. cbn.
  repeat split.
  - unfold get_revision_frequency. destruct o1; [|apply lookup_empty].
    apply (foldl_keeps_absent (fun m => m)); [|apply lookup_empty].
    intros st raw. by apply revision_step_excluded.
  - unfold get_churn_data. destruct o4; [|apply lookup_empty].
    apply (foldl_keeps_absent (fun m => m)); [|apply lookup_empty].
    intros st raw. by apply churn_step_excluded.
  - unfold get_author_count, file_authors_of.
    destruct o3; [|apply lookup_empty].
    rewrite lookup_fmap.
    rewrite (foldl_keeps_absent (fun st : author_state => st.2));
      [reflexivity| |apply lookup_empty].
    intros st raw. by apply author_step_excluded.
  - unfold get_commit_messages, commit_loop. destruct o5; [|apply lookup_empty].
    apply (foldl_keeps_absent (fun st : commit_state => st.2));
      [|apply lookup_empty].
    intros st raw. by apply commit_step_excluded.
  - unfold count_lines_of_code. destruct o2; [|apply lookup_empty].
    apply (foldl_keeps_absent (fun m => m)); [|apply lookup_empty].
    intros st raw. by apply loc_step_excluded.
Qed.

Lemma excluded_path_in_no_dataset_witness :
  get_revision_frequency fnmatch_simple
    (log_name_only
       (mk_git_outputs (Some "logo.png") (Some "logo.png") (Some "logo.png")
          (Some "logo.png") (Some "logo.png"))) None !! "logo.png" = None /\
  get_churn_data fnmatch_simple
    (log_numstat
       (mk_git_outputs (Some "logo.png") (Some "logo.png") (Some "logo.png")
          (Some "logo.png") (Some "logo.png"))) None !! "logo.png" = None /\
  get_author_count fnmatch_simple
    (log_authors
       (mk_git_outputs (Some "logo.png") (Some "logo.png") (Some "logo.png")
          (Some "logo.png") (Some "logo.png"))) None !! "logo.png" = None /\
  get_commit_messages fnmatch_simple
    (log_commits
       (mk_git_outputs (Some "logo.png") (Some "logo.png") (Some "logo.png")
          (Some "logo.png") (Some "logo.png"))) None !! "logo.png" = None /\
  count_lines_of_code fnmatch_simple (fun a b => a +:+ "/" +:+ b)
    (fun _ => Regular (Some 12)) "/repo"
    (ls_files
       (mk_git_outputs (Some "logo.png") (Some "logo.png") (Some "logo.png")
          (Some "logo.png") (Some "logo.png"))) None !! "logo.png" = None.
Proof.
  apply excluded_path_in_no_dataset. reflexivity.
Defined.

(** ** Author count *)

Section AuthorFacts.

Variable fnmatch : string -> string -> bool.

Lemma author_step_known (P : string -> Prop) (exclusions : list string)
    (st : author_state) (raw : string) :
  (PyStr.strip raw <> "" ->
   PyStr.contains "/" (PyStr.strip raw) = false ->
   PyStr.contains "." (PyStr.strip raw) = false -> P (PyStr.strip raw)) ->
  authors_known P st ->
  authors_known P (author_step fnmatch exclusions st raw).
Proof.
  intros Hraw [Hcur Hmap]. destruct st as [current m]. unfold author_step.
  cbn [fst snd] in *.
  destruct (String.eqb_spec (PyStr.strip raw) "") as [|Hne]; [by split|].
  destruct (PyStr.contains "/" (PyStr.strip raw)
            || PyStr.contains "." (PyStr.strip raw)) eqn:Hpath.
  - destruct (truthy_author current) as [a|] eqn:Ha; [|by split].
    destruct (negb (should_exclude fnmatch (PyStr.strip raw) exclusions));
      [|by split].
    assert (Hpa : P a).
    { apply Hcur. unfold truthy_author in Ha.
      destruct current as [a'|]; [|discriminate].
      destruct (String.eqb a' ""); [discriminate|]. by injection Ha as ->. }
    split; [exact Hcur|]. cbn [snd]. intros f s Hf.
    destruct (decide (PyStr.strip raw = f)) as [<-|Hother].
    + rewrite lookup_insert_eq in Hf. injection Hf as <-.
      split.
      { intros Hempty. apply (not_elem_of_empty (C := gset string) a).
        rewrite <- Hempty. apply elem_of_union_r, elem_of_singleton.
        reflexivity. }
      split; [|assumption].
      intros b Hb. apply elem_of_union in Hb as [Hb|Hb].
      * destruct (m !! PyStr.strip raw) as [s0|] eqn:Hs0; simpl in Hb;
          [|by apply elem_of_empty in Hb].
        by apply (Hmap _ _ Hs0).
      * apply elem_of_singleton in Hb as ->. assumption.
    + rewrite lookup_insert_ne in Hf by assumption. by apply Hmap.
  - apply orb_false_iff in Hpath as [Hslash Hdot].
    split; [|exact Hmap]. cbn [fst]. intros a [= <-]. by apply Hraw.
Qed.

Lemma author_loop_known (P : string -> Prop) (exclusions : list string)
    (raws : list string) :
  (forall raw, raw ∈ raws -> PyStr.strip raw <> "" ->
     PyStr.contains "/" (PyStr.strip raw) = false ->
     PyStr.contains "." (PyStr.strip raw) = false -> P (PyStr.strip raw)) ->
  forall st, authors_known P st ->
    authors_known P (foldl (author_step fnmatch exclusions) st raws).
Proof.
  induction raws as [|raw raws IH]; intros Hraws st Hst; cbn [foldl].
  - assumption.
  - apply IH.
    + intros r Hr. apply Hraws. by apply list_elem_of_further.
    + apply author_step_known; [|assumption].
      apply Hraws. apply list_elem_of_here.
Qed.

Lemma file_authors_known (out : string) (exclusions : list string) :
  authors_known (fun a => a ∈ author_lines out)
    (foldl (author_step fnmatch exclusions) (None, ∅)
       (PyStr.split PyStr.LF out)).
Proof.
  apply author_loop_known.
  - intros raw Hraw Hne Hslash Hdot. unfold author_lines.
    apply list_elem_of_filter. split; [auto|].
    apply list_elem_of_fmap. eauto.
  - split; [discriminate|]. intros f s Hf. cbn [snd] in Hf.
    by rewrite lookup_empty in Hf.
Qed.

End AuthorFacts.

Lemma size_list_to_set_le (l : list string) :
  (base.size (list_to_set l : gset string) <= length l)%nat.
Proof.
  induction l as [|x l IH]; cbn [list_to_set length].
  - rewrite size_empty. lia.
  - rewrite size_union_alt, size_singleton.
    assert (base.size (list_to_set l ∖ {[x]} : gset string)
            <= base.size (list_to_set l : gset string))%nat
      by (apply subseteq_size; intros y [Hy _]%elem_of_difference; exact Hy).
    lia.
Qed.

(** X6.  An author is a line without slash and without dot: whoever is
    counted for a file is such a line of the log, a name like "J. Doe" never
    is. So the count of a file is at least one and at most the number of
    such lines, and only paths with a slash or a dot have a count. *)
Theorem author_count_bounds (fnmatch : string -> string -> bool)
    (out : string) (exclusions : option (list string)) (f : string) (n : Z) :
  get_author_count fnmatch (Some out) exclusions !! f = Some n ->
  (exists authors : gset string,
     file_authors_of fnmatch out (exclusions_or_default exclusions) !! f
       = Some authors /\
     n = Z.of_nat (base.size authors) /\
     forall a, a ∈ authors ->
       a ∈ author_lines out /\
       PyStr.contains "/" a = false /\ PyStr.contains "." a = false) /\
  1 <= n <= Z.of_nat (length (author_lines out)) /\
  PyStr.contains "/" f || PyStr.contains "." f = true.
Proof.
  unfold get_author_count. rewrite lookup_fmap. intros Hn.
  destruct (file_authors_of fnmatch out (exclusions_or_default exclusions) !! f)
    as [s|] eqn:Hs; [|discriminate].
  injection Hn as <-.
  destruct (file_authors_known fnmatch out (exclusions_or_default exclusions))
    as [_ Hmap].
  destruct (Hmap f s Hs) as (Hne & Hin & Hpath).
  split; [|split; [|assumption]].
  - exists s. split; [reflexivity|]. split; [reflexivity|].
    intros a Ha. split; [by apply Hin|].
    specialize (Hin a Ha). unfold author_lines in Hin.
    apply list_elem_of_filter in Hin as [(_ & H1 & H2) _]. auto.
  - split.
    + assert (base.size s <> 0%nat)
        by (by intros ?%size_empty_inv%leibniz_equiv).
      lia.
    + assert (Hsub : s ⊆ list_to_set (author_lines out)).
      { intros a Ha. apply elem_of_list_to_set. by apply Hin. }
      apply subseteq_size in Hsub.
      pose proof (size_list_to_set_le (author_lines out)).
      lia.
Qed.

Lemma author_count_bounds_witness :
  (exists authors : gset string,
     file_authors_of fnmatch_simple
       (PyStr.lines_text ["Ann"; "src/a.py"; ""; "J. Doe"; "src/a.py"])
       (exclusions_or_default (Some [])) !! "src/a.py" = Some authors /\
     1 = Z.of_nat (base.size authors) /\
     forall a, a ∈ authors ->
       a ∈ author_lines
             (PyStr.lines_text ["Ann"; "src/a.py"; ""; "J. Doe"; "src/a.py"]) /\
       PyStr.contains "/" a = false /\ PyStr.contains "." a = false) /\
  1 <= 1 <= Z.of_nat
              (length
                 (author_lines
                    (PyStr.lines_text
                       ["Ann"; "src/a.py"; ""; "J. Doe"; "src/a.py"]))) /\
  PyStr.contains "/" "src/a.py" || PyStr.contains "." "src/a.py" = true.
Proof.
  apply (author_count_bounds fnmatch_simple
           (PyStr.lines_text ["Ann"; "src/a.py"; ""; "J. Doe"; "src/a.py"])
           (Some []) "src/a.py" 1).
  vm_compute. reflexivity.
Defined.

(** The log of the witness: the name with a dot is read as a path, so the
    second commit of "src/a.py" goes to the first author, and the name
    itself gets a count. *)
Example author_with_dot_is_a_file :
  get_author_count fnmatch_simple
    (Some (PyStr.lines_text ["Ann"; "src/a.py"; ""; "J. Doe"; "src/a.py"]))
    (Some [])
  = {[ "src/a.py" := 1; "J. Doe" := 1 ]}.
Proof. vm_compute. reflexivity. Qed.

(** ** Line counts *)

Section LocFacts.

Variable fnmatch : string -> string -> bool.
Variable path_join : string -> string -> string.
Variable disk : string -> on_disk.

Lemma loc_step_lookup (repo_path : string) (exclusions : list string)
    (m : gmap string Z) (raw p : string) :
  loc_step fnmatch path_join disk repo_path exclusions m raw !! p
  = if decide (PyStr.strip raw = p)
    then match readable_lines fnmatch path_join disk repo_path exclusions p
         with
         | Some n => Some n
         | None => m !! p
         end
    else m !! p.
Proof.
  unfold loc_step, readable_lines.
  destruct (decide (PyStr.strip raw = p)) as [->|Hne].
  - destruct (String.eqb p ""); [reflexivity|].
    destruct (should_exclude fnmatch p exclusions); [reflexivity|].
    destruct (disk _) as [| |[n|]]; try reflexivity.
    by rewrite lookup_insert_eq.
  - destruct (String.eqb _ ""); [reflexivity|].
    destruct (should_exclude fnmatch _ exclusions); [reflexivity|].
    destruct (disk _) as [| |[n|]]; try reflexivity.
    by rewrite lookup_insert_ne.
Qed.

Lemma loc_loop_lookup (repo_path : string) (exclusions : list string)
    (raws : list string) (p : string) :
  forall m,
    foldl (loc_step fnmatch path_join disk repo_path exclusions) m raws !! p
    = if decide (p ∈ PyStr.strip <$> raws)
      then match readable_lines fnmatch path_join disk repo_path exclusions p
           with
           | Some n => Some n
           | None => m !! p
           end
      else m !! p.
Proof.
  induction raws as [|raw raws IH]; intros m; cbn [foldl fmap list_fmap].
  - destruct (decide _) as [Hin|_]; [by apply elem_of_nil in Hin|reflexivity].
  - rewrite IH, loc_step_lookup.
    destruct (decide (p ∈ PyStr.strip <$> raws)) as [Hin|Hnin];
      destruct (decide (PyStr.strip raw = p)) as [Heq|Hne];
      destruct (decide (p ∈ PyStr.strip raw :: (PyStr.strip <$> raws)))
        as [Hin'|Hnin'];
      try reflexivity;
      try (by destruct (readable_lines _ _ _ _ _ _)).
    + exfalso. apply Hnin'. by apply list_elem_of_further.
    + exfalso. apply Hnin'. by apply list_elem_of_further.
    + exfalso. apply Hnin'. rewrite Heq. apply list_elem_of_here.
    + exfalso.
      apply elem_of_cons in Hin' as [->|?]; [by apply Hne|by apply Hnin].
Qed.

End LocFacts.

(** X7.  The line count of a path is what was read from the file at
    [repo_path/path], for a path that git lists, that is not excluded, and
    at which there is a regular file that could be read; a listed path that
    is missing, is no regular file or cannot be read has no count, and no
    path that git does not list has one. *)
Theorem line_count_is_read_from_disk
    (fnmatch : string -> string -> bool)
    (path_join : string -> string -> string) (disk : string -> on_disk)
    (repo_path out : string) (exclusions : option (list string))
    (p : string) :
  count_lines_of_code fnmatch path_join disk repo_path (Some out) exclusions
    !! p
  = if decide (p ∈ PyStr.strip <$> PyStr.split PyStr.LF out)
    then readable_lines fnmatch path_join disk repo_path
           (exclusions_or_default exclusions) p
    else None.
Proof.
  unfold count_lines_of_code. rewrite loc_loop_lookup, lookup_empty.
  by destruct (decide _); [destruct (readable_lines _ _ _ _ _ _)|].
Qed.

(** A work tree in which one listed file is gone and one cannot be read. *)
Example line_count_skips_what_cannot_be_read :
  count_lines_of_code fnmatch_simple (fun a b => a +:+ "/" +:+ b)
    (fun path =>
       if String.eqb path "/repo/src/a.py" then Regular (Some 120)
       else if String.eqb path "/repo/src/locked.py" then Regular None
       else if String.eqb path "/repo/docs" then NotRegular
       else Missing)
    "/repo"
    (Some (PyStr.lines_text ["src/a.py"; "src/locked.py"; "docs"; "gone.py"]))
    (Some [])
  = {[ "src/a.py" := 120 ]}.
Proof. vm_compute. reflexivity. Qed.

(** ** Commit metadata *)

Lemma splitn_not_nil (sep : ascii) (s : string) (n : nat) :
  PyStr.splitn sep s n <> [].
Proof.
  destruct n, s as [|c s]; cbn [PyStr.splitn]; try discriminate.
  destruct (Ascii.eqb c sep); [discriminate|].
  destruct (PyStr.splitn sep s (S n)); discriminate.
Qed.

(** [split] with a bound: the pieces joined give the string back, there
    are at most [n + 1] of them, and only the last can hold a separator. *)
Lemma splitn_spec (sep : ascii) (s : string) :
  forall n,
    PyStr.join (String sep EmptyString) (PyStr.splitn sep s n) = s /\
    (length (PyStr.splitn sep s n) <= S n)%nat /\
    Forall (fun w => PyStr.contains sep w = false)
      (removelast (PyStr.splitn sep s n)).
Proof.
  induction s as [|c s IH]; intros n.
  - destruct n; cbn [PyStr.splitn]; repeat split; simpl; auto; lia.
  - destruct n as [|k].
    { cbn [PyStr.splitn]. repeat split; simpl; auto. }
    cbn [PyStr.splitn].
    destruct (Ascii.eqb_spec c sep) as [->|Hne].
    + destruct (IH k) as (Hjoin & Hlen & Hfree).
      pose proof (splitn_not_nil sep s k) as Hnn.
      destruct (PyStr.splitn sep s k) as [|w ws] eqn:Hs; [done|].
      split; [|split].
      * rewrite join_cons, Hjoin. reflexivity.
      * cbn [length] in *. lia.
      * change (removelast ("" :: w :: ws))
          with ("" :: removelast (w :: ws)).
        constructor; [reflexivity|assumption].
    + destruct (IH (S k)) as (Hjoin & Hlen & Hfree).
      pose proof (splitn_not_nil sep s (S k)) as Hnn.
      destruct (PyStr.splitn sep s (S k)) as [|w ws] eqn:Hs; [done|].
      split; [|split].
      * destruct ws as [|w' ws].
        -- cbn in Hjoin |- *. by rewrite Hjoin.
        -- rewrite join_cons in Hjoin. rewrite join_cons, <- Hjoin.
           reflexivity.
      * exact Hlen.
      * destruct ws as [|w' ws]; [constructor|].
        change (removelast (String c w :: w' :: ws))
          with (String c w :: removelast (w' :: ws)).
        change (removelast (w :: w' :: ws))
          with (w :: removelast (w' :: ws)) in Hfree.
        inversion Hfree as [|? ? Hw Hrest]; subst.
        constructor; [|assumption].
        cbn [PyStr.contains]. rewrite Hw, orb_false_r.
        apply Ascii.eqb_neq. congruence.
Qed.

(** The record of a marker holds its payload: hash, author and date are
    the text before the first three bars, the message is all that
    follows. *)
Lemma parse_marker_payload (line : string) (c : commit) :
  parse_marker line = Some c ->
  PyStr.slice_from 7 line
  = PyStr.join "|"
      [commit_hash c; commit_author c; commit_date c; commit_message c] /\
  PyStr.contains "|" (commit_hash c) = false /\
  PyStr.contains "|" (commit_author c) = false /\
  PyStr.contains "|" (commit_date c) = false.
Proof.
  unfold parse_marker, marker_parts. intros Hc.
  destruct (splitn_spec "|" (PyStr.slice_from 7 line) 3)
    as (Hjoin & Hlen & Hfree).
  destruct (PyStr.splitn "|" (PyStr.slice_from 7 line) 3)
    as [|h [|a [|d [|m rest]]]]; try discriminate.
  injection Hc as <-. cbn [length] in Hlen.
  destruct rest; [|cbn [length] in Hlen; lia].
  cbn [commit_hash commit_author commit_date commit_message].
  split; [by rewrite Hjoin|].
  change (removelast [h; a; d; m]) with [h; a; d] in Hfree.
  inversion Hfree as [|? ? Hh Hf1]; subst.
  inversion Hf1 as [|? ? Ha Hf2]; subst.
  inversion Hf2 as [|? ? Hd _]; subst. auto.
Qed.

Section CommitFacts.

Variable fnmatch : string -> string -> bool.

Lemma commit_step_known (P : commit -> Prop) (exclusions : list string)
    (st : commit_state) (raw : string) :
  (forall c, PyStr.startswith (PyStr.strip raw) "COMMIT:" = true ->
     parse_marker (PyStr.strip raw) = Some c -> P c) ->
  commits_known P st ->
  commits_known P (commit_step fnmatch exclusions st raw).
Proof.
  intros Hraw [Hcur Hmap]. destruct st as [current m]. unfold commit_step.
  cbn [fst snd] in *.
  destruct (String.eqb (PyStr.strip raw) ""); [by split|].
  destruct (PyStr.startswith (PyStr.strip raw) "COMMIT:") eqn:Hmark.
  { split; [|exact Hmap]. cbn [fst]. intros c Hc. by apply Hraw. }
  destruct current as [c|]; [|by split].
  destruct (PyStr.contains "/" (PyStr.strip raw)
            || PyStr.contains "." (PyStr.strip raw)) eqn:Hpath; [|by split].
  destruct (negb (should_exclude fnmatch (PyStr.strip raw) exclusions));
    [|by split].
  split; [exact Hcur|]. cbn [snd]. intros f cs Hf.
  destruct (decide (PyStr.strip raw = f)) as [<-|Hother].
  - rewrite lookup_insert_eq in Hf. injection Hf as <-.
    split; [by destruct (default [] _)|]. split; [|assumption].
    apply Forall_app. split.
    + destruct (m !! PyStr.strip raw) as [cs0|] eqn:Hcs0; simpl;
        [|constructor].
      by apply (Hmap _ _ Hcs0).
    + constructor; [|constructor]. by apply Hcur.
  - rewrite lookup_insert_ne in Hf by assumption. by apply Hmap.
Qed.

Lemma commit_loop_known (P : commit -> Prop) (exclusions : list string)
    (raws : list string) :
  (forall raw c, raw ∈ raws ->
     PyStr.startswith (PyStr.strip raw) "COMMIT:" = true ->
     parse_marker (PyStr.strip raw) = Some c -> P c) ->
  forall st, commits_known P st ->
    commits_known P (commit_loop fnmatch exclusions st raws).
Proof.
  unfold commit_loop.
  induction raws as [|raw raws IH]; intros Hraws st Hst; cbn [foldl].
  - assumption.
  - apply IH.
    + intros r c Hr. apply Hraws. by apply list_elem_of_further.
    + apply commit_step_known; [|assumption].
      intros c. apply Hraws. apply list_elem_of_here.
Qed.

End CommitFacts.

(** X8.  Every commit in the list of a file was read from a marker line of
    the log: its hash, author and date are the text before the first three
    bars after "COMMIT:", none of them holds a bar, and its message is all
    the rest of the line, bars included. A file with a list has at least one
    commit, and its path holds a slash or a dot. *)
Theorem commits_come_from_markers (fnmatch : string -> string -> bool)
    (out : string) (exclusions : option (list string))
    (f : string) (cs : list commit) :
  get_commit_messages fnmatch (Some out) exclusions !! f = Some cs ->
  cs <> [] /\
  PyStr.contains "/" f || PyStr.contains "." f = true /\
  forall c, c ∈ cs ->
    exists raw,
      raw ∈ PyStr.split PyStr.LF out /\
      PyStr.startswith (PyStr.strip raw) "COMMIT:" = true /\
      PyStr.slice_from 7 (PyStr.strip raw)
      = PyStr.join "|"
          [commit_hash c; commit_author c; commit_date c; commit_message c] /\
      PyStr.contains "|" (commit_hash c) = false /\
      PyStr.contains "|" (commit_author c) = false /\
      PyStr.contains "|" (commit_date c) = false.
Proof.
  unfold get_commit_messages. intros Hf.
  set (P := fun c : commit =>
    exists raw,
      raw ∈ PyStr.split PyStr.LF out /\
      PyStr.startswith (PyStr.strip raw) "COMMIT:" = true /\
      parse_marker (PyStr.strip raw) = Some c).
  destruct (commit_loop_known fnmatch P (exclusions_or_default exclusions)
              (PyStr.split PyStr.LF out))
    with (st := (None, ∅) : commit_state)
    as [_ Hmap].
  - intros raw c Hraw Hmark Hparse. exists raw. auto.
  - split; [discriminate|]. intros f' cs' Hf'. cbn [snd] in Hf'.
    by rewrite lookup_empty in Hf'.
  - destruct (Hmap f cs Hf) as (Hne & Hall & Hpath).
    split; [assumption|]. split; [assumption|].
    intros c Hc. rewrite Forall_forall in Hall.
    destruct (Hall c Hc) as (raw & Hraw & Hmark & Hparse).
    exists raw. split; [assumption|]. split; [assumption|].
    by apply parse_marker_payload.
Qed.

Lemma commits_come_from_markers_witness :
  [mk_commit "ab12" "Ann" "2024-01-05" "fix a|b"] <> [] /\
  PyStr.contains "/" "src/a.py" || PyStr.contains "." "src/a.py" = true /\
  forall c, c ∈ [mk_commit "ab12" "Ann" "2024-01-05" "fix a|b"] ->
    exists raw,
      raw ∈ PyStr.split PyStr.LF
              (PyStr.lines_text
                 ["COMMIT:ab12|Ann|2024-01-05|fix a|b"; "src/a.py"]) /\
      PyStr.startswith (PyStr.strip raw) "COMMIT:" = true /\
      PyStr.slice_from 7 (PyStr.strip raw)
      = PyStr.join "|"
          [commit_hash c; commit_author c; commit_date c; commit_message c] /\
      PyStr.contains "|" (commit_hash c) = false /\
      PyStr.contains "|" (commit_author c) = false /\
      PyStr.contains "|" (commit_date c) = false.
Proof.
  apply (commits_come_from_markers fnmatch_simple
           (PyStr.lines_text ["COMMIT:ab12|Ann|2024-01-05|fix a|b"; "src/a.py"])
           (Some []) "src/a.py").
  vm_compute. reflexivity.
Defined.

(** ** The ranked list and the order of the iteration *)

Section RankingFacts.

Variables (revs locs : gmap string Z).
Variable churn : option (gmap string (Z * Z)).
Variable authors : option (gmap string Z).

(** The loop over the files in another order gives the same entries in
    another order, when it ends. *)
Lemma score_files_Permutation (files1 files2 : list string) :
  files1 ≡ₚ files2 ->
  forall hotspots1,
    score_files revs locs churn authors (max_or_one revs) (max_or_one locs)
      files1 = Ok hotspots1 ->
    exists hotspots2,
      score_files revs locs churn authors (max_or_one revs) (max_or_one locs)
        files2 = Ok hotspots2 /\
      hotspots1 ≡ₚ hotspots2.
Proof.
  induction 1 as [|f fs1 fs2 Hperm IH|f g fs|fs1 fs2 fs3 H12 IH12 H23 IH23];
    intros hs1.
  - intros [= <-]. by exists [].
  - cbn [score_files].
    destruct (score_file _ _ _ _ _ _ f) as [r|]; [|discriminate]. simpl.
    destruct (score_files _ _ _ _ _ _ fs1) as [hs|]; [|discriminate].
    simpl. intros [= <-]. destruct (IH hs eq_refl) as (hs2 & -> & Hp).
    simpl. eexists. split; [reflexivity|].
    destruct r; [by constructor|assumption].
  - cbn [score_files].
    destruct (score_file _ _ _ _ _ _ g) as [rg|]; [|discriminate]. simpl.
    destruct (score_file _ _ _ _ _ _ f) as [rf|]; [|discriminate]. simpl.
    destruct (score_files _ _ _ _ _ _ fs) as [hs|]; [|discriminate].
    simpl. intros [= <-]. eexists. split; [reflexivity|].
    destruct rg, rf; try reflexivity. apply perm_swap.
  - intros Hhs1. destruct (IH12 hs1 Hhs1) as (hs2 & Hhs2 & Hp12).
    destruct (IH23 hs2 Hhs2) as (hs3 & Hhs3 & Hp23).
    exists hs3. split; [assumption|]. by etrans.
Qed.

End RankingFacts.

(** A float of the model is a rational in lowest terms, so two floats
    that are equal as rationals are the same. *)
Lemma rnd_canonical (x y : Q) :
  (PyFloat.rnd x == PyFloat.rnd y)%Q -> PyFloat.rnd x = PyFloat.rnd y.
Proof.
  unfold PyFloat.rnd. intros Heq. apply Qred_complete.
  by apply Qeq_Qred_iff.
Qed.

Lemma NoDup_fmap_elem {A B} (f : A -> B) (l : list A) (x y : A) :
  NoDup (f <$> l) -> x ∈ l -> y ∈ l -> f x = f y -> x = y.
Proof.
  induction l as [|a l IH]; cbn [fmap list_fmap]; intros Hnd Hx Hy Hxy.
  - by apply elem_of_nil in Hx.
  - apply NoDup_cons in Hnd as [Hfresh Hnd].
    apply elem_of_cons in Hx as [->|Hx]; apply elem_of_cons in Hy as [->|Hy].
    + reflexivity.
    + exfalso. apply Hfresh. rewrite Hxy. apply list_elem_of_fmap. eauto.
    + exfalso. apply Hfresh. rewrite <- Hxy. apply list_elem_of_fmap. eauto.
    + by apply IH.
Qed.

(** X9.  The order in which Python walks the set of common files shows in
    the ranked list only among entries of equal score: two runs give the
    same entries and the same sequence of scores, and the same list when no
    two entries have the same score. *)
Theorem ranking_independent_of_set_order
    (set_iter1 set_iter2 : gset string -> list string)
    (revs locs : gmap string Z) (churn : option (gmap string (Z * Z)))
    (authors : option (gmap string Z)) (hotspots1 : list entry) :
  enumerates set_iter1 -> enumerates set_iter2 ->
  calculate_hotspots set_iter1 revs locs churn authors = Ok hotspots1 ->
  exists hotspots2,
    calculate_hotspots set_iter2 revs locs churn authors = Ok hotspots2 /\
    hotspots1 ≡ₚ hotspots2 /\
    hotspot_score <$> hotspots1 = hotspot_score <$> hotspots2 /\
    (NoDup (hotspot_score <$> hotspots1) -> hotspots1 = hotspots2).
Proof.
  intros Henum1 Henum2 Hcalc1.
  assert (Hscore : forall e, e ∈ hotspots1 ->
            exists x, hotspot_score e = PyFloat.rnd x).
  { intros e He.
    destruct (calculate_hotspots_elem _ _ _ _ _ _ _ Hcalc1 He)
      as (f & _ & _ & _ & _ & _ & nr & nl & _ & _ & -> & _).
    unfold PyFloat.round. eauto. }
  assert (Hanti : forall a b, a ∈ hotspots1 -> b ∈ hotspots1 ->
            score_ge a b -> score_ge b a ->
            hotspot_score a = hotspot_score b).
  { intros a b Ha Hb Hab Hba. unfold score_ge in *.
    destruct (Hscore a Ha) as [x Hx]. destruct (Hscore b Hb) as [y Hy].
    rewrite Hx, Hy in *. apply rnd_canonical. by apply Qle_antisym. }
  unfold calculate_hotspots in *.
  destruct (score_files _ _ _ _ _ _ (set_iter1 _)) as [hs1|] eqn:Hfs1;
    [|discriminate].
  simpl in Hcalc1. injection Hcalc1 as <-.
  destruct (score_files_Permutation revs locs churn authors
              (set_iter1 (dom revs ∩ dom locs))
              (set_iter2 (dom revs ∩ dom locs))) with (hotspots1 := hs1)
    as (hs2 & Hfs2 & Hperm); [by rewrite (Henum1 _), (Henum2 _)|assumption|].
  rewrite Hfs2. simpl. eexists. split; [reflexivity|].
  assert (Hp : sort_by_score_desc hs1 ≡ₚ sort_by_score_desc hs2)
    by (by rewrite !sort_by_score_desc_perm).
  split; [assumption|]. split.
  - apply (StronglySorted_unique_strong (fun x y => (y <= x)%Q)).
    + intros x1 x2 Hx1 Hx2 H12 H21.
      apply list_elem_of_fmap in Hx1 as (a & -> & Ha).
      apply list_elem_of_fmap in Hx2 as (b & -> & Hb).
      rewrite <- Hp in Hb. by apply Hanti.
    + apply StronglySorted_fmap with (R1 := score_ge); [by intros|].
      apply sort_by_score_desc_sorted.
    + apply StronglySorted_fmap with (R1 := score_ge); [by intros|].
      apply sort_by_score_desc_sorted.
    + by apply fmap_Permutation.
  - intros Hnd. apply (StronglySorted_unique_strong score_ge).
    + intros a b Ha Hb Hab Hba. rewrite <- Hp in Hb.
      eapply (NoDup_fmap_elem hotspot_score); eauto.
    + apply sort_by_score_desc_sorted.
    + apply sort_by_score_desc_sorted.
    + assumption.
Qed.

Lemma ranking_independent_of_set_order_witness :
  exists hotspots2,
    calculate_hotspots (fun s => reverse (elements s)) example_revisions
      example_loc None None = Ok hotspots2 /\
    [ mk_entry "a.py" 10 50 1 1 None None None;
      mk_entry "b.py" 2 20 (PyFloat.literal (26 # 100))
        (PyFloat.literal (2 # 10)) None None None ] ≡ₚ hotspots2 /\
    hotspot_score <$>
      [ mk_entry "a.py" 10 50 1 1 None None None;
        mk_entry "b.py" 2 20 (PyFloat.literal (26 # 100))
          (PyFloat.literal (2 # 10)) None None None ]
    = hotspot_score <$> hotspots2 /\
    (NoDup (hotspot_score <$>
              [ mk_entry "a.py" 10 50 1 1 None None None;
                mk_entry "b.py" 2 20 (PyFloat.literal (26 # 100))
                  (PyFloat.literal (2 # 10)) None None None ]) ->
     [ mk_entry "a.py" 10 50 1 1 None None None;
       mk_entry "b.py" 2 20 (PyFloat.literal (26 # 100))
         (PyFloat.literal (2 # 10)) None None None ] = hotspots2).
Proof.
  apply (ranking_independent_of_set_order elements
           (fun s => reverse (elements s)) example_revisions example_loc
           None None).
  - intros s. reflexivity.
  - intros s. apply reverse_Permutation.
  - vm_compute. reflexivity.
Defined.

(** ** Dominance *)

Lemma true_div_mono (a b m : Z) (qa qb : Q) :
  0 < m -> a <= b ->
  PyFloat.true_div a m = Ok qa -> PyFloat.true_div b m = Ok qb ->
  (qa <= qb)%Q.
Proof.
  intros Hm Hab. unfold PyFloat.true_div.
  destruct (Z.eqb_spec m 0) as [->|_]; [lia|].
  destruct (Qle_bool _ _); [discriminate|]. intros [= <-].
  destruct (Qle_bool _ _); [discriminate|]. intros [= <-].
  apply PyFloatFacts.rnd_mono.
  assert (Hm' : (0 < inject_Z m)%Q)
    by (change 0%Q with (inject_Z 0); rewrite <- Zlt_Qlt; lia).
  apply Qmult_le_compat_r.
  - rewrite <- Zle_Qle. lia.
  - apply Qlt_le_weak, Qinv_lt_0_compat. exact Hm'.
Qed.

Lemma weighted_sum_mono (nr1 nl1 nr2 nl2 : Q) :
  (nr1 <= nr2)%Q -> (nl1 <= nl2)%Q ->
  (PyFloat.round
     (PyFloat.fadd (PyFloat.fmul nr1 weight_revisions)
                   (PyFloat.fmul nl1 weight_loc)) 4
   <= PyFloat.round
        (PyFloat.fadd (PyFloat.fmul nr2 weight_revisions)
                      (PyFloat.fmul nl2 weight_loc)) 4)%Q.
Proof.
  intros Hr Hl.
  assert (Hw7 : (0 <= weight_revisions)%Q) by (vm_compute; discriminate).
  assert (Hw3 : (0 <= weight_loc)%Q) by (vm_compute; discriminate).
  apply PyFloatFacts.round_mono. unfold PyFloat.fadd.
  apply PyFloatFacts.rnd_mono. apply Qplus_le_compat; unfold PyFloat.fmul;
    apply PyFloatFacts.rnd_mono; by apply Qmult_le_compat_r.
Qed.

(** X10.  A file with no more revisions and no more lines than another has
    no higher score and no higher normalized revision count: the roundings
    of the division, the two products, the sum and [round] never turn the
    order round. Counts are taken non-negative. *)
Theorem hotspot_score_monotone
    (set_iter : gset string -> list string) (revs locs : gmap string Z)
    (churn : option (gmap string (Z * Z))) (authors : option (gmap string Z))
    (hotspots : list entry) (a b : entry) :
  calculate_hotspots set_iter revs locs churn authors = Ok hotspots ->
  a ∈ hotspots -> b ∈ hotspots ->
  0 <= revisions a ->
  revisions a <= revisions b -> lines a <= lines b ->
  (hotspot_score a <= hotspot_score b)%Q /\
  (norm_revisions a <= norm_revisions b)%Q.
Proof.
  intros Hcalc Ha Hb Hnonneg Hrev Hlines.
  destruct (calculate_hotspots_elem _ _ _ _ _ _ _ Hcalc Ha)
    as (fa & _ & _ & Hra & Hla & Hten & nra & nla & Hnra & Hnla & -> & ->).
  destruct (calculate_hotspots_elem _ _ _ _ _ _ _ Hcalc Hb)
    as (fb & _ & _ & Hrb & Hlb & _ & nrb & nlb & Hnrb & Hnlb & -> & ->).
  pose proof (max_or_one_ge _ _ _ Hra) as Hmr.
  pose proof (max_or_one_ge _ _ _ Hla) as Hml.
  assert (Hmr0 : max_or_one revs <> 0).
  { intros H0. rewrite H0 in Hnra. discriminate Hnra. }
  assert (Hr : (nra <= nrb)%Q)
    by (apply (true_div_mono (revisions a) (revisions b) (max_or_one revs));
        [lia|assumption..]).
  assert (Hl : (nla <= nlb)%Q)
    by (apply (true_div_mono (lines a) (lines b) (max_or_one locs));
        [lia|assumption..]).
  split; [by apply weighted_sum_mono|by apply PyFloatFacts.round_mono].
Qed.

Lemma hotspot_score_monotone_witness :
  (PyFloat.literal (26 # 100) <= 1)%Q /\ (PyFloat.literal (2 # 10) <= 1)%Q.
Proof.
  apply (hotspot_score_monotone elements example_revisions example_loc
           None None
           [ mk_entry "a.py" 10 50 1 1 None None None;
             mk_entry "b.py" 2 20 (PyFloat.literal (26 # 100))
               (PyFloat.literal (2 # 10)) None None None ]
           (mk_entry "b.py" 2 20 (PyFloat.literal (26 # 100))
              (PyFloat.literal (2 # 10)) None None None)
           (mk_entry "a.py" 10 50 1 1 None None None)).
  - vm_compute. reflexivity.
  - apply list_elem_of_further, list_elem_of_here.
  - apply list_elem_of_here.
  - simpl. lia.
  - simpl. lia.
  - simpl. lia.
Defined.

(** ** The shape of the hierarchy *)

Lemma dict_get_set {V} (k k' : string) (v : V) (d : list (string * V)) :
  dict_get k (dict_set k' v d)
  = if String.eqb k k' then Some v else dict_get k d.
Proof.
  induction d as [|[k0 v0] d IH]; cbn [dict_set dict_get].
  - destruct (String.eqb k k'); reflexivity.
  - destruct (String.eqb_spec k' k0) as [->|Hne]; cbn [dict_get].
    + destruct (String.eqb k k0); reflexivity.
    + rewrite IH. destruct (String.eqb_spec k k0) as [->|_]; [|reflexivity].
      destruct (String.eqb_spec k0 k') as [Heq|_]; [|reflexivity].
      by destruct Hne.
Qed.

Lemma dict_get_elem {V} (k : string) (v : V) (d : list (string * V)) :
  dict_get k d = Some v -> (k, v) ∈ d.
Proof.
  induction d as [|[k0 v0] d IH]; cbn [dict_get]; [discriminate|].
  destruct (String.eqb_spec k k0) as [->|_].
  - intros [= ->]. apply list_elem_of_here.
  - intros H. apply list_elem_of_further. by apply IH.
Qed.

Lemma dict_set_keys {V} (k : string) (v : V) (d : list (string * V)) :
  List.map fst (dict_set k v d)
  = if bool_decide (k ∈ List.map fst d) then List.map fst d
    else (List.map fst d ++ [k])%list.
Proof.
  induction d as [|[k0 v0] d IH]; cbn [dict_set List.map fst].
  - rewrite bool_decide_eq_false_2; [reflexivity|apply not_elem_of_nil].
  - destruct (String.eqb_spec k k0) as [->|Hne]; cbn [List.map fst].
    + rewrite bool_decide_eq_true_2; [reflexivity|apply list_elem_of_here].
    + rewrite IH.
      destruct (bool_decide_reflect (k ∈ List.map fst d)) as [Hin|Hnin].
      * rewrite bool_decide_eq_true_2; [reflexivity|].
        by apply list_elem_of_further.
      * rewrite bool_decide_eq_false_2; [reflexivity|].
        intros [?|?]%elem_of_cons; [by apply Hne|by apply Hnin].
Qed.

Lemma dict_set_NoDup {V} (k : string) (v : V) (d : list (string * V)) :
  NoDup (List.map fst d) -> NoDup (List.map fst (dict_set k v d)).
Proof.
  intros Hnd. rewrite dict_set_keys.
  destruct (bool_decide_reflect (k ∈ List.map fst d)) as [Hin|Hnin];
    [assumption|].
  apply NoDup_app. split; [assumption|]. split.
  - intros x Hx ->%list_elem_of_singleton. by apply Hnin.
  - apply NoDup_singleton.
Qed.

Lemma dict_set_not_nil {V} (k : string) (v : V) (d : list (string * V)) :
  dict_set k v d <> [].
Proof.
  destruct d as [|[k0 v0] d]; cbn [dict_set]; [discriminate|].
  destruct (String.eqb k k0); discriminate.
Qed.

Lemma keys_distinct_dir (name : string) (children : list (string * node)) :
  keys_distinct (Dir name children) <->
  NoDup (List.map fst children) /\
  Forall (fun kc => keys_distinct (snd kc)) children.
Proof.
  cbn [keys_distinct]. apply and_iff_compat_l.
  induction children as [|[k c] d IH].
  - split; [constructor|trivial].
  - rewrite Forall_cons, <- IH. reflexivity.
Qed.

Lemma populated_dir (name : string) (children : list (string * node)) :
  populated (Dir name children) <->
  children <> [] /\ Forall (fun kc => populated (snd kc)) children.
Proof.
  cbn [populated]. apply and_iff_compat_l.
  induction children as [|[k c] d IH].
  - split; [constructor|trivial].
  - rewrite Forall_cons, <- IH. reflexivity.
Qed.

Lemma siblings_distinct_dir (name : string) (children : list tree) :
  siblings_distinct (TDir name (Some children)) <->
  NoDup (List.map tree_name children) /\ Forall siblings_distinct children.
Proof.
  cbn [siblings_distinct]. apply and_iff_compat_l.
  induction children as [|c cs IH].
  - split; [constructor|trivial].
  - rewrite Forall_cons, <- IH. reflexivity.
Qed.

Lemma no_empty_directory_dir (name : string) (children : list tree) :
  no_empty_directory (TDir name (Some children)) <->
  Forall no_empty_directory children.
Proof.
  cbn [no_empty_directory].
  induction children as [|c cs IH].
  - split; [constructor|trivial].
  - rewrite Forall_cons, <- IH. reflexivity.
Qed.

Lemma populated_children (n : node) : populated n -> children_populated n.
Proof.
  destruct n as [name children|l]; [|trivial].
  intros H. by apply populated_dir in H as [_ H].
Qed.

Lemma add_file_keys_distinct (filename : string) (l : leaf)
    (dirs : list string) :
  forall current current',
    keys_distinct current ->
    add_file dirs filename l current = Ok current' ->
    keys_distinct current'.
Proof.
  induction dirs as [|part dirs IH]; intros current current' Hk;
    destruct current as [name children|l0]; cbn [add_file];
    try discriminate.
  - intros [= <-]. apply keys_distinct_dir in Hk as [Hnd Hall].
    apply keys_distinct_dir. split; [by apply dict_set_NoDup|].
    apply dict_set_Forall; [assumption|exact I].
  - set (child := match dict_get part children with
                  | Some c => c
                  | None => Dir part []
                  end).
    destruct (add_file dirs filename l child) as [child'|] eqn:Hadd;
      [|discriminate].
    simpl. intros [= <-]. apply keys_distinct_dir in Hk as [Hnd Hall].
    apply keys_distinct_dir. split; [by apply dict_set_NoDup|].
    apply dict_set_Forall; [assumption|]. cbn [snd].
    apply (IH child); [|assumption].
    unfold child. destruct (dict_get part children) as [c|] eqn:Hget.
    + apply (dict_get_Forall (fun kc => keys_distinct (snd kc)) _ _ _ Hall
               Hget).
    + apply keys_distinct_dir. split; constructor.
Qed.

Lemma add_file_populated (filename : string) (l : leaf)
    (dirs : list string) :
  forall current current',
    children_populated current ->
    add_file dirs filename l current = Ok current' ->
    populated current'.
Proof.
  induction dirs as [|part dirs IH]; intros current current' Hp;
    destruct current as [name children|l0]; cbn [add_file];
    try discriminate.
  - intros [= <-]. apply populated_dir. split; [apply dict_set_not_nil|].
    apply dict_set_Forall; [assumption|exact I].
  - set (child := match dict_get part children with
                  | Some c => c
                  | None => Dir part []
                  end).
    destruct (add_file dirs filename l child) as [child'|] eqn:Hadd;
      [|discriminate].
    simpl. intros [= <-].
    apply populated_dir. split; [apply dict_set_not_nil|].
    apply dict_set_Forall; [assumption|]. cbn [snd].
    apply (IH child); [|assumption].
    unfold child. destruct (dict_get part children) as [c|] eqn:Hget.
    + apply populated_children.
      apply (dict_get_Forall (fun kc => populated (snd kc)) _ _ _ Hp Hget).
    + constructor.
Qed.

Lemma add_entries_keys_distinct (hotspots : list entry) :
  forall root root',
    keys_distinct root -> add_entries root hotspots = Ok root' ->
    keys_distinct root'.
Proof.
  induction hotspots as [|e es IH]; intros root root' Hk; cbn [add_entries].
  - by intros [= <-].
  - destruct (add_entry root e) as [root1|] eqn:Hadd; [|discriminate].
    simpl. apply IH. by eapply add_file_keys_distinct.
Qed.

Lemma add_entries_populated (hotspots : list entry) :
  forall root root',
    children_populated root -> hotspots <> [] ->
    add_entries root hotspots = Ok root' ->
    populated root'.
Proof.
  induction hotspots as [|e es IH]; intros root root' Hp Hne;
    cbn [add_entries]; [done|].
  destruct (add_entry root e) as [root1|] eqn:Hadd; [|discriminate].
  simpl. pose proof (add_file_populated _ _ _ _ _ Hp Hadd) as Hp1.
  destruct es as [|e' es].
  - by intros [= <-].
  - apply IH; [by apply populated_children|discriminate].
Qed.

Lemma tree_name_convert (n : node) :
  tree_name (convert_to_list n) = node_name n.
Proof.
  destruct n as [name children|l]; cbn [convert_to_list]; [|reflexivity].
  by destruct (List.map _ children).
Qed.

(** The names of the children of a placed directory are its keys. *)
Lemma placed_names (P : leaf -> Prop) (path : list string) (name : string)
    (children : list (string * node)) :
  placed P path (Dir name children) ->
  List.map tree_name
    (List.map (fun kv => convert_to_list (snd kv)) children)
  = List.map fst children.
Proof.
  intros Hplaced. apply placed_dir in Hplaced.
  induction Hplaced as [|[k c] d [Hname _] _ IH]; [reflexivity|].
  cbn [List.map fst snd] in *. by rewrite tree_name_convert, Hname, IH.
Qed.

Lemma convert_siblings_distinct (P : leaf -> Prop) (n : node) :
  forall path,
    placed P path n -> keys_distinct n ->
    siblings_distinct (convert_to_list n).
Proof.
  induction n as [l|name children IH] using node_induction;
    intros path Hplaced Hk; [exact I|].
  cbn [convert_to_list].
  destruct (List.map (fun kv => convert_to_list (snd kv)) children)
    as [|t ts] eqn:Hmap; [exact I|].
  rewrite <- Hmap. apply siblings_distinct_dir. split.
  - rewrite (placed_names P path name children Hplaced).
    by apply keys_distinct_dir in Hk as [Hnd _].
  - apply keys_distinct_dir in Hk as [_ Hall].
    apply placed_dir in Hplaced. clear Hmap.
    induction children as [|[k c] d IHd]; [constructor|].
    apply Forall_cons in IH as [IHc IHrest].
    apply Forall_cons in Hall as [Hc Hrest].
    apply Forall_cons in Hplaced as [[_ Hpc] Hprest].
    cbn [List.map snd fst] in *. constructor; [|by apply IHd].
    by apply (IHc (path ++ [k])%list).
Qed.

Lemma convert_no_empty_directory (n : node) :
  populated n -> no_empty_directory (convert_to_list n).
Proof.
  induction n as [l|name children IH] using node_induction;
    intros Hp; [exact I|].
  apply populated_dir in Hp as [Hne Hall]. cbn [convert_to_list].
  destruct (List.map (fun kv => convert_to_list (snd kv)) children)
    as [|t ts] eqn:Hmap.
  { destruct children; [done|discriminate]. }
  rewrite <- Hmap. apply no_empty_directory_dir. clear Hmap Hne.
  induction children as [|[k c] d IHd]; [constructor|].
  apply Forall_cons in IH as [IHc IHrest].
  apply Forall_cons in Hall as [Hc Hrest].
  cbn [List.map snd] in *. constructor; [by apply IHc|by apply IHd].
Qed.

(** X11.  In a tree the builder returns no two children of a directory carry
    the same name, and, when the list of hotspots is not empty, every
    directory has a child: the key ['children'] is deleted from the bare
    root of the empty list only. *)
Theorem hierarchy_is_well_formed (hotspots : list entry) (root : tree) :
  build_hierarchy hotspots = Ok root ->
  siblings_distinct root /\
  (hotspots <> [] -> no_empty_directory root) /\
  (hotspots = [] -> root = TDir "root" None).
Proof.
  unfold build_hierarchy.
  destruct (add_entries (Dir "root" []) hotspots) as [n|] eqn:Hadd;
    [|discriminate].
  simpl. intros [= <-].
  assert (Hstart : placed (built_from []) [] (Dir "root" [])) by exact I.
  pose proof (add_entries_placed hotspots [] _ _ Hstart Hadd) as Hplaced.
  split; [|split].
  - apply (convert_siblings_distinct _ _ _ Hplaced).
    apply (add_entries_keys_distinct hotspots (Dir "root" [])); [|assumption].
    apply keys_distinct_dir. split; constructor.
  - intros Hne. apply convert_no_empty_directory.
    apply (add_entries_populated hotspots (Dir "root" [])); [|assumption..].
    constructor.
  - intros ->. cbn in Hadd. by injection Hadd as <-.
Qed.

Lemma hierarchy_is_well_formed_witness :
  siblings_distinct three_files_tree /\
  (three_files <> [] -> no_empty_directory three_files_tree) /\
  (three_files = [] -> three_files_tree = TDir "root" None).
Proof.
  apply (hierarchy_is_well_formed three_files). reflexivity.
Defined.

(** ** Every entry has its leaf *)

Lemma find_leaf_empty_dir (path : list string) (name : string) :
  find_leaf path (Dir name []) = None.
Proof. by destruct path. Qed.

(** The file that was added is found along its path. *)
Lemma add_file_find_new (filename : string) (l : leaf) (dirs : list string) :
  forall current current',
    add_file dirs filename l current = Ok current' ->
    find_leaf (dirs ++ [filename]) current' = Some l.
Proof.
  induction dirs as [|part dirs IH]; intros current current';
    destruct current as [name children|l0]; cbn [add_file];
    try discriminate.
  - intros [= <-]. cbn [app find_leaf].
    by rewrite dict_get_set, String.eqb_refl.
  - destruct (add_file dirs filename l _) as [child'|] eqn:Hadd;
      [|discriminate].
    simpl. intros [= <-]. cbn [find_leaf].
    rewrite dict_get_set, String.eqb_refl. by eapply IH.
Qed.

(** Every other path leads where it led, unless it runs through the new
    file. *)
Lemma add_file_find_other (filename : string) (l : leaf)
    (dirs : list string) :
  forall current current' path,
    add_file dirs filename l current = Ok current' ->
    (forall rest, path <> (dirs ++ filename :: rest)%list) ->
    find_leaf path current' = find_leaf path current.
Proof.
  induction dirs as [|part dirs IH]; intros current current' path;
    destruct current as [name children|l0]; cbn [add_file];
    try discriminate.
  - intros [= <-] Hother. destruct path as [|k path]; [reflexivity|].
    cbn [find_leaf]. rewrite dict_get_set.
    destruct (String.eqb_spec k filename) as [->|_]; [|reflexivity].
    by destruct (Hother path).
  - set (child := match dict_get part children with
                  | Some c => c
                  | None => Dir part []
                  end).
    destruct (add_file dirs filename l child) as [child'|] eqn:Hadd;
      [|discriminate].
    simpl. intros [= <-] Hother. destruct path as [|k path]; [reflexivity|].
    cbn [find_leaf]. rewrite dict_get_set.
    destruct (String.eqb_spec k part) as [->|_]; [|reflexivity].
    rewrite (IH child child' path Hadd).
    + unfold child. destruct (dict_get part children); [reflexivity|].
      apply find_leaf_empty_dir.
    + intros rest ->. by apply (Hother rest).
Qed.

Lemma split_inj (sep : ascii) (s1 s2 : string) :
  PyStr.split sep s1 = PyStr.split sep s2 -> s1 = s2.
Proof.
  intros H. by rewrite <- (join_split sep s1), <- (join_split sep s2), H.
Qed.

Lemma add_entries_find (rest : list entry) :
  forall (seen : list entry) (root root' : node),
    NoDup (file <$> (seen ++ rest)%list) ->
    no_file_is_directory (file <$> (seen ++ rest)%list) ->
    (forall e, e ∈ seen ->
       find_leaf (fst (entry_leaf e)) root = Some (snd (entry_leaf e))) ->
    add_entries root rest = Ok root' ->
    forall e, e ∈ (seen ++ rest)%list ->
      find_leaf (fst (entry_leaf e)) root' = Some (snd (entry_leaf e)).
Proof.
  induction rest as [|e rest IH]; intros seen root root' Hnd Hfree Hseen;
    cbn [add_entries].
  - intros [= <-]. by rewrite app_nil_r.
  - destruct (add_entry root e) as [root1|] eqn:Hadd; [|discriminate].
    simpl. intros Hrest.
    replace (seen ++ e :: rest)%list with ((seen ++ [e]) ++ rest)%list in *
      by (by rewrite <- app_assoc).
    apply (IH (seen ++ [e])%list root1); [assumption..| |assumption].
    intros e' He'. unfold add_entry in Hadd.
    apply elem_of_app in He' as [He' | ->%list_elem_of_singleton].
    + rewrite (add_file_find_other _ _ _ _ _ _ Hadd); [by apply Hseen|].
      intros tail Heq. cbn [entry_leaf fst] in Heq.
      assert (He'in : file e' ∈ file <$> ((seen ++ [e]) ++ rest)%list).
      { apply list_elem_of_fmap_2, elem_of_app. left.
        apply elem_of_app. by left. }
      assert (Hein : file e ∈ file <$> ((seen ++ [e]) ++ rest)%list).
      { apply list_elem_of_fmap_2, elem_of_app. left.
        apply elem_of_app. right. apply list_elem_of_here. }
      destruct tail as [|t tail].
      * (* the same path: the same file twice *)
        rewrite split_init_last in Heq. apply split_inj in Heq.
        rewrite <- app_assoc, !fmap_app in Hnd. cbn in Hnd.
        apply NoDup_app in Hnd as (_ & Hdisj & _).
        apply (Hdisj (file e')); [by apply list_elem_of_fmap_2|].
        rewrite Heq. apply list_elem_of_here.
      * (* the new file on the way to an older one *)
        apply (Hfree (file e) (file e') Hein He'in
                 (removelast (t :: tail))).
        rewrite Heq.
        change (removelast (PyStr.split "/" (file e)) ++
                List.last (PyStr.split "/" (file e)) "" :: t :: tail)%list
          with (removelast (PyStr.split "/" (file e)) ++
                [List.last (PyStr.split "/" (file e)) ""] ++ t :: tail)%list.
        rewrite app_assoc, split_init_last.
        by rewrite removelast_app.
    + cbn [entry_leaf fst snd]. rewrite <- (split_init_last (file e)) at 1.
      by eapply add_file_find_new.
Qed.

(** What is found from a node is a leaf of the converted tree. *)
Lemma find_leaf_leaves_below (P : leaf -> Prop) (n : node) :
  forall above path l,
    placed P above n ->
    find_leaf path n = Some l ->
    (node_name n :: path, l) ∈ leaves_below (convert_to_list n).
Proof.
  induction n as [l0|name children IH] using node_induction;
    intros above path l Hplaced Hfind.
  - destruct path; [|discriminate]. cbn in Hfind. injection Hfind as ->.
    cbn. apply list_elem_of_here.
  - destruct path as [|k path]; [discriminate|]. cbn [find_leaf] in Hfind.
    destruct (dict_get k children) as [c|] eqn:Hget; [|discriminate].
    apply dict_get_elem in Hget.
    apply placed_dir in Hplaced. rewrite Forall_forall in IH, Hplaced.
    destruct (Hplaced _ Hget) as [Hname Hc]. cbn [fst snd] in *.
    pose proof (IH _ Hget _ _ _ Hc Hfind) as Hin. cbn [snd] in Hin.
    rewrite Hname in Hin.
    cbn [convert_to_list node_name].
    destruct (List.map (fun kv => convert_to_list (snd kv)) children)
      as [|t ts] eqn:Hmap.
    { destruct children; [by apply elem_of_nil in Hget|discriminate]. }
    rewrite <- Hmap. cbn [leaves_below].
    apply list_elem_of_In, in_flat_map. exists (convert_to_list c). split.
    + apply in_map_iff. exists (k, c). split; [reflexivity|].
      by apply list_elem_of_In.
    + apply in_map_iff. exists (k :: path, l). split; [reflexivity|].
      by apply list_elem_of_In.
Qed.

(** Every path to a leaf starts with the name of the node. *)
Lemma leaves_below_head (t : tree) (p : list string) (l : leaf) :
  (p, l) ∈ leaves_below t -> exists p', p = tree_name t :: p'.
Proof.
  destruct t as [name [children|]|l0]; cbn [leaves_below tree_name].
  - intros Hin. apply list_elem_of_In, in_flat_map in Hin as (c & _ & Hin).
    apply in_map_iff in Hin as ([p' l'] & [= <- <-] & _). eauto.
  - intros Hin. by apply elem_of_nil in Hin.
  - intros Hin. apply list_elem_of_singleton in Hin as [= -> ->]. eauto.
Qed.

Lemma flat_map_paths_NoDup (name : string) (children : list tree) :
  NoDup (List.map tree_name children) ->
  Forall (fun c => NoDup (fst <$> leaves_below c)) children ->
  NoDup (fst <$>
           List.flat_map
             (fun c =>
                List.map (fun pl => (name :: fst pl, snd pl)) (leaves_below c))
             children).
Proof.
  induction children as [|c cs IH]; cbn [List.map List.flat_map];
    intros Hnames Hall; [constructor|].
  apply NoDup_cons in Hnames as [Hfresh Hnames].
  apply Forall_cons in Hall as [Hc Hcs].
  rewrite fmap_app. apply NoDup_app. split; [|split].
  - clear -Hc. induction (leaves_below c) as [|[p l] ls IHl];
      cbn in *; [constructor|].
    apply NoDup_cons in Hc as [Hp Hls]. apply NoDup_cons. split; [|auto].
    intros Hin. apply Hp. clear -Hin.
    induction ls as [|[p' l'] ls IHl]; cbn in *;
      [by apply elem_of_nil in Hin|].
    apply elem_of_cons in Hin as [[= ->]|Hin];
      [apply list_elem_of_here|apply list_elem_of_further; auto].
  - intros p Hp1 Hp2.
    apply list_elem_of_fmap in Hp1 as ([p1 l1] & -> & Hp1).
    apply list_elem_of_In, in_map_iff in Hp1 as ([p1' l1'] & [= <- <-] & Hp1).
    apply list_elem_of_fmap in Hp2 as ([p2 l2] & Heq & Hp2).
    apply list_elem_of_In, in_flat_map in Hp2 as (c' & Hc' & Hp2).
    apply in_map_iff in Hp2 as ([p2' l2'] & [= <- <-] & Hp2).
    cbn [fst] in Heq. injection Heq as Heq.
    apply list_elem_of_In, leaves_below_head in Hp1 as [q1 ->].
    apply list_elem_of_In, leaves_below_head in Hp2 as [q2 ->].
    injection Heq as Heq _. apply Hfresh. rewrite Heq.
    apply list_elem_of_In, in_map. exact Hc'.
  - by apply IH.
Qed.

Lemma leaves_below_NoDup (t : tree) :
  siblings_distinct t -> NoDup (fst <$> leaves_below t).
Proof.
  revert t. fix IH 1. intros [name [children|]|l]; cbn [leaves_below].
  - intros Hs. apply siblings_distinct_dir in Hs as [Hnames Hall].
    apply flat_map_paths_NoDup; [assumption|].
    induction children as [|c cs IHcs]; [constructor|].
    apply Forall_cons in Hall as [Hc Hcs].
    apply NoDup_cons in Hnames as [_ Hnames].
    constructor; [by apply IH|by apply IHcs].
  - intros _. constructor.
  - intros _. apply NoDup_singleton.
Qed.

Lemma leaves_placed (P : leaf -> Prop) (n : node) (p : list string)
    (l : leaf) :
  placed P [] n -> (p, l) ∈ leaves (convert_to_list n) ->
  P l /\ PyStr.split "/" (fullPath l) = p.
Proof.
  intros Hplaced Hin. destruct n as [name children|l0].
  - unfold leaves in Hin.
    apply list_elem_of_fmap in Hin as ([p0 l0] & [= -> ->] & Hin).
    cbn [fst snd]. cbn [convert_to_list] in Hin.
    assert (Hin' : (p0, l0) ∈ List.flat_map
              (fun c => List.map (fun pl => (name :: fst pl, snd pl))
                          (leaves_below c))
              (List.map (fun kv => convert_to_list (snd kv)) children)).
    { destruct (List.map _ children); [|exact Hin].
      cbn in Hin. by apply elem_of_nil in Hin. }
    clear Hin. apply list_elem_of_In, in_flat_map in Hin' as (t & Ht & Hpl).
    apply in_map_iff in Ht as ([k c] & <- & Hkc).
    apply in_map_iff in Hpl as ([p' l'] & [= <- <-] & Hpl).
    cbn [fst snd List.tl] in *.
    apply placed_dir in Hplaced. rewrite Forall_forall in Hplaced.
    apply list_elem_of_In in Hkc.
    destruct (Hplaced _ Hkc) as [Hname Hc]. cbn [fst snd] in *.
    apply (leaves_below_placed P c []); [by rewrite Hname|].
    by apply list_elem_of_In.
  - destruct Hplaced as [_ Hsplit]. by apply split_not_nil in Hsplit.
Qed.

(** X12.  When no file is listed twice and no path of the list runs through
    a file of the list, the leaves of the tree are the entries of the list,
    each once: every entry is found at the end of the segments of its path,
    with its counts and its score, and there is no other leaf. *)
Theorem leaves_are_the_entries (hotspots : list entry) (root : tree) :
  NoDup (file <$> hotspots) ->
  no_file_is_directory (file <$> hotspots) ->
  build_hierarchy hotspots = Ok root ->
  leaves root ≡ₚ entry_leaf <$> hotspots.
Proof.
  intros Hnd Hfree. unfold build_hierarchy.
  destruct (add_entries (Dir "root" []) hotspots) as [n|] eqn:Hadd;
    [|discriminate].
  simpl. intros [= <-].
  assert (Hstart : placed (built_from []) [] (Dir "root" [])) by exact I.
  pose proof (add_entries_placed hotspots [] _ _ Hstart Hadd) as Hplaced.
  cbn [app] in Hplaced.
  assert (Hkeys : keys_distinct n).
  { apply (add_entries_keys_distinct hotspots (Dir "root" []));
      [|assumption]. apply keys_distinct_dir. split; constructor. }
  apply NoDup_Permutation.
  - apply (NoDup_fmap_1 fst).
    pose proof (leaves_below_NoDup (convert_to_list n)
                  (convert_siblings_distinct _ _ _ Hplaced Hkeys)) as Hpaths.
    unfold leaves. rewrite <- list_fmap_compose.
    assert (Hhead : forall pl, pl ∈ leaves_below (convert_to_list n) ->
              exists p', fst pl = tree_name (convert_to_list n) :: p').
    { intros [p l] Hin. by apply leaves_below_head in Hin. }
    revert Hpaths Hhead.
    generalize (tree_name (convert_to_list n)).
    induction (leaves_below (convert_to_list n)) as [|[p l] ls IH];
      intros name Hpaths Hhead; cbn in *; [constructor|].
    apply NoDup_cons in Hpaths as [Hp Hls]. apply NoDup_cons. split.
    + intros Hin. apply Hp.
      apply list_elem_of_fmap in Hin as ([p' l'] & Heq & Hin').
      cbn in Heq.
      destruct (Hhead (p, l)) as [q Hq]; [apply list_elem_of_here|].
      destruct (Hhead (p', l')) as [q' Hq'];
        [by apply list_elem_of_further|].
      cbn in Hq, Hq'. subst p p'. cbn in Heq. subst q'.
      apply list_elem_of_fmap. by exists (name :: q, l').
    + apply (IH name); [assumption|].
      intros pl Hpl. apply Hhead. by apply list_elem_of_further.
  - apply (NoDup_fmap_1 (fun pl => PyStr.join "/" (fst pl))).
    rewrite <- list_fmap_compose.
    erewrite list_fmap_ext; [exact Hnd|].
    intros i e _. cbn. apply (join_split "/").
  - intros [p l]. split.
    + intros Hin.
      destruct (leaves_placed _ _ _ _ Hplaced Hin) as [(e & He & Hl) Hsplit].
      apply list_elem_of_fmap. exists e. split; [|assumption].
      unfold entry_leaf. rewrite <- Hsplit, Hl. reflexivity.
    + intros Hin. apply list_elem_of_fmap in Hin as (e & Heq & He).
      pose proof (add_entries_find hotspots [] (Dir "root" []) n) as Hfind.
      cbn [app] in Hfind.
      specialize (Hfind Hnd Hfree).
      assert (Hnone : forall e0 : entry, e0 ∈ [] ->
                find_leaf (fst (entry_leaf e0)) (Dir "root" [])
                = Some (snd (entry_leaf e0)))
        by (intros e0 H0; by apply elem_of_nil in H0).
      specialize (Hfind Hnone Hadd e He).
      pose proof (find_leaf_leaves_below _ n [] _ _ Hplaced Hfind) as Hbelow.
      unfold leaves. apply list_elem_of_fmap.
      exists (node_name n :: fst (entry_leaf e), snd (entry_leaf e)).
      split; [|assumption]. rewrite Heq. by destruct (entry_leaf e).
Qed.

Lemma leaves_are_the_entries_witness :
  match build_hierarchy three_files with
  | Ok root => leaves root ≡ₚ entry_leaf <$> three_files
  | Raise _ => False
  end.
Proof.
  cbn [build_hierarchy].
  apply (leaves_are_the_entries three_files).
  - apply (bool_decide_unpack _). vm_compute. exact I.
  - intros p q Hp Hq dirs.
    apply list_elem_of_In in Hp, Hq. cbn in Hp, Hq.
    destruct Hp as [<-|[<-|[<-|[]]]], Hq as [<-|[<-|[<-|[]]]];
      vm_compute; destruct dirs as [|? [|? ?]]; discriminate.
  - reflexivity.
Defined.

(** ** The order of strings *)

Lemma ascii_compare_refl (c : ascii) : Ascii.compare c c = Eq.
Proof. unfold Ascii.compare. apply N.compare_refl. Qed.

Lemma ascii_compare_lt_trans (a b c : ascii) :
  Ascii.compare a b = Lt -> Ascii.compare b c = Lt -> Ascii.compare a c = Lt.
Proof.
  unfold Ascii.compare. rewrite !N.compare_lt_iff. lia.
Qed.

Lemma string_compare_lt_trans (s1 : string) :
  forall s2 s3,
    String.compare s1 s2 = Lt -> String.compare s2 s3 = Lt ->
    String.compare s1 s3 = Lt.
Proof.
  induction s1 as [|c1 s1 IH]; intros [|c2 s2] [|c3 s3]; cbn [String.compare];
    try discriminate; try reflexivity.
  destruct (Ascii.compare c1 c2) eqn:H12; try discriminate;
    destruct (Ascii.compare c2 c3) eqn:H23; try discriminate.
  - apply Ascii.compare_eq_iff in H12, H23. subst.
    rewrite ascii_compare_refl. apply IH.
  - apply Ascii.compare_eq_iff in H12. subst. by rewrite H23.
  - apply Ascii.compare_eq_iff in H23. subst. by rewrite H12.
  - by rewrite (ascii_compare_lt_trans _ _ _ H12 H23).
Qed.

Lemma string_leb_trans (s1 s2 s3 : string) :
  String.leb s1 s2 = true -> String.leb s2 s3 = true ->
  String.leb s1 s3 = true.
Proof.
  unfold String.leb.
  destruct (String.compare s1 s2) eqn:H12; try discriminate;
    destruct (String.compare s2 s3) eqn:H23; try discriminate; intros _ _.
  - apply String.compare_eq_iff in H12. subst. by rewrite H23.
  - apply String.compare_eq_iff in H12. subst. by rewrite H23.
  - apply String.compare_eq_iff in H23. subst. by rewrite H12.
  - by rewrite (string_compare_lt_trans _ _ _ H12 H23).
Qed.

(** ** [sorted] *)

Lemma insert_sorted_perm (s : string) (l : list string) :
  insert_sorted s l ≡ₚ s :: l.
Proof.
  induction l as [|h t IH]; cbn [insert_sorted]; [reflexivity|].
  destruct (String.leb s h); [reflexivity|].
  rewrite IH. apply perm_swap.
Qed.

Lemma py_sorted_perm (l : list string) : py_sorted l ≡ₚ l.
Proof.
  induction l as [|s l IH]; cbn [py_sorted foldr]; [reflexivity|].
  fold (py_sorted l). by rewrite insert_sorted_perm, IH.
Qed.

Lemma insert_sorted_sorted (s : string) (l : list string) :
  StronglySorted (fun a b => String.leb a b = true) l ->
  StronglySorted (fun a b => String.leb a b = true) (insert_sorted s l).
Proof.
  induction 1 as [|h t Hsorted IH Hh]; cbn [insert_sorted].
  - repeat constructor.
  - destruct (String.leb s h) eqn:Hsh.
    + constructor; [by constructor|].
      constructor; [assumption|].
      eapply Forall_impl; [exact Hh|]. intros x Hx. cbn beta in *.
      by eapply string_leb_trans.
    + constructor; [assumption|].
      rewrite insert_sorted_perm. constructor; [|assumption].
      destruct (String.leb_total s h) as [H|H]; [congruence|assumption].
Qed.

Lemma py_sorted_sorted (l : list string) :
  StronglySorted (fun a b => String.leb a b = true) (py_sorted l).
Proof.
  induction l as [|s l IH]; cbn [py_sorted foldr]; [constructor|].
  by apply insert_sorted_sorted.
Qed.

(** Two lists with the same strings are sorted to the same list. *)
Lemma py_sorted_Permutation (l1 l2 : list string) :
  l1 ≡ₚ l2 -> py_sorted l1 = py_sorted l2.
Proof.
  intros Hperm.
  apply (StronglySorted_unique_strong (fun a b => String.leb a b = true)).
  - intros x1 x2 _ _. apply String.leb_antisym.
  - apply py_sorted_sorted.
  - apply py_sorted_sorted.
  - by rewrite !py_sorted_perm.
Qed.

Lemma sorted_or_nil_Permutation (l1 l2 : list string) :
  l1 ≡ₚ l2 -> sorted_or_nil (Some l1) = sorted_or_nil (Some l2).
Proof.
  intros Hperm. destruct l1 as [|a l1], l2 as [|b l2]; cbn [sorted_or_nil].
  - reflexivity.
  - by apply Permutation_nil_cons in Hperm.
  - symmetry in Hperm. by apply Permutation_nil_cons in Hperm.
  - by apply py_sorted_Permutation.
Qed.

(** ** The cache *)

Section CacheFacts.

Variable abspath : string -> string.
Variable digest : string * string * list string -> string.
Variable path_join : string -> string -> string.
Variable CACHE_DIR : string.


Lemma generate_cache_key_Permutation (repo_path : string)
    (since_date : option string) (exclusions1 exclusions2 : list string) :
  exclusions1 ≡ₚ exclusions2 ->
  generate_cache_key abspath digest repo_path since_date (Some exclusions1)
  = generate_cache_key abspath digest repo_path since_date (Some exclusions2).
Proof.
  intros Hperm. unfold generate_cache_key.
  by rewrite (sorted_or_nil_Permutation _ _ Hperm).
Qed.

Lemma with_metadata_head (data : list (string * pyval))
    (git_head commit_count : option string) (now cache_key : string) :
  stored_value (with_metadata data git_head commit_count now cache_key)
    "git_head" = py_of_output git_head /\
  stored_value (with_metadata data git_head commit_count now cache_key)
    "commit_count" = py_of_output commit_count.
Proof.
  unfold stored_value, with_metadata. rewrite !dict_get_set. by split.
Qed.

Lemma py_eq_decide (current stored : option string) :
  py_eq current (py_of_output stored) = bool_decide (current = stored).
Proof.
  destruct (bool_decide_reflect (current = stored)) as [->|Hne].
  - by apply py_eq_true.
  - destruct (py_eq current (py_of_output stored)) eqn:E; [|reflexivity].
    apply py_eq_true in E. destruct current, stored; simpl in E; congruence.
Qed.

Lemma load_after_save (files : cache_dir) (repo_path : string)
    (since_date : option string) (exclusions : option (list string))
    (data : list (string * pyval))
    (git_head commit_count current_head current_count : option string)
    (now : string) :
  load_cache_from abspath digest path_join CACHE_DIR
    (fst (save_cache abspath digest path_join CACHE_DIR files true repo_path
            since_date exclusions data git_head commit_count now))
    repo_path since_date exclusions current_head current_count
  = Ok (Some (PDict (with_metadata data git_head commit_count now
                       (generate_cache_key abspath digest repo_path
                          since_date exclusions))),
        bool_decide (current_head = git_head)
        && bool_decide (current_count = commit_count)).
Proof.
  unfold load_cache_from, save_cache, at_path. cbv zeta. cbn [fst].
  unfold cache_dir in *. rewrite lookup_insert_eq.
  unfold load_cache, py_get, rbind.
  destruct (with_metadata_head data git_head commit_count now
              (generate_cache_key abspath digest repo_path since_date
                 exclusions)) as [Hh Hc].
  unfold stored_value in Hh, Hc. rewrite Hh, Hc, !py_eq_decide.
  by destruct (_ && _).
Qed.

End CacheFacts.

(** X13.  The key of the cache does not depend on the order in which the
    exclusion patterns are given, no exclusions at all count as the empty
    list, and no date as the empty date: such runs share one cache file. *)
Theorem cache_key_ignores_order (abspath : string -> string)
    (digest : string * string * list string -> string)
    (repo_path : string) (since_date : option string)
    (exclusions1 exclusions2 : list string) :
  exclusions1 ≡ₚ exclusions2 ->
  generate_cache_key abspath digest repo_path since_date (Some exclusions1)
  = generate_cache_key abspath digest repo_path since_date (Some exclusions2)
  /\
  generate_cache_key abspath digest repo_path since_date None
  = generate_cache_key abspath digest repo_path since_date (Some []) /\
  generate_cache_key abspath digest repo_path None (Some exclusions1)
  = generate_cache_key abspath digest repo_path (Some "") (Some exclusions1).
Proof.
  intros Hperm. split; [by apply generate_cache_key_Permutation|].
  split; reflexivity.
Qed.

Lemma cache_key_ignores_order_witness :
  generate_cache_key (fun p => p) (fun params => PyStr.join "," params.2)
    "/repo" None (Some ["*.md"; "build/*"])
  = generate_cache_key (fun p => p) (fun params => PyStr.join "," params.2)
      "/repo" None (Some ["build/*"; "*.md"]) /\
  generate_cache_key (fun p => p) (fun params => PyStr.join "," params.2)
    "/repo" None None
  = generate_cache_key (fun p => p) (fun params => PyStr.join "," params.2)
      "/repo" None (Some []) /\
  generate_cache_key (fun p => p) (fun params => PyStr.join "," params.2)
    "/repo" None (Some ["*.md"; "build/*"])
  = generate_cache_key (fun p => p) (fun params => PyStr.join "," params.2)
      "/repo" (Some "") (Some ["*.md"; "build/*"]).
Proof.
  apply cache_key_ignores_order. apply perm_swap.
Defined.

(** The patterns of the witness are sorted by their characters, and a
    pattern given twice is kept twice. *)
Example sorted_exclusions :
  sorted_or_nil (Some ["build/*"; "*.md"; "Build/*"; "*.md"])
  = ["*.md"; "*.md"; "Build/*"; "build/*"].
Proof. reflexivity. Qed.

(** X14.  What [save_cache] wrote is what [load_cache] reads for the same
    parameters, the exclusions in any order: the data with the four keys of
    the metadata set and every other key as it was, and valid exactly when
    the head and the commit count are still those stored. When the file
    cannot be opened nothing is written. *)
Theorem save_cache_then_load_cache (abspath : string -> string)
    (digest : string * string * list string -> string)
    (path_join : string -> string -> string) (CACHE_DIR : string)
    (files : cache_dir) (repo_path : string) (since_date : option string)
    (exclusions1 exclusions2 : list string) (data : list (string * pyval))
    (git_head commit_count current_head current_count : option string)
    (now : string) :
  exclusions1 ≡ₚ exclusions2 ->
  (exists stored,
     load_cache_from abspath digest path_join CACHE_DIR
       (fst (save_cache abspath digest path_join CACHE_DIR files true
               repo_path since_date (Some exclusions1) data git_head
               commit_count now))
       repo_path since_date (Some exclusions2) current_head current_count
     = Ok (Some (PDict stored),
           bool_decide (current_head = git_head)
           && bool_decide (current_count = commit_count)) /\
     stored_value stored "git_head" = py_of_output git_head /\
     stored_value stored "commit_count" = py_of_output commit_count /\
     stored_value stored "cached_at" = PStr now /\
     stored_value stored "cache_key"
     = PStr (generate_cache_key abspath digest repo_path since_date
               (Some exclusions1)) /\
     forall k,
       k <> "git_head" -> k <> "commit_count" -> k <> "cached_at" ->
       k <> "cache_key" -> dict_get k stored = dict_get k data) /\
  save_cache abspath digest path_join CACHE_DIR files false repo_path
    since_date (Some exclusions1) data git_head commit_count now
  = (files, None).
Proof.
  intros Hperm. split; [|reflexivity].
  exists (with_metadata data git_head commit_count now
            (generate_cache_key abspath digest repo_path since_date
               (Some exclusions1))).
  split; [|split; [|split; [|split; [|split]]]].
  - rewrite <- (load_after_save abspath digest path_join CACHE_DIR files
                  repo_path since_date (Some exclusions1) data git_head
                  commit_count current_head current_count now).
    unfold load_cache_from.
    by rewrite (generate_cache_key_Permutation abspath digest repo_path
                  since_date _ _ Hperm).
  - apply with_metadata_head.
  - apply with_metadata_head.
  - unfold stored_value, with_metadata. by rewrite !dict_get_set.
  - unfold stored_value, with_metadata. by rewrite !dict_get_set.
  - intros k H1 H2 H3 H4. unfold with_metadata. rewrite !dict_get_set.
    apply String.eqb_neq in H1, H2, H3, H4. by rewrite H1, H2, H3, H4.
Qed.

Lemma save_cache_then_load_cache_witness :
  (exists stored,
     load_cache_from example_abspath example_digest example_path_join
       ".cache"
       (fst (save_cache example_abspath example_digest example_path_join
               ".cache" ∅ true "/repo" None (Some ["*.md"; "build/*"])
               [("hotspots", PList [])] (Some "ab12") (Some "2") "t1"))
       "/repo" None (Some ["build/*"; "*.md"]) (Some "ab12") (Some "3")
     = Ok (Some (PDict stored),
           bool_decide (Some "ab12" = Some "ab12")
           && bool_decide (Some "3" = Some "2")) /\
     stored_value stored "git_head" = py_of_output (Some "ab12") /\
     stored_value stored "commit_count" = py_of_output (Some "2") /\
     stored_value stored "cached_at" = PStr "t1" /\
     stored_value stored "cache_key"
     = PStr (generate_cache_key example_abspath example_digest "/repo" None
               (Some ["*.md"; "build/*"])) /\
     forall k,
       k <> "git_head" -> k <> "commit_count" -> k <> "cached_at" ->
       k <> "cache_key" ->
       dict_get k stored = dict_get k [("hotspots", PList [])]) /\
  save_cache example_abspath example_digest example_path_join ".cache" ∅
    false "/repo" None (Some ["*.md"; "build/*"]) [("hotspots", PList [])]
    (Some "ab12") (Some "2") "t1"
  = (∅, None).
Proof.
  apply save_cache_then_load_cache. apply perm_swap.
Defined.

(** X15.  After [clear_cache] for given parameters [load_cache] finds
    nothing for them, the exclusions in any order; the answer of
    [clear_cache] tells whether there was a file, and every other file of
    the cache directory is left as it was. Without a repository path nothing
    is cleared, and with [clear_all] the directory is emptied. *)
Theorem clear_cache_then_load_cache (abspath : string -> string)
    (digest : string * string * list string -> string)
    (path_join : string -> string -> string) (CACHE_DIR : string)
    (files : cache_dir) (repo_path : string) (since_date : option string)
    (exclusions1 exclusions2 : list string)
    (current_head current_count : option string) :
  repo_path <> "" ->
  exclusions1 ≡ₚ exclusions2 ->
  load_cache_from abspath digest path_join CACHE_DIR
    (fst (clear_cache abspath digest path_join CACHE_DIR files
            (Some repo_path) since_date (Some exclusions1) false))
    repo_path since_date (Some exclusions2) current_head current_count
  = Ok (None, false) /\
  snd (clear_cache abspath digest path_join CACHE_DIR files (Some repo_path)
         since_date (Some exclusions1) false)
  = bool_decide
      (is_Some
         (files !! get_cache_path path_join CACHE_DIR
                     (generate_cache_key abspath digest repo_path since_date
                        (Some exclusions1)))) /\
  (forall path,
     path <> get_cache_path path_join CACHE_DIR
               (generate_cache_key abspath digest repo_path since_date
                  (Some exclusions1)) ->
     fst (clear_cache abspath digest path_join CACHE_DIR files
            (Some repo_path) since_date (Some exclusions1) false) !! path
     = files !! path) /\
  clear_cache abspath digest path_join CACHE_DIR files (Some "") since_date
    (Some exclusions1) false = (files, false) /\
  clear_cache abspath digest path_join CACHE_DIR files None since_date
    (Some exclusions1) false = (files, false) /\
  clear_cache abspath digest path_join CACHE_DIR files (Some repo_path)
    since_date (Some exclusions1) true = (∅, true).
Proof.
  intros Hrepo Hperm. apply String.eqb_neq in Hrepo.
  unfold load_cache_from, at_path.
  rewrite <- (generate_cache_key_Permutation abspath digest repo_path
                since_date _ _ Hperm).
  unfold clear_cache. cbn [String.eqb]. rewrite Hrepo. cbv zeta.
  unfold cache_dir in *.
  set (path := get_cache_path path_join CACHE_DIR
                 (generate_cache_key abspath digest repo_path since_date
                    (Some exclusions1))).
  destruct (files !! path) as [v|] eqn:Hfile; cbn [fst snd].
  - rewrite lookup_delete_eq. split; [reflexivity|].
    split; [by rewrite bool_decide_eq_true_2|].
    split; [|auto]. intros p Hp. by rewrite lookup_delete_ne.
  - rewrite Hfile. split; [reflexivity|].
    split; [rewrite bool_decide_eq_false_2; [reflexivity|by intros [? ?]]|].
    auto.
Qed.

Lemma clear_cache_then_load_cache_witness :
  load_cache_from example_abspath example_digest example_path_join ".cache"
    (fst (clear_cache example_abspath example_digest example_path_join
            ".cache" ∅ (Some "/repo") None (Some ["*.md"; "build/*"]) false))
    "/repo" None (Some ["build/*"; "*.md"]) (Some "ab12") (Some "2")
  = Ok (None, false) /\
  snd (clear_cache example_abspath example_digest example_path_join ".cache"
         ∅ (Some "/repo") None (Some ["*.md"; "build/*"]) false)
  = bool_decide
      (is_Some
         ((∅ : cache_dir)
            !! get_cache_path example_path_join ".cache"
                 (generate_cache_key example_abspath example_digest "/repo"
                    None (Some ["*.md"; "build/*"])))) /\
  (forall path,
     path <> get_cache_path example_path_join ".cache"
               (generate_cache_key example_abspath example_digest "/repo"
                  None (Some ["*.md"; "build/*"])) ->
     fst (clear_cache example_abspath example_digest example_path_join
            ".cache" ∅ (Some "/repo") None (Some ["*.md"; "build/*"]) false)
       !! path
     = (∅ : cache_dir) !! path) /\
  clear_cache example_abspath example_digest example_path_join ".cache" ∅
    (Some "") None (Some ["*.md"; "build/*"]) false = (∅, false) /\
  clear_cache example_abspath example_digest example_path_join ".cache" ∅
    None None (Some ["*.md"; "build/*"]) false = (∅, false) /\
  clear_cache example_abspath example_digest example_path_join ".cache" ∅
    (Some "/repo") None (Some ["*.md"; "build/*"]) true = (∅, true).
Proof.
  apply clear_cache_then_load_cache; [discriminate|apply perm_swap].
Defined.

(** ** The analysis of [main] *)

Lemma attach_commits_file (commit_messages : gmap string (list commit))
    (hotspots : list entry) :
  file <$> attach_commits commit_messages hotspots = file <$> hotspots.
Proof.
  unfold attach_commits.
  induction hotspots as [|h hs IH]; [reflexivity|].
  cbn in *. by rewrite IH.
Qed.

Lemma attach_commits_elem (commit_messages : gmap string (list commit))
    (hotspots : list entry) (e : entry) :
  e ∈ attach_commits commit_messages hotspots ->
  exists h, h ∈ hotspots /\
    file e = file h /\ revisions e = revisions h /\ lines e = lines h /\
    hotspot_score e = hotspot_score h /\
    norm_revisions e = norm_revisions h /\ churn e = churn h /\
    authors e = authors h /\
    commits e = Some (default [] (commit_messages !! file h)).
Proof.
  unfold attach_commits. intros Hin.
  apply list_elem_of_In, in_map_iff in Hin as (h & <- & Hh).
  exists h. split; [by apply list_elem_of_In|]. cbn. auto 10.
Qed.

Lemma attach_commits_sorted (commit_messages : gmap string (list commit))
    (hotspots : list entry) :
  StronglySorted score_ge hotspots ->
  StronglySorted score_ge (attach_commits commit_messages hotspots).
Proof.
  induction 1 as [|h hs Hsorted IH Hh]; cbn [attach_commits List.map];
    [constructor|].
  constructor; [exact IH|].
  apply Forall_forall. intros e He.
  apply attach_commits_elem in He as (h' & Hh' & _ & _ & _ & Hscore & _).
  rewrite Forall_forall in Hh. specialize (Hh h' Hh').
  unfold score_ge in *. cbn [hotspot_score]. by rewrite Hscore.
Qed.



Section ScoredFacts.

Variable set_iter : gset string -> list string.
Variables (revs locs : gmap string Z).
Variable churn_data : option (gmap string (Z * Z)).
Variable author_count : option (gmap string Z).

Lemma score_file_fields (max_revisions max_loc : Z) (filepath : string)
    (e : entry) :
  score_file revs locs churn_data author_count max_revisions max_loc
    filepath = Ok (Some e) ->
  file e = filepath /\
  churn e
  = option_map (fun ad => (fst ad, snd ad, fst ad + snd ad))
      (optional_lookup churn_data filepath) /\
  authors e = optional_lookup author_count filepath /\
  commits e = None.
Proof.
  unfold score_file.
  destruct (revs !! filepath) as [rev_count|]; [|discriminate].
  destruct (locs !! filepath) as [n|]; [|discriminate].
  destruct (n <? 10); [discriminate|].
  destruct (PyFloat.true_div rev_count max_revisions); [|discriminate].
  destruct (PyFloat.true_div n max_loc); [|discriminate].
  simpl. intros [= <-]. auto.
Qed.

Lemma calculate_hotspots_fields (hotspots : list entry) (e : entry) :
  calculate_hotspots set_iter revs locs churn_data author_count
  = Ok hotspots ->
  e ∈ hotspots ->
  churn e
  = option_map (fun ad => (fst ad, snd ad, fst ad + snd ad))
      (optional_lookup churn_data (file e)) /\
  authors e = optional_lookup author_count (file e) /\
  commits e = None.
Proof.
  unfold calculate_hotspots.
  destruct (score_files _ _ _ _ _ _ _) as [hs|] eqn:Hfs; [|discriminate].
  simpl. intros [= <-] He. rewrite sort_by_score_desc_perm in He.
  destruct (score_files_elem _ _ _ _ _ _ _ Hfs He) as (f & _ & Hs).
  by apply score_file_fields in Hs as (<- & ? & ? & ?).
Qed.

(** The files of the ranked list, once each, are the scored files. *)
Lemma calculate_hotspots_files (hotspots : list entry) :
  enumerates set_iter ->
  calculate_hotspots set_iter revs locs churn_data author_count
  = Ok hotspots ->
  NoDup (file <$> hotspots) /\
  forall filepath,
    filepath ∈ file <$> hotspots <-> scored revs locs filepath.
Proof.
  intros Henum Hcalc. pose proof Hcalc as Hcalc'.
  unfold calculate_hotspots in Hcalc.
  destruct (score_files _ _ _ _ _ _ _) as [hs|] eqn:Hfs; [|discriminate].
  simpl in Hcalc. injection Hcalc as <-.
  assert (Hnd : NoDup (set_iter (dom revs ∩ dom locs))).
  { rewrite (Henum _). apply NoDup_elements. }
  split.
  { rewrite sort_by_score_desc_perm. eapply score_files_NoDup; eassumption. }
  intros filepath. split.
  - intros Hin. apply list_elem_of_fmap in Hin as (e & -> & He).
    destruct (calculate_hotspots_elem _ _ _ _ _ _ _ Hcalc' He)
      as (f & _ & Hfile & Hr & Hl & Hten & _).
    rewrite Hfile. split; [eauto|]. exists (lines e). auto.
  - intros [Hr (n & Hn & Hten)].
    assert (Hin : filepath ∈ set_iter (dom revs ∩ dom locs)).
    { apply enumerates_elem; [assumption|]. split; [assumption|eauto]. }
    destruct (score_file revs locs churn_data author_count
                (max_or_one revs) (max_or_one locs) filepath)
      as [[e|]|exc] eqn:Hs.
    + apply list_elem_of_fmap. exists e. split.
      * by destruct (score_file_some _ _ _ _ _ _ Hs) as [-> _].
      * rewrite sort_by_score_desc_perm.
        eapply score_files_complete; eassumption.
    + apply score_file_none in Hs as (n' & Hn' & Hsmall).
      rewrite Hn in Hn'. injection Hn' as <-. lia.
    + exfalso. by eapply score_files_raise.
Qed.

End ScoredFacts.

Section AnalysisFacts.

Variable fnmatch : string -> string -> bool.
Variable set_iter : gset string -> list string.
Variable path_join : string -> string -> string.
Variable disk : string -> on_disk.
Variable repo_path : string.
Variable git : git_outputs.
Variable exclusions : list string.

Let revs :=
  get_revision_frequency fnmatch (log_name_only git) (Some exclusions).
Let locs :=
  count_lines_of_code fnmatch path_join disk repo_path (ls_files git)
    (Some exclusions).
Let authorsmap :=
  get_author_count fnmatch (log_authors git) (Some exclusions).
Let churnmap := get_churn_data fnmatch (log_numstat git) (Some exclusions).
Let commit_messages :=
  get_commit_messages fnmatch (log_commits git) (Some exclusions).

(** The analysis is the scorer on the five data sets, then the commits,
    then the hierarchy. *)
Lemma fresh_analysis_steps :
  enumerates set_iter ->
  exists ranked,
    calculate_hotspots set_iter revs locs (Some churnmap) (Some authorsmap)
    = Ok ranked /\
    fresh_analysis fnmatch set_iter path_join disk repo_path git exclusions
    = match attach_commits commit_messages ranked with
      | [] => Exit 1
      | hotspots =>
          match build_hierarchy hotspots with
          | Raise e => Failed e
          | Ok hierarchy => Done (hotspots, hierarchy)
          end
      end.
Proof.
  intros Henum.
  destruct (calculate_hotspots_returns_on_history set_iter fnmatch
              (log_name_only git) (Some exclusions) locs (Some churnmap)
              (Some authorsmap) Henum) as [ranked Hranked].
  exists ranked. split; [exact Hranked|].
  unfold fresh_analysis. fold revs locs authorsmap churnmap commit_messages.
  unfold revs in Hranked |- *. rewrite Hranked.
  by destruct (attach_commits commit_messages ranked).
Qed.

(** A path with a line count is a regular file that was read. *)
Lemma locs_on_disk (p : string) (n : Z) :
  locs !! p = Some n ->
  disk (path_join repo_path p) = Regular (Some n) /\
  should_exclude fnmatch p exclusions = false.
Proof.
  unfold locs, count_lines_of_code. destruct (ls_files git) as [out|];
    [|by rewrite lookup_empty].
  rewrite loc_loop_lookup, lookup_empty. cbn [exclusions_or_default].
  destruct (decide _); [|discriminate].
  unfold readable_lines.
  destruct (String.eqb p ""); [discriminate|].
  destruct (should_exclude fnmatch p exclusions); [discriminate|].
  destruct (disk _) as [| |[m|]]; try discriminate.
  intros [= ->]. auto.
Qed.

Lemma revs_count (p : string) (n : Z) :
  revs !! p = Some n ->
  exists out, log_name_only git = Some out /\
    n = occurrences p (PyStr.split PyStr.LF out) /\ 1 <= n.
Proof.
  unfold revs, get_revision_frequency.
  destruct (log_name_only git) as [out|]; [|by rewrite lookup_empty].
  rewrite revision_loop_lookup, lookup_empty.
  destruct (countable _ _ _); cbn [andb]; [|discriminate].
  destruct (Z.ltb_spec 0 (occurrences p (PyStr.split PyStr.LF out)));
    [|discriminate].
  simpl. intros [= <-]. exists out. split; [reflexivity|]. lia.
Qed.


End AnalysisFacts.



(** X17.  What the fresh analysis hands to the report: a ranked list that is
    not empty, in descending order of score, no file twice, and its
    hierarchy. Of every entry the file is not excluded, it has been
    committed as often as the entry says and at least once, it is a regular
    file of the work tree with the lines the entry says, ten or more; the
    authors and the churn are those of the two other logs, and the commits
    are the list of the commit log, empty when the file has none. *)
Theorem fresh_analysis_result
    (fnmatch : string -> string -> bool)
    (set_iter : gset string -> list string)
    (path_join : string -> string -> string) (disk : string -> on_disk)
    (repo_path : string) (git : git_outputs) (exclusions : list string)
    (hotspots : list entry) (hierarchy : tree) :
  enumerates set_iter ->
  fresh_analysis fnmatch set_iter path_join disk repo_path git exclusions
  = Done (hotspots, hierarchy) ->
  hotspots <> [] /\
  build_hierarchy hotspots = Ok hierarchy /\
  StronglySorted score_ge hotspots /\
  NoDup (file <$> hotspots) /\
  forall e, e ∈ hotspots ->
    should_exclude fnmatch (file e) exclusions = false /\
    (exists out, log_name_only git = Some out /\
       revisions e = occurrences (file e) (PyStr.split PyStr.LF out) /\
       1 <= revisions e) /\
    disk (path_join repo_path (file e)) = Regular (Some (lines e)) /\
    10 <= lines e /\
    authors e
    = get_author_count fnmatch (log_authors git) (Some exclusions)
        !! file e /\
    churn e
    = option_map (fun ad => (fst ad, snd ad, fst ad + snd ad))
        (get_churn_data fnmatch (log_numstat git) (Some exclusions)
           !! file e) /\
    commits e
    = Some (default []
              (get_commit_messages fnmatch (log_commits git)
                 (Some exclusions) !! file e)).
Proof.
  intros Henum.
  destruct (fresh_analysis_steps fnmatch set_iter path_join disk repo_path
              git exclusions Henum) as (ranked & Hranked & ->).
  destruct (calculate_hotspots_files _ _ _ _ _ _ Henum Hranked)
    as [Hnd _].
  pose proof (attach_commits_file
                (get_commit_messages fnmatch (log_commits git)
                   (Some exclusions)) ranked) as Hsame.
  assert (Hsorted : StronglySorted score_ge
            (attach_commits
               (get_commit_messages fnmatch (log_commits git)
                  (Some exclusions)) ranked)).
  { apply attach_commits_sorted. pose proof Hranked as H.
    unfold calculate_hotspots in H.
    destruct (score_files _ _ _ _ _ _ _) as [hs|]; [|discriminate].
    simpl in H. injection H as <-. apply sort_by_score_desc_sorted. }
  pose proof (attach_commits_elem
                (get_commit_messages fnmatch (log_commits git)
                   (Some exclusions)) ranked) as Helem.
  destruct (attach_commits _ ranked) as [|h hs] eqn:Hattach; [discriminate|].
  cbv zeta.
  destruct (build_hierarchy (h :: hs)) as [tree0|exc0] eqn:Hbuild;
    [|discriminate].
  intros [= <- <-].
  split; [discriminate|]. split; [assumption|]. split; [assumption|].
  split; [by rewrite Hsame|].
  intros e He. destruct (Helem e He)
    as (r & Hr & Hfile & Hrevs & Hlines & _ & _ & Hchurn & Hauthors & Hcommits).
  destruct (calculate_hotspots_elem _ _ _ _ _ _ _ Hranked Hr)
    as (f & _ & Hf & Hrev & Hloc & Hten & _).
  destruct (calculate_hotspots_fields _ _ _ _ _ _ _ Hranked Hr)
    as (Hc & Ha & _).
  subst f. rewrite Hfile, Hrevs, Hlines, Hchurn, Hauthors, Hcommits.
  apply locs_on_disk in Hloc as [Hdisk Hex].
  apply revs_count in Hrev.
  repeat split; try assumption.
Qed.

Lemma fresh_analysis_result_witness :
  match
    fresh_analysis fnmatch_simple elements example_path_join example_disk
      "/repo" example_git DEFAULT_EXCLUSIONS
  with
  | Done (hotspots, hierarchy) =>
      hotspots <> [] /\
      build_hierarchy hotspots = Ok hierarchy /\
      StronglySorted score_ge hotspots /\
      NoDup (file <$> hotspots) /\
      forall e, e ∈ hotspots ->
        should_exclude fnmatch_simple (file e) DEFAULT_EXCLUSIONS = false /\
        (exists out, log_name_only example_git = Some out /\
           revisions e = occurrences (file e) (PyStr.split PyStr.LF out) /\
           1 <= revisions e) /\
        example_disk (example_path_join "/repo" (file e))
        = Regular (Some (lines e)) /\
        10 <= lines e /\
        authors e
        = get_author_count fnmatch_simple (log_authors example_git)
            (Some DEFAULT_EXCLUSIONS) !! file e /\
        churn e
        = option_map (fun ad => (fst ad, snd ad, fst ad + snd ad))
            (get_churn_data fnmatch_simple (log_numstat example_git)
               (Some DEFAULT_EXCLUSIONS) !! file e) /\
        commits e
        = Some (default []
                  (get_commit_messages fnmatch_simple
                     (log_commits example_git) (Some DEFAULT_EXCLUSIONS)
                     !! file e))
  | _ => False
  end.
Proof.
  destruct (fresh_analysis fnmatch_simple elements example_path_join
              example_disk "/repo" example_git DEFAULT_EXCLUSIONS)
    as [[hotspots hierarchy]|code|exc] eqn:Hrun.
  - apply (fresh_analysis_result fnmatch_simple elements example_path_join
             example_disk "/repo" example_git DEFAULT_EXCLUSIONS hotspots
             hierarchy); [intros s; reflexivity|exact Hrun].
  - vm_compute in Hrun. discriminate Hrun.
  - vm_compute in Hrun. discriminate Hrun.
Defined.

(** The analysis of the small repository: the image is excluded, the file
    of eight lines is too small, and one entry is left, with its two
    revisions, two authors, its churn and its two commits. *)
Example fresh_analysis_of_example :
  fresh_analysis fnmatch_simple elements example_path_join example_disk
    "/repo" example_git DEFAULT_EXCLUSIONS
  = Done
      ([ mk_entry "src/a.py" 2 120 1 1 (Some (35, 3, 38)) (Some 2)
           (Some [ mk_commit "ab12" "Ann" "2024-01-05" "first";
                   mk_commit "cd34" "Bob" "2024-02-01" "second" ]) ],
       TDir "root"
         (Some
            [ TDir "src"
                (Some
                   [ TFile
                       (mk_leaf "a.py" "src/a.py" 120 2 1 1 (Some 2)
                          (Some 38)
                          (Some [ mk_commit "ab12" "Ann" "2024-01-05" "first";
                                  mk_commit "cd34" "Bob" "2024-02-01"
                                    "second" ])) ]) ])).
Proof. vm_compute. reflexivity. Qed.

(** X18.  When git fails on the log of the revisions or on the list of
    tracked files, the analysis ends with exit code 1 and no exception; the
    three other logs are not needed for a result. *)
Theorem git_failure_exits
    (fnmatch : string -> string -> bool)
    (set_iter : gset string -> list string)
    (path_join : string -> string -> string) (disk : string -> on_disk)
    (repo_path : string) (git : git_outputs) (exclusions : list string) :
  enumerates set_iter ->
  log_name_only git = None \/ ls_files git = None ->
  fresh_analysis fnmatch set_iter path_join disk repo_path git exclusions
  = Exit 1.
Proof.
  intros Henum Hfail.
  destruct (fresh_analysis_steps fnmatch set_iter path_join disk repo_path
              git exclusions Henum) as (ranked & Hranked & ->).
  destruct (calculate_hotspots_files _ _ _ _ _ _ Henum Hranked)
    as [_ Hfiles].
  assert (Hnil : ranked = []).
  { destruct ranked as [|e es]; [reflexivity|]. exfalso.
    destruct (Hfiles (file e)) as [[[r Hr] (n & Hn & _)] _];
      [apply list_elem_of_here|].
    destruct Hfail as [Hlog|Hls].
    - rewrite Hlog in Hr. cbn in Hr. by rewrite lookup_empty in Hr.
    - rewrite Hls in Hn. cbn in Hn. by rewrite lookup_empty in Hn. }
  by rewrite Hnil.
Qed.

Lemma git_failure_exits_witness :
  fresh_analysis fnmatch_simple elements example_path_join example_disk
    "/repo"
    (mk_git_outputs None (ls_files example_git) (log_authors example_git)
       (log_numstat example_git) (log_commits example_git))
    DEFAULT_EXCLUSIONS
  = Exit 1.
Proof.
  apply git_failure_exits; [intros s; reflexivity|].
  left. reflexivity.
Defined.

(** ** The cache in [main] *)

Lemma load_cache_valid (at_cache_path : cache_file)
    (current_head current_count : option string) (cached : option pyval) :
  load_cache at_cache_path current_head current_count = Ok (cached, true) ->
  exists d,
    at_cache_path = Stored (PDict d) /\ cached = Some (PDict d) /\
    stored_value d "git_head" = py_of_output current_head /\
    stored_value d "commit_count" = py_of_output current_count.
Proof.
  destruct at_cache_path as [| |v]; cbn [load_cache]; try discriminate.
  destruct v; try discriminate. unfold py_get, rbind.
  fold (stored_value d "git_head"). fold (stored_value d "commit_count").
  destruct (py_eq current_head _ && py_eq current_count _) eqn:E;
    [|discriminate].
  intros [= <-]. apply andb_true_iff in E as [E1 E2].
  apply py_eq_true in E1, E2. eauto.
Qed.

Lemma load_cache_stored (d : list (string * pyval))
    (current_head current_count : option string) :
  load_cache (Stored (PDict d)) current_head current_count
  = Ok (Some (PDict d),
        py_eq current_head (stored_value d "git_head")
        && py_eq current_count (stored_value d "commit_count")).
Proof.
  cbn [load_cache]. unfold py_get, rbind.
  fold (stored_value d "git_head"). fold (stored_value d "commit_count").
  by destruct (_ && _).
Qed.

Lemma build_exclusions_Permutation (no_default_excludes : bool)
    (exclude1 exclude2 : list string) :
  exclude1 ≡ₚ exclude2 ->
  build_exclusions no_default_excludes exclude1
  ≡ₚ build_exclusions no_default_excludes exclude2.
Proof.
  intros Hperm. unfold build_exclusions.
  destruct no_default_excludes; [assumption|]. by apply Permutation_app_head.
Qed.

Section MainFacts.

Variable path_join : string -> string -> string.
Variable abspath : string -> string.
Variable digest : string * string * list string -> string.
Variable CACHE_DIR : string.
Variable py_of_commit_messages : gmap string (list commit) -> pyval.

Lemma analyze_and_save_remembers
    (fnmatch : string -> string -> bool)
    (set_iter : gset string -> list string) (disk : string -> on_disk)
    (o : options) (exclusions : list string) (files files' : cache_dir)
    (repo_path : string) (git : git_outputs) (head count : option string)
    (analyzed_at cached_at : string) (data : list (string * pyval)) :
  opt_cache o = true ->
  analyze_and_save fnmatch set_iter path_join disk abspath digest CACHE_DIR
    py_of_commit_messages o exclusions files true repo_path git head count
    analyzed_at cached_at = (files', Done data) ->
  remembers abspath digest path_join CACHE_DIR files' repo_path
    (opt_since o) exclusions head count data.
Proof.
  intros Hcache. unfold analyze_and_save.
  destruct (fresh_analysis _ _ _ _ _ _ _) as [[hotspots hierarchy]| |];
    try discriminate.
  rewrite Hcache, orb_true_r. unfold save_cache. cbv zeta. cbn [fst].
  intros [= <- <-].
  eexists. split; [unfold cache_dir; apply lookup_insert_eq|].
  split; [apply with_metadata_head|]. split; [apply with_metadata_head|].
  split; [|split].
  - intros k H1 H2 H3 H4. unfold with_metadata. rewrite !dict_get_set.
    apply String.eqb_neq in H1, H2, H3, H4. by rewrite H1, H2, H3, H4.
  - unfold with_metadata. rewrite !dict_get_set. cbn. eauto.
  - unfold with_metadata. rewrite !dict_get_set. cbn. eauto.
Qed.

Lemma main_data_remembers
    (fnmatch : string -> string -> bool)
    (set_iter : gset string -> list string) (disk : string -> on_disk)
    (o : options) (files files' : cache_dir)
    (repo_path : string) (git : git_outputs) (head count : option string)
    (analyzed_at cached_at : string) (data : list (string * pyval)) :
  opt_cache o = true ->
  main_data fnmatch set_iter path_join disk abspath digest CACHE_DIR
    py_of_commit_messages o files true repo_path git head count analyzed_at
    cached_at = (files', Done data) ->
  remembers abspath digest path_join CACHE_DIR files' repo_path
    (opt_since o)
    (build_exclusions (opt_no_default_excludes o) (opt_exclude o))
    head count data.
Proof.
  intros Hcache. unfold main_data. cbv zeta.
  set (exclusions :=
         build_exclusions (opt_no_default_excludes o) (opt_exclude o)).
  set (files0 := if opt_clear_cache o then _ else files).
  destruct (opt_cache o && negb (opt_no_cache o));
    [|by apply analyze_and_save_remembers].
  unfold load_cache_from, at_path.
  destruct (load_cache _ head count) as [[cached [|]]|exc] eqn:Hload;
    [|by apply analyze_and_save_remembers|discriminate].
  apply load_cache_valid in Hload as (d & Hat & -> & Hhead & Hcount).
  destruct (dict_get "hotspots" d) as [hs|] eqn:Hhs; [|discriminate].
  destruct (dict_get "hierarchy" d) as [hy|] eqn:Hhy; [|discriminate].
  intros [= <- <-]. exists d.
  split; [|rewrite Hhs, Hhy; eauto 10].
  destruct (files0 !! _) as [[v|]|]; try discriminate.
  by injection Hat as ->.
Qed.

Lemma main_data_of_remembered
    (fnmatch : string -> string -> bool)
    (set_iter : gset string -> list string) (disk : string -> on_disk)
    (o : options) (files : cache_dir) (writable : bool)
    (repo_path : string) (git : git_outputs)
    (head count current_head current_count : option string)
    (analyzed_at cached_at : string) (data : list (string * pyval))
    (exclusions : list string) :
  opt_cache o = true -> opt_no_cache o = false -> opt_clear_cache o = false ->
  exclusions
  ≡ₚ build_exclusions (opt_no_default_excludes o) (opt_exclude o) ->
  remembers abspath digest path_join CACHE_DIR files repo_path
    (opt_since o) exclusions head count data ->
  main_data fnmatch set_iter path_join disk abspath digest CACHE_DIR
    py_of_commit_messages o files writable repo_path git current_head
    current_count analyzed_at cached_at
  = if bool_decide (current_head = head)
       && bool_decide (current_count = count)
    then (files,
          Done (match at_path files
                        (get_cache_path path_join CACHE_DIR
                           (generate_cache_key abspath digest repo_path
                              (opt_since o) (Some exclusions))) with
                | Stored (PDict d) => d
                | _ => []
                end))
    else analyze_and_save fnmatch set_iter path_join disk abspath digest
           CACHE_DIR py_of_commit_messages o
           (build_exclusions (opt_no_default_excludes o) (opt_exclude o))
           files writable repo_path git current_head current_count
           analyzed_at cached_at.
Proof.
  intros Hcache Hno Hclear Hperm (d & Hfile & Hhead & Hcount & _ & Hhs & Hhy).
  unfold main_data. cbv zeta. rewrite Hcache, Hno, Hclear. cbn [andb negb].
  unfold load_cache_from.
  rewrite <- (generate_cache_key_Permutation abspath digest repo_path
                (opt_since o) _ _ Hperm).
  unfold at_path. rewrite Hfile, load_cache_stored, Hhead, Hcount.
  rewrite !py_eq_decide.
  destruct (bool_decide (current_head = head)
            && bool_decide (current_count = count)); [|reflexivity].
  destruct Hhs as [hs ->]. by destruct Hhy as [hy ->].
Qed.

End MainFacts.

(** X19.  A run with [--cache] that ends with data leaves a cache that the
    next run with [--cache] uses as long as the head commit and the number
    of commits are those of the first run: the second run returns the
    hotspots and the hierarchy of the first, whatever the logs and the work
    tree now hold and in whatever order the [--exclude] options come, and
    leaves the cache as it is. When the head or the count has changed the
    second run is a fresh analysis. *)
Theorem second_run_uses_the_cache
    (path_join : string -> string -> string) (abspath : string -> string)
    (digest : string * string * list string -> string) (CACHE_DIR : string)
    (py_of_commit_messages : gmap string (list commit) -> pyval)
    (fnmatch1 fnmatch2 : string -> string -> bool)
    (set_iter1 set_iter2 : gset string -> list string)
    (disk1 disk2 : string -> on_disk) (o1 o2 : options)
    (files files1 : cache_dir) (writable2 : bool) (repo_path : string)
    (git1 git2 : git_outputs) (head count : option string)
    (analyzed_at1 cached_at1 analyzed_at2 cached_at2 : string)
    (data1 : list (string * pyval)) :
  opt_cache o1 = true ->
  opt_cache o2 = true -> opt_no_cache o2 = false ->
  opt_clear_cache o2 = false ->
  opt_since o2 = opt_since o1 ->
  opt_no_default_excludes o2 = opt_no_default_excludes o1 ->
  opt_exclude o2 ≡ₚ opt_exclude o1 ->
  main_data fnmatch1 set_iter1 path_join disk1 abspath digest CACHE_DIR
    py_of_commit_messages o1 files true repo_path git1 head count
    analyzed_at1 cached_at1 = (files1, Done data1) ->
  (exists data2,
     main_data fnmatch2 set_iter2 path_join disk2 abspath digest CACHE_DIR
       py_of_commit_messages o2 files1 writable2 repo_path git2 head count
       analyzed_at2 cached_at2 = (files1, Done data2) /\
     dict_get "hotspots" data2 = dict_get "hotspots" data1 /\
     dict_get "hierarchy" data2 = dict_get "hierarchy" data1 /\
     is_Some (dict_get "hotspots" data1) /\
     is_Some (dict_get "hierarchy" data1)) /\
  (forall head2 count2,
     head2 <> head \/ count2 <> count ->
     main_data fnmatch2 set_iter2 path_join disk2 abspath digest CACHE_DIR
       py_of_commit_messages o2 files1 writable2 repo_path git2 head2 count2
       analyzed_at2 cached_at2
     = analyze_and_save fnmatch2 set_iter2 path_join disk2 abspath digest
         CACHE_DIR py_of_commit_messages o2
         (build_exclusions (opt_no_default_excludes o2) (opt_exclude o2))
         files1 writable2 repo_path git2 head2 count2 analyzed_at2
         cached_at2).
Proof.
  intros Hc1 Hc2 Hno2 Hclear2 Hsince Hdefaults Hexclude Hrun1.
  pose proof (main_data_remembers path_join abspath digest CACHE_DIR
                py_of_commit_messages _ _ _ _ _ _ _ _ _ _ _ _ _ Hc1 Hrun1)
    as Hmem.
  rewrite <- Hsince, <- Hdefaults in Hmem.
  assert (Hperm :
    build_exclusions (opt_no_default_excludes o2) (opt_exclude o1)
    ≡ₚ build_exclusions (opt_no_default_excludes o2) (opt_exclude o2))
    by (by apply build_exclusions_Permutation).
  split.
  - rewrite (main_data_of_remembered path_join abspath digest CACHE_DIR
               py_of_commit_messages fnmatch2 set_iter2 disk2 o2 files1
               writable2 repo_path git2 head count head count analyzed_at2
               cached_at2 data1 _ Hc2 Hno2 Hclear2 Hperm Hmem).
    rewrite !bool_decide_eq_true_2 by reflexivity. cbn [andb].
    destruct Hmem as (d & Hfile & _ & _ & Hkeys & Hhs & Hhy).
    unfold at_path. rewrite Hfile. exists d. split; [reflexivity|].
    rewrite <- !Hkeys by discriminate. auto.
  - intros head2 count2 Hchanged.
    rewrite (main_data_of_remembered path_join abspath digest CACHE_DIR
               py_of_commit_messages fnmatch2 set_iter2 disk2 o2 files1
               writable2 repo_path git2 head count head2 count2 analyzed_at2
               cached_at2 data1 _ Hc2 Hno2 Hclear2 Hperm Hmem).
    destruct (bool_decide_reflect (head2 = head)) as [->|_];
      [|reflexivity].
    destruct (bool_decide_reflect (count2 = count)) as [->|_];
      [|reflexivity].
    by destruct Hchanged.
Qed.

Lemma second_run_uses_the_cache_witness :
  match
    main_data fnmatch_simple elements example_path_join example_disk
      example_abspath example_digest ".cache" example_py_of_commit_messages
      example_options ∅ true "/repo" example_git (Some "ab12") (Some "2")
      "t1" "t2"
  with
  | (files1, Done data1) =>
      (exists data2,
         main_data fnmatch_simple elements example_path_join
           (fun _ => Missing) example_abspath example_digest ".cache"
           example_py_of_commit_messages example_options files1 false
           "/repo" (mk_git_outputs None None None None None)
           (Some "ab12") (Some "2") "t3" "t4" = (files1, Done data2) /\
         dict_get "hotspots" data2 = dict_get "hotspots" data1 /\
         dict_get "hierarchy" data2 = dict_get "hierarchy" data1 /\
         is_Some (dict_get "hotspots" data1) /\
         is_Some (dict_get "hierarchy" data1)) /\
      (forall head2 count2,
         head2 <> Some "ab12" \/ count2 <> Some "2" ->
         main_data fnmatch_simple elements example_path_join
           (fun _ => Missing) example_abspath example_digest ".cache"
           example_py_of_commit_messages example_options files1 false
           "/repo" (mk_git_outputs None None None None None) head2 count2
           "t3" "t4"
         = analyze_and_save fnmatch_simple elements example_path_join
             (fun _ => Missing) example_abspath example_digest ".cache"
             example_py_of_commit_messages example_options
             (build_exclusions (opt_no_default_excludes example_options)
                (opt_exclude example_options))
             files1 false "/repo" (mk_git_outputs None None None None None)
             head2 count2 "t3" "t4")
  | _ => False
  end.
Proof.
  destruct (main_data fnmatch_simple elements example_path_join example_disk
              example_abspath example_digest ".cache"
              example_py_of_commit_messages example_options ∅ true "/repo"
              example_git (Some "ab12") (Some "2") "t1" "t2")
    as [files1 [data1|code|exc]] eqn:Hrun.
  - apply (second_run_uses_the_cache example_path_join example_abspath
             example_digest ".cache" example_py_of_commit_messages
             fnmatch_simple fnmatch_simple elements elements example_disk
             (fun _ => Missing) example_options example_options ∅ files1
             false "/repo" example_git
             (mk_git_outputs None None None None None) (Some "ab12")
             (Some "2") "t1" "t2" "t3" "t4" data1);
      [reflexivity..|exact Hrun].
  - vm_compute in Hrun. discriminate Hrun.
  - vm_compute in Hrun. discriminate Hrun.
Defined.

(** X20.  The cache is read only with [--cache] and without [--no-cache],
    and written only with [--cache]: otherwise the data do not depend on
    what the cache directory holds, and without [--cache] and
    [--clear-cache] the directory is left as it was. *)
Theorem cache_flags
    (fnmatch : string -> string -> bool)
    (set_iter : gset string -> list string)
    (path_join : string -> string -> string) (disk : string -> on_disk)
    (abspath : string -> string)
    (digest : string * string * list string -> string) (CACHE_DIR : string)
    (py_of_commit_messages : gmap string (list commit) -> pyval)
    (o : options) (files : cache_dir) (writable : bool) (repo_path : string)
    (git : git_outputs) (head count : option string)
    (analyzed_at cached_at : string) :
  (opt_cache o && negb (opt_no_cache o) = false ->
   forall files',
     snd (main_data fnmatch set_iter path_join disk abspath digest CACHE_DIR
            py_of_commit_messages o files writable repo_path git head count
            analyzed_at cached_at)
     = snd (main_data fnmatch set_iter path_join disk abspath digest
              CACHE_DIR py_of_commit_messages o files' writable repo_path git
              head count analyzed_at cached_at)) /\
  (opt_cache o = false -> opt_clear_cache o = false ->
   fst (main_data fnmatch set_iter path_join disk abspath digest CACHE_DIR
          py_of_commit_messages o files writable repo_path git head count
          analyzed_at cached_at)
   = files).
Proof.
  split.
  - intros Huse files'. unfold main_data. cbv zeta. rewrite Huse.
    unfold analyze_and_save.
    destruct (fresh_analysis _ _ _ _ _ _ _) as [[hotspots hierarchy]| |];
      try reflexivity.
    rewrite Huse. by destruct (opt_cache o).
  - intros Hcache Hclear. unfold main_data. cbv zeta.
    rewrite Hcache, Hclear. cbn [andb]. unfold analyze_and_save.
    destruct (fresh_analysis _ _ _ _ _ _ _) as [[hotspots hierarchy]| |];
      try reflexivity.
    by rewrite Hcache.
Qed.

(** ** The list of cached analyses *)

Lemma string_length_append (s p : string) :
  String.length (s +:+ p) = (String.length s + String.length p)%nat.
Proof.
  induction s as [|c s IH]; [reflexivity|].
  change (String c s +:+ p) with (String c (s +:+ p)).
  cbn [String.length]. by rewrite IH.
Qed.

Lemma slice_from_append (s p : string) :
  PyStr.slice_from (String.length s) (s +:+ p) = p.
Proof.
  induction s as [|c s IH]; [by destruct p|].
  change (String c s +:+ p) with (String c (s +:+ p)).
  cbn [String.length PyStr.slice_from]. exact IH.
Qed.

Lemma endswith_append (s p : string) : PyStr.endswith (s +:+ p) p = true.
Proof.
  unfold PyStr.endswith. rewrite string_length_append.
  apply andb_true_iff. split; [apply Nat.leb_le; lia|].
  replace (String.length s + String.length p - String.length p)%nat
    with (String.length s) by lia.
  rewrite slice_from_append. apply String.eqb_refl.
Qed.

Section ListingFacts.

Variable path_join : string -> string -> string.
Variable CACHE_DIR : string.

Lemma list_cached_files_app (files : cache_dir) (names1 names2 : list string)
    (records1 records2 : list cached_analysis) :
  list_cached_files path_join CACHE_DIR files names1 = inr records1 ->
  list_cached_files path_join CACHE_DIR files names2 = inr records2 ->
  list_cached_files path_join CACHE_DIR files (names1 ++ names2)%list
  = inr (records1 ++ records2)%list.
Proof.
  revert records1. induction names1 as [|name names1 IH]; intros records1;
    cbn [list_cached_files app].
  - by intros [= <-].
  - destruct (PyStr.endswith name ".json"); [|by apply IH].
    destruct (files !! path_join CACHE_DIR name) as [[data|]|];
      [|by apply IH..].
    destruct (describe_cache_file name data) as [e|record]; [discriminate|].
    destruct (list_cached_files path_join CACHE_DIR files names1)
      as [e|cached] eqn:Hrest; [discriminate|].
    intros [= <-] H2. by rewrite (IH cached eq_refl H2).
Qed.

(** A file written at another path does not show in the records of the
    names. *)
Lemma list_cached_files_insert (files : cache_dir) (path : string)
    (v : option pyval) (names : list string) :
  Forall (fun name => path_join CACHE_DIR name <> path) names ->
  list_cached_files path_join CACHE_DIR (<[path := v]> files) names
  = list_cached_files path_join CACHE_DIR files names.
Proof.
  induction 1 as [|name names Hname _ IH]; [reflexivity|].
  cbn [list_cached_files]. unfold cache_dir in *.
  rewrite lookup_insert_ne by congruence. by rewrite IH.
Qed.



End ListingFacts.


(** A directory with a cache file, a file that cannot be parsed, and a
    file of another kind. *)
Example list_cached_analyses_of_three_files :
  list_cached_analyses example_path_join ".cache"
    {[ ".cache/abc.json" :=
         Some (PDict [("repository", PStr "/repo");
                      ("hotspots", PList [PNone; PNone]);
                      ("since_date", PNone)]);
       ".cache/broken.json" := None;
       ".cache/notes.txt" := Some (PList []) ]}
    (Some ["notes.txt"; "broken.json"; "abc.json"; "gone.json"])
  = inr [ mk_cached_analysis "abc.json" (PStr "/repo") (PStr "Unknown")
            PNone 2 ].
Proof. vm_compute. reflexivity. Qed.

(** A cache file that holds a list stops the function. *)
Example list_cached_analyses_of_a_list :
  list_cached_analyses example_path_join ".cache"
    {[ ".cache/abc.json" := Some (PList []) ]} (Some ["abc.json"])
  = inl GetOnNonDict.
Proof. vm_compute. reflexivity. Qed.

(** X22.  An analysis that [main] saved is in the list of cached
    analyses, with the repository path, the time of saving, the [--since]
    date ([None] when there was none) and the number of hotspots; the
    records of the other files of the directory stay as they were. *)
Theorem saved_analysis_is_listed
    (abspath : string -> string)
    (digest : string * string * list string -> string)
    (path_join : string -> string -> string) (CACHE_DIR : string)
    (py_of_commit_messages : gmap string (list commit) -> pyval)
    (files : cache_dir) (repo_path : string) (since : option string)
    (exclusions : option (list string)) (analyzed_at cached_at : string)
    (hotspots : list entry) (hierarchy : tree)
    (commit_messages : gmap string (list commit))
    (head count : option string)
    (names1 names2 : list string) (records1 records2 : list cached_analysis) :
  Forall
    (fun name =>
       path_join CACHE_DIR name
       <> get_cache_path path_join CACHE_DIR
            (generate_cache_key abspath digest repo_path since exclusions))
    (names1 ++ names2)%list ->
  list_cached_analyses path_join CACHE_DIR files (Some names1)
  = inr records1 ->
  list_cached_analyses path_join CACHE_DIR files (Some names2)
  = inr records2 ->
  list_cached_analyses path_join CACHE_DIR
    (fst (save_cache abspath digest path_join CACHE_DIR files true repo_path
            since exclusions
            (analysis_data py_of_commit_messages repo_path since analyzed_at
               hotspots hierarchy commit_messages)
            head count cached_at))
    (Some
       (names1
        ++ (generate_cache_key abspath digest repo_path since exclusions
            +:+ ".json") :: names2)%list)
  = inr
      (records1
       ++ mk_cached_analysis
            (generate_cache_key abspath digest repo_path since exclusions
             +:+ ".json")
            (PStr repo_path) (PStr cached_at) (py_of_output since)
            (Z.of_nat (length hotspots))
          :: records2)%list.
Proof.
  intros Hother H1 H2. apply Forall_app in Hother as [Hother1 Hother2].
  unfold save_cache. cbv zeta. cbn [fst list_cached_analyses] in *.
  apply list_cached_files_app.
  - by rewrite list_cached_files_insert.
  - cbn [list_cached_files]. rewrite endswith_append.
    fold (get_cache_path path_join CACHE_DIR
            (generate_cache_key abspath digest repo_path since exclusions)).
    unfold cache_dir in *. rewrite lookup_insert_eq.
    rewrite list_cached_files_insert by assumption. rewrite H2.
    unfold describe_cache_file, with_metadata, analysis_data.
    rewrite !dict_get_set. cbn.
    by rewrite length_map.
Qed.

Lemma saved_analysis_is_listed_witness :
  list_cached_analyses example_path_join ".cache"
    (fst (save_cache example_abspath example_digest example_path_join
            ".cache" {[ ".cache/old.json" := Some (PDict []) ]} true "/repo"
            (Some "2024-01-01") None
            (analysis_data example_py_of_commit_messages "/repo"
               (Some "2024-01-01") "t1" three_files three_files_tree ∅)
            (Some "ab12") (Some "2") "t2"))
    (Some
       (["old.json"]
        ++ (generate_cache_key example_abspath example_digest "/repo"
              (Some "2024-01-01") None +:+ ".json") :: ["notes.txt"])%list)
  = inr
      ([mk_cached_analysis "old.json" (PStr "Unknown") (PStr "Unknown")
          (PStr "All time") 0]
       ++ mk_cached_analysis
            (generate_cache_key example_abspath example_digest "/repo"
               (Some "2024-01-01") None +:+ ".json")
            (PStr "/repo") (PStr "t2") (py_of_output (Some "2024-01-01"))
            (Z.of_nat (length three_files))
          :: [])%list.
Proof.
  apply (saved_analysis_is_listed example_abspath example_digest
           example_path_join ".cache" example_py_of_commit_messages
           {[ ".cache/old.json" := Some (PDict []) ]} "/repo"
           (Some "2024-01-01") None "t1" "t2" three_files three_files_tree ∅
           (Some "ab12") (Some "2") ["old.json"] ["notes.txt"]).
  - repeat constructor; vm_compute; discriminate.
  - vm_compute. reflexivity.
  - vm_compute. reflexivity.
Defined.
